(** * Public-transport protocol: framed messages, persistence and the
      central server's handlers.

    A shallow embedding of
      - [Message] (include/common/Message.h, Message.cpp),
      - [Database] (include/common/Database.h, Database.cpp),
      - the request handlers of [CentralServer] (src/server/CentralServer.cpp),
    followed by the properties established about them.

    Conventions.  Fixed-width unsigned integers are [Z] with the wrap-around
    written as [mod 2^w]; wire bytes are [list byte]; [std::string] is
    [string]; [std::map<std::string,std::string>] is an association list kept
    in strictly ascending key order (the iteration order of [std::map]);
    [size_t] is taken to be 64 bits wide, so sums of a position and a 32-bit
    length never wrap. *)

From Stdlib Require Import ZArith List String Ascii Bool Lia QArith.
From Stdlib Require Import Strings.Byte.
From Stdlib Require Import DecimalString.
From Stdlib Require DecimalPos.
Import ListNotations.

Local Open Scope string_scope.
Local Open Scope list_scope.
Local Open Scope Z_scope.

(* ================================================================== *)
(** * Part I.  Definitions                                              *)
(* ================================================================== *)

(** ** Bytes and network byte order *)

Definition byte_to_Z (b : byte) : Z := Z.of_N (Byte.to_N b).

Definition byte_of_Z (z : Z) : byte :=
  match Byte.of_N (Z.to_N (z mod 256)) with
  | Some b => b
  | None => x00
  end.

(** [htons] followed by a byte-wise copy: most significant byte first. *)
Definition put_u16 (z : Z) : list byte :=
  [byte_of_Z (z / 256); byte_of_Z z].

(** [htonl] followed by a byte-wise copy. *)
Definition put_u32 (z : Z) : list byte :=
  [byte_of_Z (z / 16777216); byte_of_Z (z / 65536);
   byte_of_Z (z / 256); byte_of_Z z].

(** [memcpy] of two bytes followed by [ntohs]; missing bytes read as 0
    (callers check the size first). *)
Definition get_u16 (l : list byte) : Z :=
  byte_to_Z (nth 0 l x00) * 256 + byte_to_Z (nth 1 l x00).

(** [memcpy] of four bytes followed by [ntohl]. *)
Definition get_u32 (l : list byte) : Z :=
  byte_to_Z (nth 0 l x00) * 16777216 + byte_to_Z (nth 1 l x00) * 65536
  + byte_to_Z (nth 2 l x00) * 256 + byte_to_Z (nth 3 l x00).

Definition two32 : Z := 4294967296.

(** [data.size()] and [str.length()] as integers. *)
Definition zlen {A} (l : list A) : Z := Z.of_nat (List.length l).
Definition slen (s : string) : Z := Z.of_nat (String.length s).

(** ** std::to_string(int) and std::stoi *)

Definition INT_MIN : Z := -2147483648.
Definition INT_MAX : Z := 2147483647.

(** [std::to_string] of an integer: decimal digits, a leading [-] when
    negative. *)
Definition to_string (z : Z) : string := NilZero.string_of_int (Z.to_int z).

(** [isspace] in the "C" locale. *)
Definition is_space (a : ascii) : bool :=
  let n := nat_of_ascii a in
  (Nat.eqb n 32 || (Nat.leb 9 n && Nat.leb n 13))%bool.

Definition digit_of (a : ascii) : option Z :=
  let n := Z.of_nat (nat_of_ascii a) in
  if (48 <=? n) && (n <=? 57) then Some (n - 48) else None.

Fixpoint skip_space (s : string) : string :=
  match s with
  | String a r => if is_space a then skip_space r else s
  | EmptyString => s
  end.

(** Value of the longest prefix of decimal digits; [None] when the prefix is
    empty ([strtol] performed no conversion). *)
Fixpoint digits_from (s : string) (acc : option Z) : option Z :=
  match s with
  | String a r =>
      match digit_of a with
      | Some d =>
          digits_from r (Some (match acc with Some v => 10 * v + d | None => d end))
      | None => acc
      end
  | EmptyString => acc
  end.

(** Outcome of a call that may throw. *)
Inductive outcome (A : Type) : Type :=
| Returned (a : A)
| Thrown (what : string).
Arguments Returned {A} a.
Arguments Thrown {A} what.

Definition obind {A B} (x : outcome A) (f : A -> outcome B) : outcome B :=
  match x with
  | Returned a => f a
  | Thrown w => Thrown w
  end.

(** [std::stoi(s)]: skip white space, an optional sign, then at least one
    decimal digit; [std::invalid_argument] when no digit is found,
    [std::out_of_range] when the value does not fit an [int]. *)
Definition stoi (s : string) : outcome Z :=
  let s1 := skip_space s in
  let '(neg, s2) :=
    match s1 with
    | String "-"%char r => (true, r)
    | String "+"%char r => (false, r)
    | _ => (false, s1)
    end in
  match digits_from s2 None with
  | None => Thrown "std::invalid_argument"
  | Some v =>
      let n := if neg then - v else v in
      if (INT_MIN <=? n) && (n <=? INT_MAX) then Returned n
      else Thrown "std::out_of_range"
  end.

(** ** std::to_string(double)

    [std::to_string] prints a [double] as ["%f"]: six decimals, rounded to
    nearest, ties to even. *)

Definition round_half_even (n d : Z) : Z :=
  let f := n / d in
  let r2 := 2 * (n mod d) in
  if r2 <? d then f
  else if d <? r2 then f + 1
  else if Z.even f then f else f + 1.

Fixpoint zeros (n : nat) : string :=
  match n with
  | O => ""
  | S k => String "0"%char (zeros k)
  end.

Definition to_string_double (q : Q) : string :=
  let n := round_half_even (Z.abs (Qnum q) * 1000000) (Zpos (Qden q)) in
  let frac := to_string (n mod 1000000) in
  let sign := if Qnum q <? 0 then "-" else "" in
  (sign ++ to_string (n / 1000000) ++ "."
   ++ zeros (6 - String.length frac) ++ frac)%string.

(** ** std::map<std::string, std::string> *)

Definition smap := list (string * string).

(** [data_[key] = value]: insert in key order, or replace. *)
Fixpoint map_set (k v : string) (m : smap) : smap :=
  match m with
  | [] => [(k, v)]
  | (k', v') :: t =>
      match String.compare k k' with
      | Lt => (k, v) :: m
      | Eq => (k, v) :: t
      | Gt => (k', v') :: map_set k v t
      end
  end.

(** [data_.find(key)]. *)
Fixpoint map_find (k : string) (m : smap) : option string :=
  match m with
  | [] => None
  | (k', v') :: t => if String.eqb k k' then Some v' else map_find k t
  end.

(** The assignments [data_[k] = v] of a list of pairs, in turn. *)
Definition assign_all (l acc : smap) : smap :=
  fold_left (fun a p => map_set (fst p) (snd p) a) l acc.

(** Every key and value has a length that fits a 32-bit field. *)
Definition pairs_fit (l : smap) : Prop :=
  forall p, In p l -> slen (fst p) < two32 /\ slen (snd p) < two32.

(** ** Message *)

Module Message.

Definition MAGIC : Z := 0x54504D50.

(** [struct Header] (packed, 24 bytes). *)
Record Header := mkHeader {
  magic : Z;        (* uint32_t *)
  version : Z;      (* uint16_t *)
  type : Z;         (* MessageType : uint16_t *)
  length : Z;       (* uint32_t *)
  sequence_id : Z;  (* uint32_t *)
  session_id : Z;   (* uint32_t *)
  checksum : Z      (* uint32_t *)
}.

Definition HEADER_SIZE : Z := 24.

Record t := mk {
  header_ : Header;
  data_ : smap
}.

Definition set_length (h : Header) (n : Z) : Header :=
  mkHeader (magic h) (version h) (type h) n (sequence_id h) (session_id h) (checksum h).

Definition set_checksum (h : Header) (c : Z) : Header :=
  mkHeader (magic h) (version h) (type h) (length h) (sequence_id h) (session_id h) c.

Definition set_type (h : Header) (ty : Z) : Header :=
  mkHeader (magic h) (version h) ty (length h) (sequence_id h) (session_id h) (checksum h).

(** [Message::encodeData]. *)
Fixpoint encode_pairs (m : smap) : list byte :=
  match m with
  | [] => []
  | (k, v) :: r =>
      put_u32 (slen k) ++ list_byte_of_string k
      ++ put_u32 (slen v) ++ list_byte_of_string v
      ++ encode_pairs r
  end.

Definition encodeData (m : t) : list byte := encode_pairs (data_ m).

(** [Message::clear], which the constructors call. *)
Definition clear : t := mk (mkHeader MAGIC 1 0 0 0 0 0) [].

(** [Message::Message(MessageType)]. *)
Definition create (ty : Z) : t := mk (set_type (header_ clear) ty) [].

Definition setType (m : t) (ty : Z) : t := mk (set_type (header_ m) ty) (data_ m).
Definition setSequenceId (m : t) (s : Z) : t :=
  let h := header_ m in
  mk (mkHeader (magic h) (version h) (type h) (length h) s (session_id h) (checksum h))
     (data_ m).
Definition setSessionId (m : t) (s : Z) : t :=
  let h := header_ m in
  mk (mkHeader (magic h) (version h) (type h) (length h) (sequence_id h) s (checksum h))
     (data_ m).
Definition getType (m : t) : Z := type (header_ m).

(** [Message::addString]: store, then refresh [header_.length]. *)
Definition addString (m : t) (k v : string) : t :=
  let d := map_set k v (data_ m) in
  mk (set_length (header_ m) (zlen (encode_pairs d) mod two32)) d.

Definition addInt (m : t) (k : string) (v : Z) : t := addString m k (to_string v).

(** [Message::addDouble], for a finite value. *)
Definition addDouble (m : t) (k : string) (v : Q) : t :=
  addString m k (to_string_double v).

Definition addBool (m : t) (k : string) (v : bool) : t :=
  addString m k (if v then "true" else "false").

(** [std::string::pop_back]. *)
Fixpoint pop_back (s : string) : string :=
  match s with
  | EmptyString => EmptyString
  | String a EmptyString => EmptyString
  | String a r => String a (pop_back r)
  end.

(** [Message::addBinary]: every octet in decimal followed by a comma, the
    last comma removed. *)
Fixpoint join_octets (l : list byte) : string :=
  match l with
  | [] => ""
  | b :: r => (to_string (byte_to_Z b) ++ "," ++ join_octets r)%string
  end.

Definition addBinary (m : t) (k : string) (l : list byte) : t :=
  addString m k (pop_back (join_octets l)).

Definition hasKey (m : t) (k : string) : bool :=
  match map_find k (data_ m) with Some _ => true | None => false end.

Definition getString (m : t) (k : string) : string :=
  match map_find k (data_ m) with Some v => v | None => "" end.

(** [Message::getInt]: 0 when the key is missing, [std::stoi] otherwise. *)
Definition getInt (m : t) (k : string) : outcome Z :=
  match map_find k (data_ m) with
  | Some v => stoi v
  | None => Returned 0
  end.

Definition getBool (m : t) (k : string) : bool :=
  match map_find k (data_ m) with Some v => String.eqb v "true" | None => false end.

(** [std::stod]: only whether a conversion is performed is decided here.
    After white space and an optional sign, [strtod] converts when the text
    starts with a digit, with a point followed by a digit, or with
    [inf]/[nan] in any letter case. *)
Definition is_digit (a : ascii) : bool :=
  match digit_of a with Some _ => true | None => false end.

Definition lower (a : ascii) : ascii :=
  let n := nat_of_ascii a in
  if (Nat.leb 65 n && Nat.leb n 90)%bool then ascii_of_nat (n + 32) else a.

Definition stod_converts (s : string) : bool :=
  let s1 := skip_space s in
  let s2 := match s1 with
            | String "-"%char r => r
            | String "+"%char r => r
            | _ => s1
            end in
  match s2 with
  | String a r =>
      if is_digit a then true
      else if Ascii.eqb a "."%char then
        match r with String b _ => is_digit b | EmptyString => false end
      else
        match r with
        | String b (String c _) =>
            let w := String (lower a) (String (lower b) (String (lower c) EmptyString)) in
            (String.eqb w "inf" || String.eqb w "nan")%bool
        | _ => false
        end
  | EmptyString => false
  end.

(** What [getDouble] returns: the zero of a missing key, or the [double]
    that [strtod] reads from the stored text (kept as that text; a text of
    too large a magnitude makes [std::stod] throw [std::out_of_range], which
    is not decided here). *)
Inductive double_value :=
| DoubleZero
| DoubleOf (text : string).

Definition stod (s : string) : outcome double_value :=
  if stod_converts s then Returned (DoubleOf s) else Thrown "std::invalid_argument".

(** [Message::getDouble]. *)
Definition getDouble (m : t) (k : string) : outcome double_value :=
  match map_find k (data_ m) with
  | Some v => stod v
  | None => Returned DoubleZero
  end.

(** The tokens [std::getline(ss, token, ',')] yields in turn: the text
    between commas; at the end of the text an empty remainder yields no
    token. *)
Fixpoint getline_tokens (s cur : string) : list string :=
  match s with
  | EmptyString => match cur with EmptyString => [] | _ => [cur] end
  | String a r =>
      if Ascii.eqb a ","%char then cur :: getline_tokens r EmptyString
      else getline_tokens r (cur ++ String a EmptyString)%string
  end.

Fixpoint octets_of_tokens (l : list string) : outcome (list byte) :=
  match l with
  | [] => Returned []
  | tok :: r =>
      match tok with
      | EmptyString => octets_of_tokens r
      | _ =>
          obind (stoi tok) (fun n =>
          obind (octets_of_tokens r) (fun bs =>
          Returned (byte_of_Z n :: bs)))
      end
  end.

(** [Message::getBinary]. *)
Definition getBinary (m : t) (k : string) : outcome (list byte) :=
  match map_find k (data_ m) with
  | Some v => octets_of_tokens (getline_tokens v EmptyString)
  | None => Returned []
  end.

(** [Message::serialize]: the header in network byte order, then the body. *)
Definition header_bytes (h : Header) : list byte :=
  put_u32 (magic h) ++ put_u16 (version h) ++ put_u16 (type h)
  ++ put_u32 (length h) ++ put_u32 (sequence_id h)
  ++ put_u32 (session_id h) ++ put_u32 (checksum h).

Definition serialize (m : t) : list byte := header_bytes (header_ m) ++ encodeData m.

Definition is_nil {A} (l : list A) : bool :=
  match l with [] => true | _ => false end.

(** The loop of [Message::decodeData].  [rest] is [data] from [pos] on, so
    [pos == data.size()] reads [is_nil rest]; every [break] leaves the loop
    with the position reached so far.  One unit of [fuel] is one iteration. *)
Fixpoint decode_loop (fuel : nat) (rest : list byte) (acc : smap) : bool * smap :=
  match fuel with
  | O => (false, acc)
  | S f =>
      if 4 <=? zlen rest then
        let key_len := get_u32 rest in
        let r1 := skipn 4 rest in
        if zlen r1 <? key_len then (is_nil r1, acc)
        else
          let key := string_of_list_byte (firstn (Z.to_nat key_len) r1) in
          let r2 := skipn (Z.to_nat key_len) r1 in
          if zlen r2 <? 4 then (is_nil r2, acc)
          else
            let val_len := get_u32 r2 in
            let r3 := skipn 4 r2 in
            if zlen r3 <? val_len then (is_nil r3, acc)
            else
              let value := string_of_list_byte (firstn (Z.to_nat val_len) r3) in
              decode_loop f (skipn (Z.to_nat val_len) r3) (map_set key value acc)
      else (is_nil rest, acc)
  end.

(** [Message::decodeData]: [data_] is cleared first.  Every iteration that
    loops consumes at least eight bytes, so the fuel given never runs out. *)
Definition decodeData (data : list byte) : bool * smap :=
  decode_loop (S (List.length data)) data [].

Definition read_header (data : list byte) : Header :=
  mkHeader (get_u32 data) (get_u16 (skipn 4 data)) (get_u16 (skipn 6 data))
           (get_u32 (skipn 8 data)) (get_u32 (skipn 12 data))
           (get_u32 (skipn 16 data)) (get_u32 (skipn 20 data)).

(** [Message::deserialize]: the result and the message as it is left. *)
Definition deserialize (m : t) (data : list byte) : bool * t :=
  if zlen data <? HEADER_SIZE then (false, m)
  else
    let h := read_header data in
    if negb (magic h =? MAGIC) then (false, mk h (data_ m))
    else if HEADER_SIZE + length h <=? zlen data then
      let body := firstn (Z.to_nat (length h)) (skipn 24 data) in
      let '(ok, d) := decodeData body in
      (ok, mk h d)
    else (false, mk h (data_ m)).

(** [Message::serializeStream]. *)
Definition serializeStream (m : t) : list byte :=
  let serialized := serialize m in
  put_u32 (zlen serialized mod two32) ++ serialized.

(** [Message::deserializeStream]. *)
Definition deserializeStream (m : t) (data : list byte) : bool * t :=
  if zlen data <? 4 then (false, m)
  else
    let len := get_u32 data in
    if zlen data <? 4 + len then (false, m)
    else deserialize m (firstn (Z.to_nat len) (skipn 4 data)).

(** [Message::calculateCRC32]: reflected CRC-32, polynomial 0xEDB88320. *)
Definition crc_shift (crc : Z) : Z :=
  Z.lxor (Z.shiftr crc 1)
         (Z.land 0xEDB88320 ((- (Z.land crc 1)) mod two32)).

Definition crc_byte (crc : Z) (b : byte) : Z :=
  Nat.iter 8 crc_shift (Z.lxor crc (byte_to_Z b)).

Definition calculateCRC32 (data : list byte) : Z :=
  Z.lnot (fold_left crc_byte data 0xFFFFFFFF) mod two32.

(** [Message::calculateChecksum]. *)
Definition calculateChecksum (m : t) : t :=
  let m0 := mk (set_checksum (header_ m) 0) (data_ m) in
  mk (set_checksum (header_ m) (calculateCRC32 (serialize m0))) (data_ m).

(** [Message::verifyChecksum]; the message is left as it was. *)
Definition verifyChecksum (m : t) : bool :=
  let original_checksum := checksum (header_ m) in
  let m0 := mk (set_checksum (header_ m) 0) (data_ m) in
  original_checksum =? calculateCRC32 (serialize m0).

(** [Message::isValid]. *)
Definition isValid (m : t) : bool :=
  ((magic (header_ m) =? MAGIC) && (version (header_ m) =? 1) && verifyChecksum m)%bool.

(** The keys are in strictly ascending order. *)
Fixpoint sortedb (m : smap) : bool :=
  match m with
  | [] => true
  | (k, _) :: r => (forallb (fun p => String.ltb k (fst p)) r && sortedb r)%bool
  end.

(** The state every message built by the constructors and the [add*]
    members is in: the keys of the map are in strictly ascending order (it
    is a [std::map]), every header field has a value of its C++ type,
    [header_.length] is the size of the encoded body, and the frame fits the
    32-bit length fields. *)
Record wf (m : t) : Prop := mkWf {
  wf_magic : magic (header_ m) = MAGIC;
  wf_version : 0 <= version (header_ m) < 65536;
  wf_type : 0 <= type (header_ m) < 65536;
  wf_sequence_id : 0 <= sequence_id (header_ m) < two32;
  wf_session_id : 0 <= session_id (header_ m) < two32;
  wf_checksum : 0 <= checksum (header_ m) < two32;
  wf_sorted : sortedb (data_ m) = true;
  wf_length : length (header_ m) = zlen (encodeData m);
  wf_size : HEADER_SIZE + zlen (encodeData m) < two32
}.

(** The same without the bound on the size: what the constructors and
    the [add*] members establish whatever is stored; [header_.length] is
    then the size of the body reduced to 32 bits. *)
Record built (m : t) : Prop := mkBuilt {
  built_magic : magic (header_ m) = MAGIC;
  built_version : version (header_ m) = 1;
  built_type : 0 <= type (header_ m) < 65536;
  built_sequence_id : 0 <= sequence_id (header_ m) < two32;
  built_session_id : 0 <= session_id (header_ m) < two32;
  built_checksum : 0 <= checksum (header_ m) < two32;
  built_sorted : sortedb (data_ m) = true;
  built_length : length (header_ m) = zlen (encodeData m) mod two32
}.

(** [Message::size]. *)
Definition size (m : t) : Z := HEADER_SIZE + length (header_ m).

End Message.

(** A request as the messaging test builds it:
    [createConnectRequest("client_X")], then [num = 42] and [flag = true]. *)
Definition sample_request : Message.t :=
  Message.addBool
    (Message.addInt
       (Message.addString
          (Message.addString (Message.create 1) "client_id" "client_X")
          "protocol_version" "1.0")
       "num" 42)
    "flag" true.

(** [try_extract_one_framed_message] of the stream test: one
    length-prefixed frame is moved from the front of [inbox] to
    [one_frame]; both are left as they are while the frame is incomplete.
    The result is the flag, then [inbox], then [one_frame]. *)
Definition try_extract_one_framed_message (inbox one_frame : list byte)
  : bool * list byte * list byte :=
  if zlen inbox <? 4 then (false, inbox, one_frame)
  else
    let total_len := get_u32 inbox in
    if zlen inbox <? 4 + total_len then (false, inbox, one_frame)
    else
      let n := Z.to_nat (4 + total_len) in
      (true, skipn n inbox, firstn n inbox).

(** ** TLSSocket: synchronous send and receive (TLSSocket.cpp)

    [inbound] is what the peer sends before it closes the connection,
    [outbound] what was written to it.  The text of the last error is not
    kept. *)

Module TLSSocket.

Record t := mk {
  tls_established_ : bool;
  inbound : list byte;
  outbound : list byte
}.

(** [TLSSocket::receive]: exactly [length] bytes, or -1 ([None]) when the
    stream ends before that (the read throws; what was there is consumed). *)
Definition receive (length : Z) (s : t) : option (list byte) * t :=
  if negb (tls_established_ s) then (None, s)
  else if zlen (inbound s) <? length
       then (None, mk (tls_established_ s) [] (outbound s))
       else
         let n := Z.to_nat length in
         (Some (firstn n (inbound s)),
          mk (tls_established_ s) (skipn n (inbound s)) (outbound s)).

(** [TLSSocket::sendMessage]: header and payload, no length prefix. *)
Definition sendMessage (message : Message.t) (s : t) : bool * t :=
  if negb (tls_established_ s) then (false, s)
  else (true, mk (tls_established_ s) (inbound s)
                (outbound s ++ Message.serialize message)).

(** [TLSSocket::receiveMessage]: the header, then as many bytes as its
    length field says, then [Message::deserialize] of both. *)
Definition receiveMessage (s : t) : option Message.t * t :=
  if negb (tls_established_ s) then (None, s)
  else
    match receive Message.HEADER_SIZE s with
    | (None, s) => (None, s)
    | (Some header_bytes, s) =>
        let hdr := Message.read_header header_bytes in
        if negb (Message.magic hdr =? Message.MAGIC) then (None, s)
        else
          let '(payload, s) :=
            if 0 <? Message.length hdr then receive (Message.length hdr) s
            else (Some [], s) in
          match payload with
          | None => (None, s)
          | Some payload =>
              let '(ok, msg) :=
                Message.deserialize Message.clear (header_bytes ++ payload) in
              if ok then (Some msg, s) else (None, s)
          end
    end.

(** The loop of [CentralServer::handleClientMessage]: the messages it
    hands to [processMessage], in order, until [receiveMessage] yields
    none.  A message takes at least a header off the stream, so
    [receive_all] gives fuel enough. *)
Fixpoint receive_loop (fuel : nat) (s : t) : list Message.t * t :=
  match fuel with
  | O => ([], s)
  | S f =>
      match receiveMessage s with
      | (None, s) => ([], s)
      | (Some m, s) => let '(l, s) := receive_loop f s in (m :: l, s)
      end
  end.

Definition receive_all (s : t) : list Message.t * t :=
  receive_loop (S (List.length (inbound s))) s.

End TLSSocket.

(** ** Database records (include/common/Database.h)

    [VehicleType] and [TicketType] are [enum class : uint8_t]; a value cast
    from an [int] is that [int] modulo 256, so both are kept as integers.
    [double] amounts are exact rationals: every amount the handlers compute
    is a product of small integers, which binary64 represents exactly. *)

Definition BUS : Z := 1.
Definition TRAM : Z := 2.
Definition TROLLEYBUS : Z := 3.

Definition INDIVIDUAL : Z := 1.
Definition GROUP_FAMILY : Z := 2.
Definition GROUP_BUSINESS : Z := 3.
Definition GROUP_TOURIST : Z := 4.

(** [static_cast<VehicleType>(int)], [static_cast<TicketType>(int)]. *)
Definition to_enum8 (z : Z) : Z := z mod 256.

Record User := mkUser {
  u_urn : string;
  u_name : string;
  u_age : Z;
  u_registration_date : string;
  u_active : bool;
  u_pin_hash : string
}.

Record Group := mkGroup {
  g_group_id : Z;
  g_group_name : string;
  g_leader_urn : string;
  g_creation_date : string;
  g_active : bool
}.

(** A row of [group_members]. *)
Record GroupMember := mkGroupMember {
  gm_group_id : Z;
  gm_member_urn : string;
  gm_join_date : string;
  gm_active : bool
}.

Record Vehicle := mkVehicle {
  v_uri : string;
  v_type : Z;
  v_capacity : Z;
  v_available_seats : Z;
  v_route : string;
  v_active : bool;
  v_last_update : string
}.

Record Ticket := mkTicket {
  t_ticket_id : string;
  t_user_urn : string;
  t_type : Z;
  t_vehicle_type : Z;
  t_route : string;
  t_price : Q;
  t_discount : Q;
  t_purchase_date : string;
  t_seat_number : string;
  t_used : bool
}.

Record Payment := mkPayment {
  p_transaction_id : string;
  p_ticket_id : string;
  p_amount : Q;
  p_payment_method : string;
  p_payment_date : string;
  p_successful : bool
}.

(** ** C strings

    Every text is bound as [sqlite3_bind_text(stmt, i, s.c_str(), -1, ...)]:
    with the length -1 SQLite takes the bytes up to the first NUL.  A text
    column is read back as [reinterpret_cast<const char*>(sqlite3_column_text(...))]
    assigned to a [std::string], which again stops at the first NUL. *)

Fixpoint c_str (s : string) : string :=
  match s with
  | EmptyString => EmptyString
  | String a r => if Ascii.eqb a Ascii.zero then EmptyString else String a (c_str r)
  end.

(** The records with every text field taken as a C string: what an INSERT
    binds, and what the [extract*] functions read from a row. *)
Definition c_user (u : User) : User :=
  mkUser (c_str (u_urn u)) (c_str (u_name u)) (u_age u)
    (c_str (u_registration_date u)) (u_active u) (c_str (u_pin_hash u)).

Definition c_vehicle (v : Vehicle) : Vehicle :=
  mkVehicle (c_str (v_uri v)) (v_type v) (v_capacity v) (v_available_seats v)
    (c_str (v_route v)) (v_active v) (c_str (v_last_update v)).

Definition c_ticket (x : Ticket) : Ticket :=
  mkTicket (c_str (t_ticket_id x)) (c_str (t_user_urn x)) (t_type x) (t_vehicle_type x)
    (c_str (t_route x)) (t_price x) (t_discount x) (c_str (t_purchase_date x))
    (c_str (t_seat_number x)) (t_used x).

Definition c_payment (x : Payment) : Payment :=
  mkPayment (c_str (p_transaction_id x)) (c_str (p_ticket_id x)) (p_amount x)
    (c_str (p_payment_method x)) (c_str (p_payment_date x)) (p_successful x).

(** ** Database (Database.cpp) over SQLite

    The tables are lists of rows in row order; [LIMIT 1] takes the first
    matching row.  [PRAGMA foreign_keys = ON] is in force, so the foreign
    keys of the schema are checked on insertion.  A text given to an
    operation reaches SQLite as [c_str] of it, and the statements recorded
    in [executed] carry the texts as bound.  The tables [price_list] and
    [active_connections] are not used by the operations below. *)

Module Database.

Definition SQLITE_OK : Z := 0.
Definition SQLITE_ERROR : Z := 1.
Definition SQLITE_BUSY : Z := 5.
Definition SQLITE_NOTFOUND : Z := 12.
Definition SQLITE_CONSTRAINT : Z := 19.
Definition SQLITE_MISUSE : Z := 21.
Definition SQLITE_DONE : Z := 101.

Record Tables := mkTables {
  users : list User;
  groups : list Group;
  group_members : list GroupMember;
  vehicles : list Vehicle;
  tickets : list Ticket;
  payments : list Payment;
  group_seq : Z   (* largest [group_id] handed out by AUTOINCREMENT *)
}.

(** The statements the operations run, as they reach SQLite. *)
Inductive Sql :=
| BEGIN_TRANSACTION
| COMMIT
| ROLLBACK
| SELECT_user (urn : string)
| INSERT_user (urn : string)
| INSERT_group (name : string)
| SELECT_group_id (name : string)
| SELECT_group_id_active (name : string)
| SELECT_group_leader (name : string)
| REPLACE_group_member (gid : Z) (urn : string)
| SELECT_group_member (gid : Z) (urn : string)
| UPDATE_group_member (gid : Z) (urn : string)
| INSERT_group_member (gid : Z) (urn : string)
| DELETE_group_member (gid : Z) (urn : string)
| REPLACE_vehicle (uri : string)
| SELECT_vehicle (uri : string)
| SELECT_vehicle_by_route_type (route : string) (type : Z)
| UPDATE_available_seats (uri : string) (seats : Z)
| INSERT_ticket (id : string)
| INSERT_payment (id : string)
| UPDATE_user (urn : string)
| DELETE_user (urn : string)
| UPDATE_vehicle (uri : string)
| UPDATE_vehicle_capacity (uri : string) (capacity seats : Z).

(** One connection.  [snapshot] holds the tables as they were at
    [BEGIN TRANSACTION] while a transaction is open; [executed] lists the
    statements run so far, oldest first; [busy] is the environment: one flag
    per statement still to come, [true] when SQLite answers that statement
    with [SQLITE_BUSY] (another connection of the pool holds the lock);
    [clock] is what [nowISO()] returns. *)
Record t := mk {
  tables : Tables;
  snapshot : option Tables;
  last_error_ : string;
  last_error_code_ : Z;
  executed : list Sql;
  busy : list bool;
  clock : string
}.

Definition with_tables (db : t) (tb : Tables) : t :=
  mk tb (snapshot db) (last_error_ db) (last_error_code_ db) (executed db)
     (busy db) (clock db).

Definition with_snapshot (db : t) (s : option Tables) : t :=
  mk (tables db) s (last_error_ db) (last_error_code_ db) (executed db)
     (busy db) (clock db).

(** [Database::setLastError]. *)
Definition setLastError (db : t) (error : string) (code : Z) : t :=
  mk (tables db) (snapshot db) error code (executed db) (busy db) (clock db).

Definition getLastError (db : t) : string := last_error_ db.
Definition getLastErrorCode (db : t) : Z := last_error_code_ db.

(** Hand a statement to SQLite: it is recorded, and the environment says
    whether it meets a lock. *)
Definition run (q : Sql) (db : t) : bool * t :=
  let db' r := mk (tables db) (snapshot db) (last_error_ db) (last_error_code_ db)
                  (executed db ++ [q]) r (clock db) in
  match busy db with
  | [] => (false, db' [])
  | b :: r => (b, db' r)
  end.

Definition set_users (tb : Tables) (x : list User) : Tables :=
  mkTables x (groups tb) (group_members tb) (vehicles tb) (tickets tb) (payments tb) (group_seq tb).
Definition set_groups (tb : Tables) (x : list Group) (seq : Z) : Tables :=
  mkTables (users tb) x (group_members tb) (vehicles tb) (tickets tb) (payments tb) seq.
Definition set_group_members (tb : Tables) (x : list GroupMember) : Tables :=
  mkTables (users tb) (groups tb) x (vehicles tb) (tickets tb) (payments tb) (group_seq tb).
Definition set_vehicles (tb : Tables) (x : list Vehicle) : Tables :=
  mkTables (users tb) (groups tb) (group_members tb) x (tickets tb) (payments tb) (group_seq tb).
Definition set_tickets (tb : Tables) (x : list Ticket) : Tables :=
  mkTables (users tb) (groups tb) (group_members tb) (vehicles tb) x (payments tb) (group_seq tb).
Definition set_payments (tb : Tables) (x : list Payment) : Tables :=
  mkTables (users tb) (groups tb) (group_members tb) (vehicles tb) (tickets tb) x (group_seq tb).

(** *** Transactions *)

(** [Database::beginTransaction]: [executeSQL("BEGIN TRANSACTION;")]. *)
Definition beginTransaction (db : t) : bool * t :=
  let '(b, db) := run BEGIN_TRANSACTION db in
  if b then (false, setLastError db "database is locked" SQLITE_BUSY)
  else match snapshot db with
       | Some _ =>
           (false, setLastError db "cannot start a transaction within a transaction"
                     SQLITE_ERROR)
       | None => (true, with_snapshot db (Some (tables db)))
       end.

(** [Database::commitTransaction]. *)
Definition commitTransaction (db : t) : bool * t :=
  let '(b, db) := run COMMIT db in
  if b then (false, setLastError db "database is locked" SQLITE_BUSY)
  else match snapshot db with
       | Some _ => (true, with_snapshot db None)
       | None =>
           (false, setLastError db "cannot commit - no transaction is active" SQLITE_ERROR)
       end.

(** [Database::rollbackTransaction]. *)
Definition rollbackTransaction (db : t) : bool * t :=
  let '(b, db) := run ROLLBACK db in
  if b then (false, setLastError db "database is locked" SQLITE_BUSY)
  else match snapshot db with
       | Some tb => (true, with_snapshot (with_tables db tb) None)
       | None =>
           (false, setLastError db "cannot rollback - no transaction is active" SQLITE_ERROR)
       end.

(** *** Users *)

Definition has_user (tb : Tables) (urn : string) : bool :=
  existsb (fun u => String.eqb (u_urn u) urn) (users tb).

(** [Database::registerUser]. *)
Definition registerUser (user : User) (db : t) : bool * t :=
  let '(b, db) := run (INSERT_user (c_str (u_urn user))) db in
  let rc := if b then SQLITE_BUSY
            else if has_user (tables db) (c_str (u_urn user)) then SQLITE_CONSTRAINT
            else SQLITE_DONE in
  if rc =? SQLITE_DONE
  then (true, with_tables db (set_users (tables db) (users (tables db) ++ [c_user user])))
  else if rc =? SQLITE_CONSTRAINT
       then (false, setLastError db "User already registered" rc)
       else (false, setLastError db "Failed to register user" rc).

(** [Database::extractUser]. *)
Definition extractUser (row : User) : User := c_user row.

(** [Database::getUser]. *)
Definition getUser (urn : string) (db : t) : option User * t :=
  let '(b, db) := run (SELECT_user (c_str urn)) db in
  if b then (None, db)
  else (option_map extractUser
          (find (fun u => String.eqb (u_urn u) (c_str urn)) (users (tables db))), db).

(** [Database::userExists]. *)
Definition userExists (urn : string) (db : t) : bool * t :=
  let '(b, db) := run (SELECT_user (c_str urn)) db in
  if b then (false, db) else (has_user (tables db) (c_str urn), db).

(** *** Groups *)

Definition group_named (name : string) (g : Group) : bool :=
  String.eqb (g_group_name g) name.

Definition member_row (gid : Z) (urn : string) (r : GroupMember) : bool :=
  ((gm_group_id r =? gid) && String.eqb (gm_member_urn r) urn)%bool.

Definition has_group_id (tb : Tables) (gid : Z) : bool :=
  existsb (fun g => g_group_id g =? gid) (groups tb).

(** [Database::createGroup]: the group row, then its id, then the leader as
    a member; three statements, no transaction around them. *)
Definition createGroup (group : Group) (db : t) : bool * t :=
  let name := c_str (g_group_name group) in
  let leader := c_str (g_leader_urn group) in
  (* 1) INSERT INTO groups *)
  let '(b, db) := run (INSERT_group name) db in
  let creation :=
    match g_creation_date group with
    | EmptyString => clock db
    | d => d
    end in
  let rc := if b then SQLITE_BUSY
            else if existsb (group_named name) (groups (tables db))
                    || negb (has_user (tables db) leader)
                 then SQLITE_CONSTRAINT
                 else SQLITE_DONE in
  if negb (rc =? SQLITE_DONE)
  then (false, setLastError db "Failed to create group (is name unique?)" rc)
  else
    let id := group_seq (tables db) + 1 in
    let row := mkGroup id name leader (c_str creation) (g_active group) in
    let db := with_tables db (set_groups (tables db) (groups (tables db) ++ [row]) id) in
    (* 2) SELECT group_id *)
    let '(b, db) := run (SELECT_group_id name) db in
    let group_id :=
      if b then -1
      else match find (group_named name) (groups (tables db)) with
           | Some g => g_group_id g
           | None => -1
           end in
    if group_id <? 0
    then (false, setLastError db "Failed to resolve new group_id" (-1))
    else
      (* 3) INSERT OR REPLACE INTO group_members *)
      let '(b, db) := run (REPLACE_group_member group_id leader) db in
      let r3 := if b then SQLITE_BUSY
                else if negb (has_group_id (tables db) group_id)
                        || negb (has_user (tables db) leader)
                     then SQLITE_CONSTRAINT
                     else SQLITE_DONE in
      if negb (r3 =? SQLITE_DONE)
      then (false, setLastError db "Failed to add leader as group member" r3)
      else
        let kept := filter (fun r => negb (member_row group_id leader r))
                      (group_members (tables db)) in
        let row := mkGroupMember group_id leader (c_str (clock db)) true in
        (true, with_tables db (set_group_members (tables db) (kept ++ [row]))).

(** [Database::getGroupIdByName]: active groups only; -1 when none. *)
Definition getGroupIdByName (group_name : string) (db : t) : Z * t :=
  let '(b, db) := run (SELECT_group_id_active (c_str group_name)) db in
  if b then (-1, db)
  else match find (fun g => group_named (c_str group_name) g && g_active g)%bool
                  (groups (tables db)) with
       | Some g => (g_group_id g, db)
       | None => (-1, db)
       end.

(** [Database::getGroupLeader]: the empty string when there is no active
    group of that name. *)
Definition getGroupLeader (group_name : string) (db : t) : string * t :=
  let '(b, db) := run (SELECT_group_leader (c_str group_name)) db in
  if b then ("", db)
  else match find (fun g => group_named (c_str group_name) g && g_active g)%bool
                  (groups (tables db)) with
       | Some g => (c_str (g_leader_urn g), db)
       | None => ("", db)
       end.

(** [Database::addUserToGroup]. *)
Definition addUserToGroup (urn group_name : string) (db : t) : bool * t :=
  let db := setLastError db "" 0 in
  let '(exists_, db) := userExists urn db in
  if negb exists_ then (false, setLastError db "User not found" SQLITE_NOTFOUND)
  else
    let '(gid, db) := getGroupIdByName group_name db in
    if gid <=? 0 then (false, setLastError db "Group not found" SQLITE_NOTFOUND)
    else
      let member := c_str urn in
      let '(b, db) := run (SELECT_group_member gid member) db in
      let found := if b then None
                   else find (member_row gid member) (group_members (tables db)) in
      match found with
      | Some r =>
          if gm_active r
          then (false, setLastError db "User already in group" SQLITE_CONSTRAINT)
          else
            (* present but inactive: reactivate *)
            let '(b, db) := run (UPDATE_group_member gid member) db in
            if b then (false, setLastError db "Failed to reactivate user in group" SQLITE_BUSY)
            else
              let upd r := if member_row gid member r
                           then mkGroupMember (gm_group_id r) (gm_member_urn r)
                                  (c_str (clock db)) true
                           else r in
              let changes :=
                zlen (filter (member_row gid member) (group_members (tables db))) in
              let db := with_tables db
                          (set_group_members (tables db)
                             (map upd (group_members (tables db)))) in
              if negb (changes =? 1)
              then (false, setLastError db "Failed to reactivate user in group" SQLITE_DONE)
              else (true, db)
      | None =>
          (* new member: INSERT *)
          let '(b, db) := run (INSERT_group_member gid member) db in
          let rc := if b then SQLITE_BUSY
                    else if existsb (member_row gid member) (group_members (tables db))
                            || negb (has_group_id (tables db) gid)
                            || negb (has_user (tables db) member)
                         then SQLITE_CONSTRAINT
                         else SQLITE_DONE in
          if negb (rc =? SQLITE_DONE)
          then (false, setLastError db "Failed to add user to group" rc)
          else
            let row := mkGroupMember gid member (c_str (clock db)) true in
            (true, with_tables db
                     (set_group_members (tables db) (group_members (tables db) ++ [row])))
      end.

(** [Database::removeUserFromGroup]. *)
Definition removeUserFromGroup (urn group_name : string) (db : t) : bool * t :=
  let db := setLastError db "" 0 in
  let '(gid, db) := getGroupIdByName group_name db in
  if gid <=? 0 then (false, setLastError db "Group not found" SQLITE_NOTFOUND)
  else
    let member := c_str urn in
    let '(b, db) := run (DELETE_group_member gid member) db in
    if b then (false, setLastError db "Failed to remove user from group" SQLITE_BUSY)
    else
      let kept := filter (fun r => negb (member_row gid member r))
                    (group_members (tables db)) in
      let changes := zlen (group_members (tables db)) - zlen kept in
      let db := with_tables db (set_group_members (tables db) kept) in
      if changes =? 0 then (false, setLastError db "User not in group" SQLITE_NOTFOUND)
      else (true, db).

(** *** Vehicles, tickets, payments *)

(** [Database::registerVehicle]: [INSERT OR REPLACE]. *)
Definition registerVehicle (vehicle : Vehicle) (db : t) : bool * t :=
  let '(b, db) := run (REPLACE_vehicle (c_str (v_uri vehicle))) db in
  if b then (false, setLastError db "Failed to register vehicle" SQLITE_BUSY)
  else
    let kept := filter (fun v => negb (String.eqb (v_uri v) (c_str (v_uri vehicle))))
                  (vehicles (tables db)) in
    (true, with_tables db (set_vehicles (tables db) (kept ++ [c_vehicle vehicle]))).

(** [Database::extractVehicle]: the texts as C strings, the stored type
    cast to [VehicleType].  (The integer columns are only ever written from
    [int]s, so reading them back as [int] changes nothing.) *)
Definition extractVehicle (row : Vehicle) : Vehicle :=
  mkVehicle (c_str (v_uri row)) (to_enum8 (v_type row)) (v_capacity row)
    (v_available_seats row) (c_str (v_route row)) (v_active row)
    (c_str (v_last_update row)).

(** [Database::getVehicle]. *)
Definition getVehicle (uri : string) (db : t) : option Vehicle * t :=
  let '(b, db) := run (SELECT_vehicle (c_str uri)) db in
  if b then (None, db)
  else (option_map extractVehicle
          (find (fun v => String.eqb (v_uri v) (c_str uri)) (vehicles (tables db))), db).

(** [Database::getVehicleByRouteAndType]. *)
Definition getVehicleByRouteAndType (route : string) (type : Z) (db : t)
  : option Vehicle * t :=
  let '(b, db) := run (SELECT_vehicle_by_route_type (c_str route) type) db in
  if b then (None, db)
  else (option_map extractVehicle
          (find (fun v => String.eqb (v_route v) (c_str route) && (v_type v =? type))%bool
                (vehicles (tables db))), db).

(** [SET available_seats = ? WHERE uri = ?] on one row. *)
Definition with_seats (uri : string) (seats : Z) (v : Vehicle) : Vehicle :=
  if String.eqb (v_uri v) uri
  then mkVehicle (v_uri v) (v_type v) (v_capacity v) seats (v_route v) (v_active v)
         (v_last_update v)
  else v.

(** [Database::updateSeatAvailability]: succeeds when the statement runs,
    whether or not a row has that URI. *)
Definition updateSeatAvailability (uri : string) (available_seats : Z) (db : t)
  : bool * t :=
  let '(b, db) := run (UPDATE_available_seats (c_str uri) available_seats) db in
  if b then (false, setLastError db "Failed to update available seats" SQLITE_BUSY)
  else
    (true, with_tables db
             (set_vehicles (tables db)
                (map (with_seats (c_str uri) available_seats) (vehicles (tables db))))).

(** [Database::createTicket]. *)
Definition createTicket (ticket : Ticket) (db : t) : bool * t :=
  let '(b, db) := run (INSERT_ticket (c_str (t_ticket_id ticket))) db in
  let rc := if b then SQLITE_BUSY
            else if existsb (fun x => String.eqb (t_ticket_id x) (c_str (t_ticket_id ticket)))
                      (tickets (tables db))
                    || negb (has_user (tables db) (c_str (t_user_urn ticket)))
                 then SQLITE_CONSTRAINT
                 else SQLITE_DONE in
  if negb (rc =? SQLITE_DONE)
  then (false, setLastError db "Failed to insert ticket" rc)
  else (true, with_tables db
                (set_tickets (tables db) (tickets (tables db) ++ [c_ticket ticket]))).

(** [Database::recordPayment]: an empty [ticket_id] is bound as NULL (read
    back as the empty text), any other as its C string. *)
Definition recordPayment (payment : Payment) (db : t) : bool * t :=
  let '(b, db) := run (INSERT_payment (c_str (p_transaction_id payment))) db in
  let fk_ok :=
    match p_ticket_id payment with
    | EmptyString => true
    | id => existsb (fun x => String.eqb (t_ticket_id x) (c_str id)) (tickets (tables db))
    end in
  let rc := if b then SQLITE_BUSY
            else if existsb (fun x => String.eqb (p_transaction_id x)
                                        (c_str (p_transaction_id payment)))
                      (payments (tables db))
                    || negb fk_ok
                 then SQLITE_CONSTRAINT
                 else SQLITE_DONE in
  if negb (rc =? SQLITE_DONE)
  then (false, setLastError db "Failed to insert payment" rc)
  else (true, with_tables db
                (set_payments (tables db) (payments (tables db) ++ [c_payment payment]))).

(** [Database::calculateTicketPrice]: the placeholder base price 1.0. *)
Definition calculateTicketPrice (vehicle_type ticket_type passengers : Z)
                                (distance time_minutes : Q) : Q := 1%Q.

(** [Database::calculateDiscount]: 10% for the family package or for three
    tickets or more (0.10 is taken as the exact tenth). *)
Definition calculateDiscount (urn : string) (ticket_type group_size : Z) : Q :=
  if ticket_type =? GROUP_FAMILY then (1 # 10)%Q
  else if 3 <=? group_size then (1 # 10)%Q
  else 0%Q.

(** [Database::isEligibleForGroupDiscount]. *)
Definition isEligibleForGroupDiscount (ticket_type group_size : Z) : bool :=
  if ticket_type =? GROUP_FAMILY then true
  else if 3 <=? group_size then true
  else false.

(** *** Users: update and delete *)

(** [Database::updateUser]: every column but the URN is overwritten in
    the rows of that URN; the call succeeds when the statement runs,
    whether or not there is such a row. *)
Definition updateUser (user : User) (db : t) : bool * t :=
  let '(b, db) := run (UPDATE_user (c_str (u_urn user))) db in
  if b then (false, setLastError db "Failed to update user" SQLITE_BUSY)
  else
    let upd u :=
      if String.eqb (u_urn u) (c_str (u_urn user))
      then mkUser (u_urn u) (c_str (u_name user)) (u_age user)
             (c_str (u_registration_date user)) (u_active user) (c_str (u_pin_hash user))
      else u in
    (true, with_tables db (set_users (tables db) (map upd (users (tables db))))).

(** A row of [groups], [group_members] or [tickets] refers to the user
    (the foreign keys on [users(urn)]; nothing writes
    [active_connections]). *)
Definition user_referenced (tb : Tables) (urn : string) : bool :=
  (existsb (fun g => String.eqb (g_leader_urn g) urn) (groups tb)
   || existsb (fun r => String.eqb (gm_member_urn r) urn) (group_members tb)
   || existsb (fun x => String.eqb (t_user_urn x) urn) (tickets tb))%bool.

(** [Database::deleteUser]: [DELETE FROM users WHERE urn = ?].  The
    foreign keys have no [ON DELETE] action, so deleting a row that is
    referred to fails; deleting no row succeeds. *)
Definition deleteUser (urn : string) (db : t) : bool * t :=
  let urn := c_str urn in
  let '(b, db) := run (DELETE_user urn) db in
  let rc := if b then SQLITE_BUSY
            else if has_user (tables db) urn && user_referenced (tables db) urn
                 then SQLITE_CONSTRAINT
                 else SQLITE_DONE in
  if negb (rc =? SQLITE_DONE)
  then (false, setLastError db "Failed to delete user" rc)
  else
    let kept := filter (fun u => negb (String.eqb (u_urn u) urn)) (users (tables db)) in
    (true, with_tables db (set_users (tables db) kept)).

(** *** Vehicles: the admin updates *)

Definition has_uri (uri : string) (v : Vehicle) : bool := String.eqb (v_uri v) uri.

(** [SET capacity=?, available_seats=?, last_update=? WHERE uri=?] on one
    row. *)
Definition with_capacity (uri : string) (capacity seats : Z) (ts : string)
                         (v : Vehicle) : Vehicle :=
  if has_uri uri v
  then mkVehicle (v_uri v) (v_type v) capacity seats (v_route v) (v_active v) ts
  else v.

(** [Database::updateVehicleCapacity]. *)
Definition updateVehicleCapacity (uri : string) (capacity available_seats : Z) (db : t)
  : bool * t :=
  let db := setLastError db "" 0 in
  match uri with
  | EmptyString => (false, setLastError db "Empty URI" SQLITE_MISUSE)
  | _ =>
      if (capacity <? 0) || (available_seats <? 0) || (capacity <? available_seats)
      then (false, setLastError db "Invalid capacity/available_seats" SQLITE_MISUSE)
      else
        let uri := c_str uri in
        let '(b, db) := run (UPDATE_vehicle_capacity uri capacity available_seats) db in
        if b then (false, setLastError db "Failed to update vehicle capacity" SQLITE_BUSY)
        else
          let changes := zlen (filter (has_uri uri) (vehicles (tables db))) in
          let db := with_tables db
                      (set_vehicles (tables db)
                         (map (with_capacity uri capacity available_seats
                                 (c_str (clock db)))
                            (vehicles (tables db)))) in
          if changes =? 0
          then (false, setLastError db "Vehicle not found" SQLITE_NOTFOUND)
          else (true, db)
  end.

(** [std::optional::value_or]. *)
Definition value_or {A} (x : option A) (d : A) : A :=
  match x with Some a => a | None => d end.

(** [Database::updateVehicle]: only the fields given are set. *)
Definition updateVehicle (uri : string) (active : option bool) (route : option string)
                         (type : option Z) (db : t) : bool * t :=
  let db := setLastError db "" 0 in
  match uri with
  | EmptyString => (false, setLastError db "Empty URI" SQLITE_MISUSE)
  | _ =>
      match active, route, type with
      | None, None, None => (false, setLastError db "Nothing to update" SQLITE_MISUSE)
      | _, _, _ =>
          let uri := c_str uri in
          let '(b, db) := run (UPDATE_vehicle uri) db in
          if b then (false, setLastError db "Failed to update vehicle" SQLITE_BUSY)
          else
            let upd v :=
              if has_uri uri v
              then mkVehicle (v_uri v) (value_or type (v_type v)) (v_capacity v)
                     (v_available_seats v) (value_or (option_map c_str route) (v_route v))
                     (value_or active (v_active v)) (c_str (clock db))
              else v in
            let changes := zlen (filter (has_uri uri) (vehicles (tables db))) in
            let db := with_tables db
                        (set_vehicles (tables db) (map upd (vehicles (tables db)))) in
            if changes =? 0
            then (false, setLastError db "Vehicle not found" SQLITE_NOTFOUND)
            else (true, db)
      end
  end.

End Database.

(** ** DatabasePool (Database.cpp)

    [available_] as the list of flags it is; a connection is named by its
    index in [connections_] (the [shared_ptr]s of the pool are distinct
    objects, so comparing them compares indices). *)

Module DatabasePool.

(** The second loop of [getConnection]: the first available slot from
    index [i] on, marked as taken. *)
Fixpoint take_first (i : nat) (available_ : list bool) : option (nat * list bool) :=
  match available_ with
  | [] => None
  | true :: r => Some (i, false :: r)
  | false :: r =>
      match take_first (S i) r with
      | Some (j, r') => Some (j, false :: r')
      | None => None
      end
  end.

(** [DatabasePool::getConnection]: [None] while no slot is available (the
    caller waits on the condition variable). *)
Definition getConnection (available_ : list bool) : option (nat * list bool) :=
  take_first 0 available_.

(** [DatabasePool::returnConnection]: the slot of that connection is
    available again; a connection that is not of the pool changes nothing. *)
Fixpoint returnConnection (db : nat) (available_ : list bool) : list bool :=
  match available_, db with
  | [], _ => []
  | _ :: r, O => true :: r
  | a :: r, S k => a :: returnConnection k r
  end.

(** [DatabasePool::initialize]: [pool_size] slots, all available. *)
Definition initialize (pool_size : nat) : list bool := repeat true pool_size.

End DatabasePool.

(** ** MessageFactory (Message.cpp) *)

Module MessageFactory.

Definition RESERVE_SEAT : Z := 7.
Definition PURCHASE_TICKET : Z := 8.
Definition DELETE_GROUP_MEMBER : Z := 11.
Definition MULTICAST_UPDATE : Z := 14.
Definition RESPONSE_SUCCESS : Z := 15.
Definition RESPONSE_ERROR : Z := 16.

Definition add_pairs (m : Message.t) (data : smap) : Message.t :=
  fold_left (fun m p => Message.addString m (fst p) (snd p)) data m.

(** [MessageFactory::createSuccessResponse]. *)
Definition createSuccessResponse (message_text : string) (data : smap) : Message.t :=
  let response := Message.create RESPONSE_SUCCESS in
  let response :=
    match message_text with
    | EmptyString => response
    | _ => Message.addString response "message" message_text
    end in
  Message.calculateChecksum (add_pairs response data).

(** [MessageFactory::createErrorResponse]. *)
Definition createErrorResponse (error_message : string) (error_code : Z) : Message.t :=
  let message := Message.create RESPONSE_ERROR in
  let message := Message.addString message "error" error_message in
  let message := Message.addInt message "error_code" error_code in
  Message.calculateChecksum message.

(** [MessageFactory::createMulticastUpdate]. *)
Definition createMulticastUpdate (update_type : string) (data : smap) : Message.t :=
  let message := Message.create MULTICAST_UPDATE in
  let message := Message.addString message "update_type" update_type in
  Message.calculateChecksum (add_pairs message data).

(** The other message types (include/common/Message.h). *)
Definition CONNECT_REQUEST : Z := 1.
Definition CONNECT_RESPONSE : Z := 2.
Definition AUTH_RESPONSE : Z := 4.
Definition DISCONNECT : Z := 18.

(** [if (!value.empty()) message->addString(key, value)]. *)
Definition add_unless_empty (m : Message.t) (k v : string) : Message.t :=
  match v with
  | EmptyString => m
  | _ => Message.addString m k v
  end.

(** [if (x.has_value()) message->addInt(key, ...)]. *)
Definition add_int_if (m : Message.t) (k : string) (v : option Z) : Message.t :=
  match v with
  | Some n => Message.addInt m k n
  | None => m
  end.

Definition createConnectRequest (client_id : string) : Message.t :=
  let message := Message.create CONNECT_REQUEST in
  let message := Message.addString message "client_id" client_id in
  let message := Message.addString message "protocol_version" "1.0" in
  Message.calculateChecksum message.

Definition createConnectResponse (success : bool) (reason : string) : Message.t :=
  let message := Message.create CONNECT_RESPONSE in
  let message := Message.addBool message "success" success in
  Message.calculateChecksum (add_unless_empty message "reason" reason).


Definition createAuthResponse (success : bool) (token : string) : Message.t :=
  let message := Message.create AUTH_RESPONSE in
  let message := Message.addBool message "success" success in
  Message.calculateChecksum (add_unless_empty message "token" token).











Definition createDisconnect : Message.t :=
  Message.calculateChecksum (Message.create DISCONNECT).

End MessageFactory.

(** ** CentralServer (CentralServer.cpp)

    One handler runs on one pooled connection; every connection of the pool
    is opened on the same database file, so the pool is the one connection
    [db].  The responses written to the client and the updates handed to
    [sendMulticastUpdate] are collected in [sent] and [updates], oldest
    first.  [now] is [std::time(nullptr)], [timestamp] is
    [getCurrentTimestamp()]. *)

Module CentralServer.

Record ClientSession := mkSession {
  session_id : string;
  user_urn : string;
  authenticated : bool;
  last_activity : Z
}.

Record t := mk {
  db : Database.t;
  client_sessions_ : list (string * ClientSession);
  ticket_counter : Z;        (* the static counter of [generateTicketId] *)
  transaction_counter : Z;   (* the static counter of [generateTransactionId] *)
  now : Z;
  timestamp : string;
  sent : list Message.t;
  updates : list Message.t
}.

Definition with_db (s : t) (d : Database.t) : t :=
  mk d (client_sessions_ s) (ticket_counter s) (transaction_counter s) (now s)
     (timestamp s) (sent s) (updates s).

Definition with_sessions (s : t) (cs : list (string * ClientSession)) : t :=
  mk (db s) cs (ticket_counter s) (transaction_counter s) (now s)
     (timestamp s) (sent s) (updates s).

(** [ServerBase::sendResponse]. *)
Definition sendResponse (s : t) (response : Message.t) : t :=
  mk (db s) (client_sessions_ s) (ticket_counter s) (transaction_counter s) (now s)
     (timestamp s) (sent s ++ [response]) (updates s).

(** [ServerBase::sendErrorResponse]; [code] defaults to -1 in
    ServerBase.h, which callers spell out here. *)
Definition sendErrorResponse (s : t) (error : string) (code : Z) : t :=
  sendResponse s (MessageFactory.createErrorResponse error code).

Definition DEFAULT_ERROR_CODE : Z := -1.

(** [ServerBase::sendSuccessResponse]. *)
Definition sendSuccessResponse (s : t) (message : string) : t :=
  sendResponse s (MessageFactory.createSuccessResponse message []).

(** [CentralServer::sendMulticastUpdate]: the update message it builds. *)
Definition sendMulticastUpdate (s : t) (update_type : string) (data : smap) : t :=
  mk (db s) (client_sessions_ s) (ticket_counter s) (transaction_counter s) (now s)
     (timestamp s) (sent s)
     (updates s ++ [MessageFactory.createMulticastUpdate update_type data]).

(** [CentralServer::generateTicketId]. *)
Definition generateTicketId (s : t) : string * t :=
  let c := ticket_counter s + 1 in
  (("TKT_" ++ to_string c ++ "_" ++ to_string (now s))%string,
   mk (db s) (client_sessions_ s) c (transaction_counter s) (now s)
      (timestamp s) (sent s) (updates s)).

(** [CentralServer::generateTransactionId]. *)
Definition generateTransactionId (s : t) : string * t :=
  let c := transaction_counter s + 1 in
  (("TX_" ++ to_string c ++ "_" ++ to_string (now s))%string,
   mk (db s) (client_sessions_ s) (ticket_counter s) c (now s)
      (timestamp s) (sent s) (updates s)).

(** [client_sessions_.find(sid)]. *)
Fixpoint find_session (sid : string) (l : list (string * ClientSession))
  : option ClientSession :=
  match l with
  | [] => None
  | (k, c) :: r => if String.eqb k sid then Some c else find_session sid r
  end.

(** [it->second.last_activity = now]. *)
Fixpoint touch_session (sid : string) (t0 : Z) (l : list (string * ClientSession))
  : list (string * ClientSession) :=
  match l with
  | [] => []
  | (k, c) :: r =>
      if String.eqb k sid
      then (k, mkSession (session_id c) (user_urn c) (authenticated c) t0) :: r
      else (k, c) :: touch_session sid t0 r
  end.

Definition is_empty (x : string) : bool :=
  match x with EmptyString => true | _ => false end.

(** The fallback loop of [handleSeatReservation] over the other kinds. *)
Fixpoint scan_kinds (kinds : list Z) (route : string) (vehicle_type : Z)
                    (d : Database.t) : option Vehicle * Z * Database.t :=
  match kinds with
  | [] => (None, vehicle_type, d)
  | k :: r =>
      if k =? vehicle_type then scan_kinds r route vehicle_type d
      else
        match Database.getVehicleByRouteAndType route k d with
        | (Some v2, d) => (Some v2, k, d)
        | (None, d) => scan_kinds r route vehicle_type d
        end
  end.

(** The vehicle [handleSeatReservation] settles on, with the kind and the
    route it then holds. *)
Definition resolve_for_reservation (uri route : string) (vehicle_type : Z)
                                   (d : Database.t)
  : option Vehicle * Z * string * Database.t :=
  let '(vehicle, vehicle_type, route, d) :=
    if negb (is_empty uri) then
      match Database.getVehicle uri d with
      | (Some v, d) => (Some v, v_type v, v_route v, d)
      | (None, d) => (None, vehicle_type, route, d)
      end
    else (None, vehicle_type, route, d) in
  match vehicle with
  | None =>
      if negb (is_empty route) then
        match Database.getVehicleByRouteAndType route vehicle_type d with
        | (Some v, d) => (Some v, vehicle_type, route, d)
        | (None, d) =>
            let '(v, vt, d) := scan_kinds [BUS; TRAM; TROLLEYBUS] route vehicle_type d in
            (v, vt, route, d)
        end
      else (None, vehicle_type, route, d)
  | Some _ => (vehicle, vehicle_type, route, d)
  end.

(** [CentralServer::handleSeatReservation]. *)
Definition handleSeatReservation (message : Message.t) (s : t) : outcome t :=
  obind (Message.getInt message "vehicle_type") (fun vt =>
  let vehicle_type := to_enum8 vt in
  let route := if Message.hasKey message "route" then Message.getString message "route" else "" in
  let uri := if Message.hasKey message "uri" then Message.getString message "uri" else "" in
  let urn := if Message.hasKey message "urn" then Message.getString message "urn" else "" in
  if is_empty urn
  then Returned (sendErrorResponse s "Missing user URN" DEFAULT_ERROR_CODE)
  else
    let '(vehicle, vehicle_type, route, d) :=
      resolve_for_reservation uri route vehicle_type (db s) in
    let s := with_db s d in
    match vehicle with
    | None => Returned (sendErrorResponse s "Vehicle/route not found" DEFAULT_ERROR_CODE)
    | Some vehicle =>
        let route := if is_empty route then v_route vehicle else route in
        if v_available_seats vehicle <=? 0
        then Returned (sendErrorResponse s "No available seats for this route/vehicle"
                         DEFAULT_ERROR_CODE)
        else
          let new_available := v_available_seats vehicle - 1 in
          match Database.updateSeatAvailability (v_uri vehicle) new_available (db s) with
          | (false, d) =>
              Returned (sendErrorResponse (with_db s d) "Failed to reserve seat"
                          DEFAULT_ERROR_CODE)
          | (true, d) =>
              let s := with_db s d in
              let fields := assign_all [("route", route);
                                        ("vehicle_uri", v_uri vehicle);
                                        ("available_seats", to_string new_available)] [] in
              let s := sendResponse s
                         (MessageFactory.createSuccessResponse
                            "Seat reserved successfully" fields) in
              Returned (sendMulticastUpdate s "seat_reserved" fields)
          end
    end).

(** The vehicle [handleTicketPurchase] settles on: by URI, else by route
    and the requested kind; no other kind is tried. *)
Definition resolve_for_purchase (uri route : string) (vehicle_type : Z)
                                (d : Database.t)
  : option Vehicle * Z * string * Database.t :=
  let '(vehicle, vehicle_type, route, d) :=
    if negb (is_empty uri) then
      match Database.getVehicle uri d with
      | (Some v, d) => (Some v, v_type v, v_route v, d)
      | (None, d) => (None, vehicle_type, route, d)
      end
    else (None, vehicle_type, route, d) in
  match vehicle with
  | None =>
      if negb (is_empty route) then
        let '(v, d) := Database.getVehicleByRouteAndType route vehicle_type d in
        (v, vehicle_type, route, d)
      else (None, vehicle_type, route, d)
  | Some _ => (vehicle, vehicle_type, route, d)
  end.

(** What is common to the tickets of one purchase. *)
Record TicketOrder := mkOrder {
  o_urn : string;
  o_ticket_type : Z;
  o_vehicle_type : Z;
  o_route : string;
  o_price_each : Q;
  o_discount : Q;
  o_when_buy : string;
  o_first_seat : Z   (* capacity - available_seats *)
}.

Definition error_suffix (err : string) : string :=
  match err with
  | EmptyString => ""
  | _ => (": " ++ err)%string
  end.

(** The ticket loop of [handleTicketPurchase], from index [i] for [n] more
    tickets: [inr ids] when every ticket was created, [inl err] with the
    database error when [createTicket] failed (the loop stops there). *)
Fixpoint create_tickets (n : nat) (i : Z) (o : TicketOrder) (ticket_ids : list string)
                        (s : t) : (string + list string) * t :=
  match n with
  | O => (inr ticket_ids, s)
  | S k =>
      let '(id, s) := generateTicketId s in
      let tk := mkTicket id (o_urn o) (o_ticket_type o) (o_vehicle_type o) (o_route o)
                  (o_price_each o) (o_discount o) (o_when_buy o)
                  (to_string (o_first_seat o + i + 1)) false in
      match Database.createTicket tk (db s) with
      | (false, d) => (inl (Database.getLastError d), with_db s d)
      | (true, d) => create_tickets k (i + 1) o (ticket_ids ++ [id]) (with_db s d)
      end
  end.

(** The steps of [handleTicketPurchase] once the identity is known. *)
Definition purchase_for (message : Message.t) (urn : string) (s : t) : outcome t :=
  obind (Message.getInt message "ticket_type") (fun tt =>
  obind (Message.getInt message "vehicle_type") (fun vt =>
  let ticket_type := to_enum8 tt in
  let vehicle_type := to_enum8 vt in
  let route := if Message.hasKey message "route" then Message.getString message "route" else "" in
  let uri := if Message.hasKey message "uri" then Message.getString message "uri" else "" in
  obind (if Message.hasKey message "passengers"
         then Message.getInt message "passengers" else Returned 1) (fun passengers =>
  let passengers := if passengers <? 1 then 1 else passengers in
  let '(vehicle, vehicle_type, route, d) :=
    resolve_for_purchase uri route vehicle_type (db s) in
  let s := with_db s d in
  match vehicle with
  | None => Returned (sendErrorResponse s "Vehicle/route not found" 404)
  | Some vehicle =>
      let route := if is_empty route then v_route vehicle else route in
      if v_available_seats vehicle <? passengers
      then Returned (sendErrorResponse s "Insufficient seats available" 409)
      else
        let price_each :=
          Database.calculateTicketPrice vehicle_type ticket_type 1 1%Q 30%Q in
        let discount := 0%Q in
        let total_amount := (price_each * inject_Z passengers)%Q in
        let when_buy := timestamp s in
        let order := mkOrder urn ticket_type vehicle_type route price_each discount
                       when_buy (v_capacity vehicle - v_available_seats vehicle) in
        match create_tickets (Z.to_nat passengers) 0 order [] s with
        | (inl err, s) =>
            Returned (sendErrorResponse s
                        ("Failed to create ticket record" ++ error_suffix err) 500)
        | (inr ticket_ids, s) =>
            let '(tx, s) := generateTransactionId s in
            let p := mkPayment tx (hd "" ticket_ids) total_amount "card" when_buy true in
            match Database.recordPayment p (db s) with
            | (false, d) =>
                Returned (sendErrorResponse (with_db s d)
                            ("Failed to record payment"
                             ++ error_suffix (Database.getLastError d)) 500)
            | (true, d) =>
                let s := with_db s d in
                let new_available := v_available_seats vehicle - passengers in
                match Database.updateSeatAvailability (v_uri vehicle) new_available
                        (db s) with
                | (false, d) =>
                    Returned (sendErrorResponse (with_db s d)
                                ("Failed to update seat availability"
                                 ++ error_suffix (Database.getLastError d)) 500)
                | (true, d) =>
                    let s := with_db s d in
                    let s := sendResponse s
                      (MessageFactory.createSuccessResponse "Ticket purchased successfully"
                         (assign_all
                            [("total_amount", to_string_double total_amount);
                             ("route", route);
                             ("vehicle_uri", v_uri vehicle);
                             ("available_seats", to_string new_available);
                             ("passengers", to_string passengers);
                             ("user_urn", urn)] [])) in
                    Returned
                      (sendMulticastUpdate s "ticket_purchased"
                         (assign_all
                            [("route", route);
                             ("vehicle_uri", v_uri vehicle);
                             ("passengers", to_string passengers);
                             ("available_seats", to_string new_available)] []))
                end
            end
        end
  end))).

(** [CentralServer::handleTicketPurchase]. *)
Definition handleTicketPurchase (message : Message.t) (s : t) : outcome t :=
  if Message.hasKey message "session_id" then
    let sid := Message.getString message "session_id" in
    match find_session sid (client_sessions_ s) with
    | None => Returned (sendErrorResponse s "Invalid or expired session" 401)
    | Some c =>
        let s := with_sessions s (touch_session sid (now s) (client_sessions_ s)) in
        let urn := user_urn c in
        if is_empty urn
        then Returned (sendErrorResponse s "Missing user identity (session_id or urn)" 400)
        else purchase_for message urn s
    end
  else
    let urn := if Message.hasKey message "urn" then Message.getString message "urn" else "" in
    if is_empty urn
    then Returned (sendErrorResponse s "Missing user identity (session_id or urn)" 400)
    else purchase_for message urn s.

(** [CentralServer::requireGroupLeader]: [inr] the server when the caller
    is the leader, [inl] the server after the rejection was sent. *)
Definition requireGroupLeader (sid group_name : string) (s : t) : t + t :=
  match find_session sid (client_sessions_ s) with
  | None => inl (sendErrorResponse s "Invalid or expired session" 401)
  | Some c =>
      let caller_urn := user_urn c in
      let s := with_sessions s (touch_session sid (now s) (client_sessions_ s)) in
      let '(leader, d) := Database.getGroupLeader group_name (db s) in
      let s := with_db s d in
      if is_empty leader
      then inl (sendErrorResponse s "Group not found or no leader set" 404)
      else if negb (String.eqb leader caller_urn)
           then inl (sendErrorResponse s "Admin (group leader) privileges required" 403)
           else inr s
  end.

(** [CentralServer::handleRemoveMemberFromGroup]. *)
Definition handleRemoveMemberFromGroup (message : Message.t) (s : t) : t :=
  let sid := Message.getString message "session_id" in
  let urn := Message.getString message "urn" in
  let group := Message.getString message "group_name" in
  if (is_empty sid || is_empty group || is_empty urn)%bool
  then sendErrorResponse s "Missing required fields (session_id, group_name, urn)" 400
  else
    match requireGroupLeader sid group s with
    | inl s => s
    | inr s =>
        let '(ok, d) := Database.removeUserFromGroup urn group (db s) in
        let s := with_db s d in
        if ok then sendSuccessResponse s "User removed from group"
        else sendErrorResponse s "Failed to remove user from group" 500
    end.

(** [CentralServer::handleGroupCreation]. *)
Definition handleGroupCreation (message : Message.t) (s : t) : t :=
  let group_name := Message.getString message "group_name" in
  let leader_urn := Message.getString message "leader_urn" in
  if (is_empty group_name || is_empty leader_urn)%bool
  then sendErrorResponse s "Missing group_name or leader_urn" 400
  else
    let g := mkGroup 0 group_name leader_urn (timestamp s) true in
    let '(ok, d) := Database.createGroup g (db s) in
    let s := with_db s d in
    if ok then sendSuccessResponse s "Group created successfully"
    else sendErrorResponse s "Failed to create group" 500.

(** [CentralServer::handleAddMemberToGroup]. *)
Definition handleAddMemberToGroup (message : Message.t) (s : t) : t :=
  let sid := Message.getString message "session_id" in
  let urn := Message.getString message "urn" in
  let group := Message.getString message "group_name" in
  if (is_empty sid || is_empty group || is_empty urn)%bool
  then sendErrorResponse s "Missing required fields (session_id, group_name, urn)" 400
  else
    match find_session sid (client_sessions_ s) with
    | None => sendErrorResponse s "Invalid or expired session" 401
    | Some _ =>
        let s := with_sessions s (touch_session sid (now s) (client_sessions_ s)) in
        let '(ok, d) := Database.addUserToGroup urn group (db s) in
        let s := with_db s d in
        if ok then sendSuccessResponse s "User added to group"
        else sendErrorResponse s "Failed to add user to group" 500
    end.

(** *** Registration, authentication and sessions *)

Fixpoint all_digits (s : string) : bool :=
  match s with
  | EmptyString => true
  | String a r => (Message.is_digit a && all_digits r)%bool
  end.

(** [CentralServer::validateURN]: thirteen decimal digits. *)
Definition validateURN (urn : string) : bool :=
  ((slen urn =? 13) && all_digits urn)%bool.

(** [CentralServer::validateURI]. *)
Definition validateURI (uri : string) : bool :=
  (negb (is_empty uri) && (slen uri <=? 32))%bool.

(** [CentralServer::generateSessionId]; [counter] is its static counter. *)
Definition generateSessionId (counter : Z) : string * Z :=
  (("session_" ++ to_string (counter + 1))%string, counter + 1).

(** [client_sessions_[sid] = c].  The list is searched by key only, so
    where a new key is put does not matter. *)
Fixpoint set_session (sid : string) (c : ClientSession)
                     (l : list (string * ClientSession))
  : list (string * ClientSession) :=
  match l with
  | [] => [(sid, c)]
  | (k, c0) :: r =>
      if String.eqb k sid then (k, c) :: r else (k, c0) :: set_session sid c r
  end.

(** [CentralServer::handleConnectRequest]. *)
Definition handleConnectRequest (message : Message.t) (s : t) : t :=
  sendResponse s (MessageFactory.createConnectResponse true "Connection established").

(** [CentralServer::handleAuthRequest]: a registered URN is all it takes.
    The result carries the counter of [generateSessionId]. *)
Definition handleAuthRequest (message : Message.t) (counter : Z) (s : t) : Z * t :=
  let urn := Message.getString message "urn" in
  let '(authenticated, d) :=
    if negb (is_empty urn)
    then match Database.getUser urn (db s) with
         | (Some _, d) => (true, d)
         | (None, d) => (false, d)
         end
    else (false, db s) in
  let s := with_db s d in
  let '(session_id, counter) :=
    if authenticated then generateSessionId counter else ("", counter) in
  let response := MessageFactory.createAuthResponse authenticated session_id in
  let s :=
    if authenticated
    then with_sessions s
           (set_session session_id (mkSession session_id urn true (now s))
              (client_sessions_ s))
    else s in
  (counter, sendResponse s response).

Definition or_default (text fallback : string) : string :=
  if is_empty text then fallback else text.

(** [CentralServer::handleUserRegistration]. *)
Definition handleUserRegistration (message : Message.t) (s : t) : outcome t :=
  let urn := Message.getString message "urn" in
  if negb (validateURN urn)
  then Returned (sendErrorResponse s "Invalid URN format" 400)
  else
    match Database.getUser urn (db s) with
    | (Some _, d) => Returned (sendErrorResponse (with_db s d) "User already registered" 409)
    | (None, d) =>
        let s := with_db s d in
        let name := if Message.hasKey message "name"
                    then Message.getString message "name"
                    else ("User_" ++ urn)%string in
        obind (if Message.hasKey message "age"
               then Message.getInt message "age" else Returned 25) (fun age =>
        let pin_hash := if Message.hasKey message "pin_hash"
                        then Message.getString message "pin_hash"
                        else "default_hash" in
        let user := mkUser urn name age (timestamp s) true pin_hash in
        let '(ok, d) := Database.registerUser user (db s) in
        let dbErr := Database.getLastError d in
        let s := with_db s d in
        if ok then Returned (sendSuccessResponse s "User registered successfully")
        else Returned (sendErrorResponse s (or_default dbErr "Failed to register user") 500))
    end.

(** [dbErr.find("exists") != npos]. *)
Definition mentions_exists (text : string) : bool :=
  match String.index 0 "exists" text with Some _ => true | None => false end.

(** [CentralServer::handleDeviceRegistration]: fifty seats, all free, on
    the route [Route_<uri>]. *)
Definition handleDeviceRegistration (message : Message.t) (s : t) : outcome t :=
  let uri := Message.getString message "uri" in
  obind (Message.getInt message "vehicle_type") (fun vtype =>
  if negb (validateURI uri)
  then Returned (sendErrorResponse s "Invalid URI format" 400)
  else
    let vehicle := mkVehicle uri (to_enum8 vtype) 50 50 ("Route_" ++ uri)%string true
                     (timestamp s) in
    let '(ok, d) := Database.registerVehicle vehicle (db s) in
    let dbErr := Database.getLastError d in
    let dbCode := Database.getLastErrorCode d in
    let s := with_db s d in
    if ok then Returned (sendSuccessResponse s "Device registered successfully")
    else if ((dbCode =? Database.SQLITE_CONSTRAINT) || mentions_exists dbErr)%bool
         then Returned (sendErrorResponse s "Device already exists" 409)
         else Returned (sendErrorResponse s (or_default dbErr "Failed to register device")
                          500)).

(** [CentralServer::handleUserDeletion]: the request is acknowledged. *)
Definition handleUserDeletion (message : Message.t) (s : t) : t :=
  sendSuccessResponse s "User deletion request submitted".

(** [CentralServer::processUserDeletion]. *)
Definition processUserDeletion (urn : string) (admin_approved : bool) (s : t)
  : bool * t :=
  if negb admin_approved then (false, s)
  else
    match Database.getUser urn (db s) with
    | (None, d) => (false, with_db s d)
    | (Some _, d) =>
        let '(ok, d) := Database.deleteUser urn d in
        (ok, with_db s d)
    end.

(** [CentralServer::cleanupExpiredSessions]; [ttl] is
    [config_.session_timeout]. *)
Definition cleanupExpiredSessions (ttl : Z) (s : t) : t :=
  with_sessions s
    (filter (fun kc => negb (negb (authenticated (snd kc))
                             || (ttl <? now s - last_activity (snd kc))))
       (client_sessions_ s)).

(** [CentralServer::validateSession]. *)
Definition validateSession (sid : string) (s : t) : bool :=
  match find_session sid (client_sessions_ s) with Some _ => true | None => false end.

(** [CentralServer::removeSession]. *)
Definition removeSession (sid : string) (s : t) : t :=
  with_sessions s (filter (fun kc => negb (String.eqb (fst kc) sid)) (client_sessions_ s)).

(** *** Admin updates *)

(** [CentralServer::handleUpdateCapacity]: [available_seats] defaults to
    the capacity. *)
Definition handleUpdateCapacity (msg : Message.t) (s : t) : outcome t :=
  if (negb (Message.hasKey msg "uri") || negb (Message.hasKey msg "capacity"))%bool
  then Returned (sendErrorResponse s "Missing uri/capacity" 400)
  else
    let uri := Message.getString msg "uri" in
    obind (Message.getInt msg "capacity") (fun capacity =>
    obind (if Message.hasKey msg "available_seats"
           then Message.getInt msg "available_seats" else Returned capacity) (fun available =>
    let '(ok, d) := Database.updateVehicleCapacity uri capacity available (db s) in
    let dbErr := Database.getLastError d in
    let s := with_db s d in
    if negb ok
    then Returned (sendErrorResponse s (or_default dbErr "Failed to update capacity") 500)
    else
      let s := sendSuccessResponse s "Capacity updated" in
      Returned (sendMulticastUpdate s "capacity_updated"
                  (assign_all [("uri", uri);
                               ("capacity", to_string capacity);
                               ("available_seats", to_string available)] [])))).

(** [CentralServer::handleUpdateVehicle]. *)
Definition handleUpdateVehicle (msg : Message.t) (s : t) : outcome t :=
  if negb (Message.hasKey msg "uri")
  then Returned (sendErrorResponse s "Missing uri" 400)
  else
    let uri := Message.getString msg "uri" in
    obind (if Message.hasKey msg "active"
           then obind (Message.getInt msg "active") (fun a => Returned (Some (negb (a =? 0))))
           else Returned None) (fun active =>
    let route := if Message.hasKey msg "route"
                 then Some (Message.getString msg "route") else None in
    obind (if Message.hasKey msg "vehicle_type"
           then obind (Message.getInt msg "vehicle_type")
                  (fun v => Returned (Some (to_enum8 v)))
           else Returned None) (fun type =>
    let '(ok, d) := Database.updateVehicle uri active route type (db s) in
    let dbErr := Database.getLastError d in
    let s := with_db s d in
    if negb ok
    then Returned (sendErrorResponse s (or_default dbErr "Failed to update vehicle") 500)
    else
      let s := sendSuccessResponse s "Vehicle updated" in
      Returned (sendMulticastUpdate s "vehicle_updated" (assign_all [("uri", uri)] [])))).

End CentralServer.

(** ** States and requests used in the statements below *)

Definition empty_tables : Database.Tables :=
  Database.mkTables [] [] [] [] [] [] 0.

(** A connection on the given tables, no transaction open, nothing run
    yet, with the given answers of the environment to come. *)
Definition connection (tb : Database.Tables) (busy : list bool) : Database.t :=
  Database.mk tb None "" 0 [] busy "2025-01-01 12:00:00".

Definition leader_urn : string := "1000000000001".
Definition member2_urn : string := "1000000000002".
Definition member3_urn : string := "1000000000003".

Definition user (urn name : string) : User :=
  mkUser urn name 30 "2025-01-01 10:00:00" true "default_hash".

(** The vehicle of the concurrent-reservation test: [bus://42], three
    seats, route [R_42]. *)
Definition bus42 : Vehicle :=
  mkVehicle "bus://42" BUS 3 3 "R_42" true "2025-01-01 12:00:00".

Definition city_tables : Database.Tables :=
  Database.mkTables
    [user leader_urn "Leader"; user member2_urn "Second"; user member3_urn "Third"]
    [] [] [bus42] [] [] 0.

(** A server on the given connection with one session, [session_1], of
    the given user. *)
Definition server (d : Database.t) (urn : string) : CentralServer.t :=
  CentralServer.mk d [("session_1", CentralServer.mkSession "session_1" urn true 0)]
    0 0 1700000000 "2025-01-01 12:00:00" [] [].

(** [createReserveSeat(kind, route)] with [uri] and [urn] added as the
    client adds them (an empty argument is left out). *)
Definition add_if (m : Message.t) (k v : string) : Message.t :=
  match v with
  | EmptyString => m
  | _ => Message.addString m k v
  end.

Definition reserve_request (kind : Z) (route uri urn : string) : Message.t :=
  let m := Message.create MessageFactory.RESERVE_SEAT in
  let m := Message.addInt m "vehicle_type" kind in
  let m := add_if m "route" route in
  let m := add_if m "uri" uri in
  let m := add_if m "urn" urn in
  Message.calculateChecksum m.

(** [createPurchaseTicket(ticket, kind, route, passengers)] with [uri]
    and [urn] added. *)
Definition purchase_request (ticket kind : Z) (route uri urn : string)
                            (passengers : Z) : Message.t :=
  let m := Message.create MessageFactory.PURCHASE_TICKET in
  let m := Message.addInt m "ticket_type" ticket in
  let m := Message.addInt m "vehicle_type" kind in
  let m := add_if m "route" route in
  let m := Message.addInt m "passengers" passengers in
  let m := add_if m "uri" uri in
  let m := add_if m "urn" urn in
  Message.calculateChecksum m.

(** [createRemoveMemberFromGroup(group, member, session)]. *)
Definition remove_member_request (group member sid : string) : Message.t :=
  let m := Message.create MessageFactory.DELETE_GROUP_MEMBER in
  let m := Message.addString m "group_name" group in
  let m := Message.addString m "urn" member in
  let m := add_if m "session_id" sid in
  Message.calculateChecksum m.

(** The last response written to the client and its [error_code]. *)
Definition last_response (s : CentralServer.t) : option Message.t :=
  last (map Some (CentralServer.sent s)) None.

Definition last_error_code (s : CentralServer.t) : option (outcome Z) :=
  option_map (fun m => Message.getInt m "error_code") (last_response s).

Definition ok_state {A} (x : outcome A) : option A :=
  match x with Returned a => Some a | Thrown _ => None end.

(** The statements a handler has run on its connection. *)
Definition statements_of (x : outcome CentralServer.t) : option (list Database.Sql) :=
  option_map (fun s => Database.executed (CentralServer.db s)) (ok_state x).

Definition tables_of (x : outcome CentralServer.t) : option Database.Tables :=
  option_map (fun s => Database.tables (CentralServer.db s)) (ok_state x).

Definition error_code_of (x : outcome CentralServer.t) : option (outcome Z) :=
  match ok_state x with
  | Some s => last_error_code s
  | None => None
  end.

(** The amounts of the payment rows. *)
Definition charged (x : outcome CentralServer.t) : option (list Q) :=
  option_map (fun tb => map p_amount (Database.payments tb)) (tables_of x).

(** The [total_amount] of the last answer. *)
Definition answered_total (x : outcome CentralServer.t) : option string :=
  match ok_state x with
  | Some s => option_map (fun m => Message.getString m "total_amount") (last_response s)
  | None => None
  end.

Definition is_transaction_statement (q : Database.Sql) : bool :=
  match q with
  | Database.BEGIN_TRANSACTION | Database.COMMIT | Database.ROLLBACK => true
  | _ => false
  end.

(** [d'] is [d] after more statements, none of which opens, commits or
    rolls back a transaction. *)
Definition ran_outside_transaction (d d' : Database.t) : Prop :=
  exists l, Database.executed d' = Database.executed d ++ l
            /\ forallb (fun q => negb (is_transaction_statement q)) l = true.

(** [try_reserve_one] of the concurrent-reservation test: one reservation
    under a transaction, read -> check -> update. *)
Definition try_reserve_one (uri : string) (d : Database.t) : bool * Database.t :=
  let '(began, d) := Database.beginTransaction d in
  if negb began then (false, d)
  else
    let '(v, d) := Database.getVehicle uri d in
    match v with
    | None => let '(_, d) := Database.rollbackTransaction d in (false, d)
    | Some v =>
        if v_available_seats v <=? 0
        then let '(_, d) := Database.rollbackTransaction d in (false, d)
        else
          let new_avail := v_available_seats v - 1 in
          let '(ok, d) := Database.updateSeatAvailability uri new_avail d in
          if negb ok
          then let '(_, d) := Database.rollbackTransaction d in (false, d)
          else Database.commitTransaction d
    end.

(** [city_tables] with the bus sold out. *)
Definition full_bus_tables : Database.Tables :=
  Database.set_vehicles city_tables
    [mkVehicle "bus://42" BUS 3 0 "R_42" true "2025-01-01 12:00:00"].

(** [city_tables] holding already a payment under the id the server's
    next [generateTransactionId] yields. *)
Definition taken_id_tables : Database.Tables :=
  Database.set_payments city_tables
    [mkPayment "TX_1_1700000000" "" 1%Q "card" "2025-01-01 11:00:00" true].

(** ** Group invariants *)

(** The leader of [g] is an active member of [g]. *)
Definition leader_is_member (tb : Database.Tables) (g : Group) : Prop :=
  exists r, In r (Database.group_members tb)
            /\ gm_group_id r = g_group_id g
            /\ gm_member_urn r = g_leader_urn g
            /\ gm_active r = true.

Definition leaders_are_members (tb : Database.Tables) : Prop :=
  forall g, In g (Database.groups tb) -> leader_is_member tb g.

(** What holds of the group tables in every state the operations reach:
    the leaders are members, and the group ids are distinct, positive and
    not above the AUTOINCREMENT sequence (the primary key of [groups]). *)
Record group_inv (tb : Database.Tables) : Prop := mkGroupInv {
  inv_leaders : leaders_are_members tb;
  inv_ids_distinct : NoDup (map g_group_id (Database.groups tb));
  inv_ids_bounded :
    forall g, In g (Database.groups tb) -> 0 < g_group_id g <= Database.group_seq tb;
  inv_seq : 0 <= Database.group_seq tb
}.

(** Every membership row of [old] is still there in [new], possibly with
    a later join date, and active if it was. *)
Definition members_kept (old new : list GroupMember) : Prop :=
  forall r, In r old ->
    exists r', In r' new
               /\ gm_group_id r' = gm_group_id r
               /\ gm_member_urn r' = gm_member_urn r
               /\ (gm_active r = true -> gm_active r' = true).

(** The group [TEAM1] led by [leader_urn], and the tables after
    [createGroup] of it on [city_tables]. *)
Definition team1 : Group := mkGroup 0 "TEAM1" leader_urn "2025-01-01 11:00:00" true.

Definition team_db : Database.t :=
  snd (Database.createGroup team1 (connection city_tables [])).

(** A removal is rejected: the given error is the answer and the tables
    are as before. *)
Definition rejected (s s' : CentralServer.t) (text : string) (code : Z) : Prop :=
  last_response s' = Some (MessageFactory.createErrorResponse text code)
  /\ Database.tables (CentralServer.db s') = Database.tables (CentralServer.db s).

(** The first vehicle of the given route and kind, as
    [getVehicleByRouteAndType] reads it when the statement runs. *)
Definition on_route (tb : Database.Tables) (route : string) (kind : Z)
  : option Vehicle :=
  option_map Database.extractVehicle
    (find (fun v => String.eqb (v_route v) (c_str route) && (v_type v =? kind))%bool
          (Database.vehicles tb)).

Definition is_some {A} (x : option A) : bool :=
  match x with Some _ => true | None => false end.

(** [i; i+1; ...], [n] of them. *)
Fixpoint indices (i : Z) (n : nat) : list Z :=
  match n with
  | O => []
  | S k => i :: indices (i + 1) k
  end.

(** The bodies [Message::decodeData] accepts: complete tuples
    [key_len | key | val_len | value], after which the body ends, or goes
    on with one more tuple cut off at a field boundary: right after a
    non-zero [key_len], right after the key, or right after a non-zero
    [val_len] (each [break] of the loop leaves with [pos == data.size()]). *)
Inductive body_ok : list byte -> Prop :=
| body_end : body_ok []
| body_cut_key_len (n : Z) :
    0 < n < two32 -> body_ok (put_u32 n)
| body_cut_key (k : list byte) :
    zlen k < two32 -> body_ok (put_u32 (zlen k) ++ k)
| body_cut_val_len (k : list byte) (n : Z) :
    zlen k < two32 -> 0 < n < two32 ->
    body_ok (put_u32 (zlen k) ++ k ++ put_u32 n)
| body_tuple (k v rest : list byte) :
    zlen k < two32 -> zlen v < two32 -> body_ok rest ->
    body_ok (put_u32 (zlen k) ++ k ++ put_u32 (zlen v) ++ v ++ rest).

(** The acceptance condition as the specification words it: at least a
    header, magic and version as expected, and a body length that does not
    exceed what follows the header. *)
Definition spec_decode_ok (b : list byte) : bool :=
  ((Message.HEADER_SIZE <=? zlen b)
   && (get_u32 b =? Message.MAGIC)
   && (get_u16 (skipn 4 b) =? 1)
   && (Message.HEADER_SIZE + get_u32 (skipn 8 b) <=? zlen b))%bool.

(** A 24-byte frame of type 1 with the given version and body length. *)
Definition frame_header (ver len : Z) : list byte :=
  Message.header_bytes (Message.mkHeader Message.MAGIC ver 1 len 0 0 0).

(** A frame whose body of 20 bytes gives the key [a] twice, and the
    message [deserialize] makes of it. *)
Definition repeated_key_frame : list byte :=
  frame_header 1 20 ++ Message.encode_pairs [("a", "1"); ("a", "2")].

Definition repeated_key_message : Message.t :=
  snd (Message.deserialize Message.clear repeated_key_frame).

(** ** Vehicle invariants *)

(** The primary key of [vehicles]. *)
Definition uris_distinct (tb : Database.Tables) : Prop :=
  NoDup (map v_uri (Database.vehicles tb)).

(** No vehicle is overbooked, none has more free seats than seats. *)
Definition seats_in_range (tb : Database.Tables) : Prop :=
  Forall (fun v => 0 <= v_available_seats v <= v_capacity v) (Database.vehicles tb).

(** What holds of [vehicles] in every state the operations reach: the
    URIs are distinct (the primary key) and are C strings, as they were
    bound, and the seats are in range. *)
Record vehicle_inv (tb : Database.Tables) : Prop := mkVehicleInv {
  inv_uris_distinct : uris_distinct tb;
  inv_uris_bound : Forall (fun v => c_str (v_uri v) = v_uri v) (Database.vehicles tb);
  inv_seats : seats_in_range tb
}.

(** The free seats of the vehicle of that URI. *)
Definition seats_of (tb : Database.Tables) (uri : string) : option Z :=
  option_map v_available_seats (find (Database.has_uri uri) (Database.vehicles tb)).


(** [attempts] calls of [try_reserve_one] in a row on one connection:
    how many succeeded, and the connection afterwards. *)
Fixpoint reserve_many (attempts : nat) (uri : string) (d : Database.t)
  : Z * Database.t :=
  match attempts with
  | O => (0, d)
  | S k =>
      let '(ok, d) := try_reserve_one uri d in
      let '(n, d) := reserve_many k uri d in
      ((if ok then 1 else 0) + n, d)
  end.

(** ** More states and requests *)

(** A socket with an established session and the given bytes to come. *)
Definition socket_reading (bytes : list byte) : TLSSocket.t :=
  TLSSocket.mk true bytes [].

Definition member2 : User := user member2_urn "Second".

(* ================================================================== *)
(** * Part II.  Properties                                              *)
(* ================================================================== *)

(** ** Bytes and network byte order *)

Lemma byte_to_Z_range (b : byte) : 0 <= byte_to_Z b < 256.
Proof.
  unfold byte_to_Z. pose proof (Byte.to_N_bounded b). lia.
Qed.

Lemma byte_to_of_Z (z : Z) : byte_to_Z (byte_of_Z z) = z mod 256.
Proof.
  unfold byte_to_Z, byte_of_Z.
  assert (Hr : 0 <= z mod 256 < 256) by (apply Z.mod_pos_bound; lia).
  destruct (Byte.of_N (Z.to_N (z mod 256))) as [b|] eqn:E.
  - apply Byte.to_of_N in E. rewrite E. lia.
  - apply Byte.of_N_None_iff in E. lia.
Qed.

Lemma byte_of_to_Z (b : byte) : byte_of_Z (byte_to_Z b) = b.
Proof.
  unfold byte_of_Z. pose proof (byte_to_Z_range b) as Hr.
  rewrite Z.mod_small by lia. unfold byte_to_Z.
  rewrite N2Z.id, Byte.of_to_N. reflexivity.
Qed.

Lemma length_put_u32 (z : Z) : List.length (put_u32 z) = 4%nat.
Proof. reflexivity. Qed.

Lemma get_put_u32 (z : Z) (l : list byte) :
  get_u32 (put_u32 z ++ l) = z mod two32.
Proof.
  unfold get_u32, put_u32, two32. cbn [app nth].
  rewrite !byte_to_of_Z. Z.div_mod_to_equations. lia.
Qed.

Lemma get_put_u16 (z : Z) (l : list byte) :
  get_u16 (put_u16 z ++ l) = z mod 65536.
Proof.
  unfold get_u16, put_u16. cbn [app nth].
  rewrite !byte_to_of_Z. Z.div_mod_to_equations. lia.
Qed.

Lemma get_u32_range (l : list byte) : 0 <= get_u32 l < two32.
Proof.
  unfold get_u32, two32.
  pose proof (byte_to_Z_range (nth 0 l x00)).
  pose proof (byte_to_Z_range (nth 1 l x00)).
  pose proof (byte_to_Z_range (nth 2 l x00)).
  pose proof (byte_to_Z_range (nth 3 l x00)).
  lia.
Qed.

Lemma byte_of_Z_small (a z : Z) :
  0 <= z < 256 -> byte_of_Z (256 * a + z) = byte_of_Z z.
Proof.
  intros Hz. unfold byte_of_Z.
  replace ((256 * a + z) mod 256) with (z mod 256); [reflexivity|].
  rewrite Z.add_comm, Z.mul_comm, Z.mod_add by lia. reflexivity.
Qed.

Lemma put_get_u32 (b0 b1 b2 b3 : byte) (l : list byte) :
  put_u32 (get_u32 (b0 :: b1 :: b2 :: b3 :: l)) = [b0; b1; b2; b3].
Proof.
  unfold get_u32, put_u32. cbn [nth].
  pose proof (byte_to_Z_range b0) as H0. pose proof (byte_to_Z_range b1) as H1.
  pose proof (byte_to_Z_range b2) as H2. pose proof (byte_to_Z_range b3) as H3.
  set (z0 := byte_to_Z b0) in *. set (z1 := byte_to_Z b1) in *.
  set (z2 := byte_to_Z b2) in *. set (z3 := byte_to_Z b3) in *.
  assert (E0 : (z0 * 16777216 + z1 * 65536 + z2 * 256 + z3) / 16777216 = z0)
    by (Z.div_mod_to_equations; lia).
  assert (E1 : (z0 * 16777216 + z1 * 65536 + z2 * 256 + z3) / 65536 = 256 * z0 + z1)
    by (Z.div_mod_to_equations; lia).
  assert (E2 : (z0 * 16777216 + z1 * 65536 + z2 * 256 + z3) / 256
               = 256 * (256 * z0 + z1) + z2)
    by (Z.div_mod_to_equations; lia).
  rewrite E0, E1, E2.
  replace (z0 * 16777216 + z1 * 65536 + z2 * 256 + z3)
    with (256 * (65536 * z0 + 256 * z1 + z2) + z3) by lia.
  rewrite !byte_of_Z_small by lia.
  subst z0 z1 z2 z3. rewrite !byte_of_to_Z. reflexivity.
Qed.

Lemma length_list_byte_of_string (s : string) :
  List.length (list_byte_of_string s) = String.length s.
Proof.
  unfold list_byte_of_string. rewrite length_map.
  induction s as [|a s IH]; simpl; [reflexivity | now rewrite IH].
Qed.

Lemma zlen_app {A} (l1 l2 : list A) : zlen (l1 ++ l2) = zlen l1 + zlen l2.
Proof. unfold zlen. rewrite length_app. lia. Qed.

Lemma zlen_nonneg {A} (l : list A) : 0 <= zlen l.
Proof. unfold zlen. lia. Qed.

Lemma zlen_bytes_of_string (s : string) : zlen (list_byte_of_string s) = slen s.
Proof. unfold zlen, slen. now rewrite length_list_byte_of_string. Qed.

Lemma is_nil_true {A} (l : list A) : Message.is_nil l = true <-> l = [].
Proof. destruct l; simpl; split; congruence. Qed.

(** ** The key order of [std::map] *)

Lemma ascii_compare_trans (a b c : ascii) :
  Ascii.compare a b = Lt -> Ascii.compare b c = Lt -> Ascii.compare a c = Lt.
Proof.
  unfold Ascii.compare. rewrite !N.compare_lt_iff. lia.
Qed.

Lemma ascii_compare_refl (a : ascii) : Ascii.compare a a = Eq.
Proof. unfold Ascii.compare. apply N.compare_refl. Qed.

Lemma string_compare_trans (a b c : string) :
  String.compare a b = Lt -> String.compare b c = Lt -> String.compare a c = Lt.
Proof.
  revert b c. induction a as [|x a IH]; intros [|y b] [|z c]; simpl;
    try congruence.
  destruct (Ascii.compare x y) eqn:Exy; try discriminate;
  destruct (Ascii.compare y z) eqn:Eyz; try discriminate; intros H1 H2.
  - apply Ascii.compare_eq_iff in Exy, Eyz. subst.
    rewrite ascii_compare_refl. eauto.
  - apply Ascii.compare_eq_iff in Exy. subst. now rewrite Eyz.
  - apply Ascii.compare_eq_iff in Eyz. subst. now rewrite Exy.
  - now rewrite (ascii_compare_trans _ _ _ Exy Eyz).
Qed.

Lemma ltb_lt (a b : string) : String.ltb a b = true <-> String.compare a b = Lt.
Proof. unfold String.ltb. destruct (String.compare a b); split; congruence. Qed.

Lemma compare_gt_lt (a b : string) :
  String.compare a b = Gt <-> String.compare b a = Lt.
Proof.
  rewrite (String.compare_antisym b a).
  destruct (String.compare a b); simpl; split; congruence.
Qed.

(** Assigning a key above every key present appends. *)
Lemma map_set_above (k v : string) (m : smap) :
  forallb (fun p => String.ltb (fst p) k) m = true ->
  map_set k v m = m ++ [(k, v)].
Proof.
  induction m as [|[k' v'] m IH]; simpl; [reflexivity|].
  intros H. apply andb_true_iff in H as [H1 H2].
  apply ltb_lt, compare_gt_lt in H1. rewrite H1, IH by assumption. reflexivity.
Qed.

Lemma assign_all_sorted (l acc : smap) :
  Message.sortedb l = true ->
  (forall a b, In a acc -> In b l -> String.compare (fst a) (fst b) = Lt) ->
  assign_all l acc = acc ++ l.
Proof.
  revert acc. induction l as [|[k v] l IH]; intros acc Hs Hlt; simpl.
  - now rewrite app_nil_r.
  - simpl in Hs. apply andb_true_iff in Hs as [Hk Hs].
    unfold assign_all in *. simpl.
    rewrite map_set_above.
    + rewrite IH; [now rewrite <- app_assoc | assumption |].
      intros a b Ha Hb. apply in_app_or in Ha as [Ha|[<-|[]]].
      * apply Hlt; [assumption | now right].
      * simpl. rewrite forallb_forall in Hk. now apply ltb_lt, Hk.
    + apply forallb_forall. intros a Ha. apply ltb_lt.
      apply (Hlt a (k, v)); [assumption | now left].
Qed.

Lemma map_set_forall (P : string -> bool) (k v : string) (m : smap) :
  P k = true -> forallb (fun p => P (fst p)) m = true ->
  forallb (fun p => P (fst p)) (map_set k v m) = true.
Proof.
  intros Hk. induction m as [|[k' v'] m IH]; simpl; intros H.
  - now rewrite Hk.
  - apply andb_true_iff in H as [H1 H2].
    destruct (String.compare k k'); simpl; rewrite ?Hk, ?H1, ?H2; auto.
Qed.

(** [operator[]] keeps the map ordered. *)
Lemma map_set_sorted (k v : string) (m : smap) :
  Message.sortedb m = true -> Message.sortedb (map_set k v m) = true.
Proof.
  induction m as [|[k' v'] m IH]; simpl; intros H; [reflexivity|].
  apply andb_true_iff in H as [H1 H2].
  destruct (String.compare k k') eqn:E; simpl.
  - apply String.compare_eq_iff in E. subst. now rewrite H1, H2.
  - repeat (apply andb_true_iff; split); try assumption; [now apply ltb_lt|].
    apply forallb_forall. intros p Hp. rewrite forallb_forall in H1.
    apply ltb_lt. eapply string_compare_trans; [exact E|]. now apply ltb_lt, H1.
  - apply andb_true_iff; split; [|now apply IH].
    apply (map_set_forall (fun x => String.ltb k' x)); [|assumption].
    now apply ltb_lt, compare_gt_lt.
Qed.

(** ** Decoding what was encoded *)

Lemma firstn_exact {A} (l1 l2 : list A) :
  firstn (Z.to_nat (zlen l1)) (l1 ++ l2) = l1.
Proof.
  unfold zlen. rewrite Nat2Z.id.
  induction l1 as [|a l1 IH]; simpl; [now destruct l2 | now rewrite IH].
Qed.

Lemma skipn_exact {A} (l1 l2 : list A) :
  skipn (Z.to_nat (zlen l1)) (l1 ++ l2) = l2.
Proof.
  unfold zlen. rewrite Nat2Z.id.
  induction l1 as [|a l1 IH]; simpl; [reflexivity | assumption].
Qed.

Lemma firstn_whole {A} (l : list A) : firstn (Z.to_nat (zlen l)) l = l.
Proof. unfold zlen. rewrite Nat2Z.id. apply firstn_all. Qed.

Lemma skipn_put_u32 (n : Z) (l : list byte) : skipn 4 (put_u32 n ++ l) = l.
Proof. reflexivity. Qed.

Lemma zlen_put_u32 (n : Z) (l : list byte) : zlen (put_u32 n ++ l) = 4 + zlen l.
Proof. rewrite zlen_app. reflexivity. Qed.

Lemma zlen_put_u32_only (n : Z) : zlen (put_u32 n) = 4.
Proof. reflexivity. Qed.

(** Settle a comparison of sizes that [lia] can decide. *)
Ltac decide_cmp :=
  match goal with
  | |- context [Z.leb ?a ?b] =>
      first [ replace (Z.leb a b) with true by (symmetry; apply Z.leb_le; lia)
            | replace (Z.leb a b) with false by (symmetry; apply Z.leb_gt; lia) ]
  | |- context [Z.ltb ?a ?b] =>
      first [ replace (Z.ltb a b) with true by (symmetry; apply Z.ltb_lt; lia)
            | replace (Z.ltb a b) with false by (symmetry; apply Z.ltb_ge; lia) ]
  end.

Ltac sizes := rewrite ?zlen_app, ?zlen_put_u32_only.

(** One iteration of the loop on a complete tuple. *)
Lemma decode_loop_tuple (f : nat) (k v rest : list byte) (acc : smap) :
  zlen k < two32 -> zlen v < two32 ->
  Message.decode_loop (S f)
    (put_u32 (zlen k) ++ k ++ put_u32 (zlen v) ++ v ++ rest) acc
  = Message.decode_loop f rest
      (map_set (string_of_list_byte k) (string_of_list_byte v) acc).
Proof.
  intros Hk Hv.
  pose proof (zlen_nonneg k). pose proof (zlen_nonneg v).
  pose proof (zlen_nonneg rest).
  cbn [Message.decode_loop].
  rewrite skipn_put_u32, get_put_u32.
  rewrite (Z.mod_small (zlen k)) by (unfold two32 in *; lia).
  sizes. do 2 decide_cmp.
  rewrite firstn_exact, skipn_exact.
  rewrite skipn_put_u32, get_put_u32.
  rewrite (Z.mod_small (zlen v)) by (unfold two32 in *; lia).
  sizes. do 2 decide_cmp.
  rewrite firstn_exact, skipn_exact. reflexivity.
Qed.

Lemma decode_loop_encode (l : smap) :
  forall (fuel : nat) (acc : smap),
    pairs_fit l ->
    (List.length (Message.encode_pairs l) < fuel)%nat ->
    Message.decode_loop fuel (Message.encode_pairs l) acc = (true, assign_all l acc).
Proof.
  induction l as [|[k v] l IH]; intros fuel acc Hfit Hfuel.
  - destruct fuel as [|f]; [simpl in Hfuel; lia | reflexivity].
  - destruct fuel as [|f]; [lia|].
    destruct (Hfit (k, v) (or_introl eq_refl)) as [Hk Hv]. simpl in Hk, Hv.
    cbn [Message.encode_pairs].
    rewrite <- (zlen_bytes_of_string k), <- (zlen_bytes_of_string v).
    rewrite decode_loop_tuple
      by (rewrite zlen_bytes_of_string; assumption).
    rewrite !string_of_list_byte_of_string.
    apply IH.
    + intros p Hp. apply Hfit. now right.
    + cbn [Message.encode_pairs] in Hfuel.
      rewrite !length_app, !length_put_u32 in Hfuel. lia.
Qed.

Lemma encode_pairs_fit (l : smap) :
  zlen (Message.encode_pairs l) < two32 -> pairs_fit l.
Proof.
  induction l as [|[k v] l IH]; intros H p Hp; [destruct Hp|].
  cbn [Message.encode_pairs] in H.
  rewrite zlen_put_u32, zlen_app, zlen_put_u32, zlen_app,
    !zlen_bytes_of_string in H.
  pose proof (zlen_nonneg (Message.encode_pairs l)).
  assert (0 <= slen k /\ 0 <= slen v) as [? ?] by (unfold slen; lia).
  destruct Hp as [<-|Hp]; [simpl; lia|].
  apply IH; [lia | assumption].
Qed.

(** [decodeData] undoes [encodeData] on an ordered map that fits. *)
Lemma decodeData_encode_pairs (l : smap) :
  Message.sortedb l = true ->
  zlen (Message.encode_pairs l) < two32 ->
  Message.decodeData (Message.encode_pairs l) = (true, l).
Proof.
  intros Hs Hlen. unfold Message.decodeData.
  rewrite decode_loop_encode; [| now apply encode_pairs_fit | lia].
  rewrite assign_all_sorted; [reflexivity | assumption | intros a b []].
Qed.

(** ** Round trip of a frame *)

Lemma read_header_bytes (h : Message.Header) (body : list byte) :
  Message.read_header (Message.header_bytes h ++ body)
  = Message.mkHeader
      (Message.magic h mod two32) (Message.version h mod 65536)
      (Message.type h mod 65536) (Message.length h mod two32)
      (Message.sequence_id h mod two32) (Message.session_id h mod two32)
      (Message.checksum h mod two32).
Proof.
  unfold Message.read_header, Message.header_bytes.
  rewrite <- !app_assoc.
  change (skipn 4 (put_u32 ?a ++ ?l)) with l.
  cbn [skipn app put_u32 put_u16].
  f_equal;
    first [ apply (get_put_u32 _ _) | apply (get_put_u16 _ _) ].
Qed.

Lemma skipn_header_bytes (h : Message.Header) (body : list byte) :
  skipn 24 (Message.header_bytes h ++ body) = body.
Proof. reflexivity. Qed.

Lemma zlen_header_bytes (h : Message.Header) :
  zlen (Message.header_bytes h) = 24.
Proof. reflexivity. Qed.

Lemma header_eta (h : Message.Header) :
  Message.mkHeader (Message.magic h) (Message.version h) (Message.type h)
    (Message.length h) (Message.sequence_id h) (Message.session_id h)
    (Message.checksum h) = h.
Proof. now destruct h. Qed.

Lemma read_header_wf (m : Message.t) (body : list byte) :
  Message.wf m ->
  Message.read_header (Message.header_bytes (Message.header_ m) ++ body)
  = Message.header_ m.
Proof.
  intros [Hm Hv Ht Hq Hs Hc _ Hl Hz].
  rewrite read_header_bytes.
  pose proof (zlen_nonneg (Message.encodeData m)).
  unfold Message.HEADER_SIZE in Hz.
  rewrite !Z.mod_small; try lia; [apply header_eta|].
  rewrite Hm. unfold Message.MAGIC, two32. lia.
Qed.

Lemma deserialize_serialize (m m0 : Message.t) :
  Message.wf m ->
  Message.deserialize m0 (Message.serialize m) = (true, m).
Proof.
  intros Hwf. pose proof Hwf as [Hm _ _ _ _ _ Hsrt Hl Hz].
  pose proof (zlen_nonneg (Message.encodeData m)).
  unfold Message.deserialize, Message.serialize.
  rewrite read_header_wf by assumption.
  rewrite zlen_app, zlen_header_bytes, Hm, Z.eqb_refl, Hl.
  unfold Message.HEADER_SIZE in *. simpl negb. cbv iota.
  do 2 decide_cmp.
  rewrite skipn_header_bytes.
  rewrite firstn_whole.
  unfold Message.encodeData in *.
  rewrite decodeData_encode_pairs by (assumption || lia).
  now destruct m.
Qed.

Lemma deserializeStream_serializeStream (m m0 : Message.t) :
  Message.wf m ->
  Message.deserializeStream m0 (Message.serializeStream m) = (true, m).
Proof.
  intros Hwf. pose proof Hwf as [_ _ _ _ _ _ _ _ Hz].
  pose proof (zlen_nonneg (Message.encodeData m)).
  assert (Hs : zlen (Message.serialize m) = 24 + zlen (Message.encodeData m))
    by (unfold Message.serialize; now rewrite zlen_app, zlen_header_bytes).
  unfold Message.deserializeStream, Message.serializeStream.
  unfold Message.HEADER_SIZE in Hz.
  rewrite skipn_put_u32, get_put_u32, Z.mod_mod by (unfold two32; lia).
  rewrite Z.mod_small by lia.
  sizes. do 2 decide_cmp.
  rewrite firstn_whole. now apply deserialize_serialize.
Qed.

(** ** Checksum *)

Lemma calculateCRC32_range (data : list byte) :
  0 <= Message.calculateCRC32 data < two32.
Proof. unfold Message.calculateCRC32. apply Z.mod_pos_bound. reflexivity. Qed.

Lemma verify_after_calculate (m : Message.t) :
  Message.verifyChecksum (Message.calculateChecksum m) = true.
Proof.
  unfold Message.verifyChecksum, Message.calculateChecksum. simpl.
  apply Z.eqb_refl.
Qed.

Lemma calculateChecksum_wf (m : Message.t) :
  Message.wf m -> Message.wf (Message.calculateChecksum m).
Proof.
  intros [Hm Hv Ht Hq Hs Hc Hsrt Hl Hz].
  constructor; simpl; try assumption.
  apply calculateCRC32_range.
Qed.

(** ** The constructors and the [add*] members establish [Message.wf] *)

Lemma create_wf (ty : Z) : 0 <= ty < 65536 -> Message.wf (Message.create ty).
Proof.
  intros H. constructor; simpl; try reflexivity; try assumption;
    unfold two32; lia.
Qed.

Lemma addString_wf (m : Message.t) (k v : string) :
  Message.wf m ->
  Message.HEADER_SIZE + zlen (Message.encode_pairs (map_set k v (Message.data_ m))) < two32 ->
  Message.wf (Message.addString m k v).
Proof.
  intros [Hm Hv Ht Hq Hs Hc Hsrt Hl Hz] Hfit.
  pose proof (zlen_nonneg (Message.encode_pairs (map_set k v (Message.data_ m)))).
  unfold Message.HEADER_SIZE in *.
  constructor; simpl; try assumption.
  - now apply map_set_sorted.
  - unfold Message.encodeData. simpl. apply Z.mod_small. lia.
Qed.

Lemma setSessionId_wf (m : Message.t) (s : Z) :
  Message.wf m -> 0 <= s < two32 -> Message.wf (Message.setSessionId m s).
Proof. intros [Hm Hv Ht Hq Hs Hc Hsrt Hl Hz] H. constructor; simpl; assumption. Qed.

Lemma setSequenceId_wf (m : Message.t) (s : Z) :
  Message.wf m -> 0 <= s < two32 -> Message.wf (Message.setSequenceId m s).
Proof. intros [Hm Hv Ht Hq Hs Hc Hsrt Hl Hz] H. constructor; simpl; assumption. Qed.

(** ** C3 *)

(** C3, as amended.  For every message [m] in the state the constructors and the [add*]
    members leave it in ([Message.wf]): [deserialize(serialize(m))] succeeds
    and rebuilds [m] (header and key/value map), so does
    [deserializeStream(serializeStream(m))], and when [calculateChecksum] was
    called last, [verifyChecksum] holds of the message, of its decoding and
    of its stream decoding. *)
Theorem roundtrip_and_checksum (m m0 : Message.t) :
  Message.wf m ->
  Message.deserialize m0 (Message.serialize m) = (true, m)
  /\ Message.deserializeStream m0 (Message.serializeStream m) = (true, m)
  /\ Message.verifyChecksum (Message.calculateChecksum m) = true
  /\ Message.verifyChecksum
       (snd (Message.deserialize m0
               (Message.serialize (Message.calculateChecksum m)))) = true
  /\ Message.verifyChecksum
       (snd (Message.deserializeStream m0
               (Message.serializeStream (Message.calculateChecksum m)))) = true.
Proof.
  intros Hwf. pose proof (calculateChecksum_wf m Hwf) as Hc.
  repeat split.
  - now apply deserialize_serialize.
  - now apply deserializeStream_serializeStream.
  - apply verify_after_calculate.
  - rewrite deserialize_serialize by assumption. apply verify_after_calculate.
  - rewrite deserializeStream_serializeStream by assumption.
    apply verify_after_calculate.
Qed.

Lemma roundtrip_and_checksum_witness :
  Message.deserialize Message.clear (Message.serialize sample_request)
    = (true, sample_request)
  /\ Message.deserializeStream Message.clear (Message.serializeStream sample_request)
    = (true, sample_request)
  /\ Message.verifyChecksum (Message.calculateChecksum sample_request) = true
  /\ Message.verifyChecksum
       (snd (Message.deserialize Message.clear
               (Message.serialize (Message.calculateChecksum sample_request)))) = true
  /\ Message.verifyChecksum
       (snd (Message.deserializeStream Message.clear
               (Message.serializeStream (Message.calculateChecksum sample_request)))) = true.
Proof.
  apply (roundtrip_and_checksum sample_request Message.clear).
  constructor; vm_compute; try reflexivity; split; congruence.
Defined.

(** The statement of C3 fails for a message that [deserialize] built from
    a frame with a repeated key.  The frame is accepted; the map keeps one
    pair for the key, the header keeps the length 20 of the frame; the
    message serializes to a header that announces 20 bytes followed by the
    10 bytes of the one pair, which neither [deserialize] nor
    [deserializeStream] accepts. *)
Lemma roundtrip_fails_after_repeated_key :
  fst (Message.deserialize Message.clear repeated_key_frame) = true
  /\ Message.data_ repeated_key_message = [("a", "2")]
  /\ Message.length (Message.header_ repeated_key_message) = 20
  /\ zlen (Message.encodeData repeated_key_message) = 10
  /\ fst (Message.deserialize Message.clear (Message.serialize repeated_key_message))
     = false
  /\ fst (Message.deserializeStream Message.clear
            (Message.serializeStream repeated_key_message)) = false.
Proof. vm_compute. repeat split; reflexivity. Qed.

(** ** What [decodeData] accepts *)

Lemma skipn_whole {A} (l : list A) : skipn (Z.to_nat (zlen l)) l = [].
Proof. unfold zlen. rewrite Nat2Z.id. apply skipn_all. Qed.

Lemma decode_loop_accepts (rest : list byte) :
  body_ok rest ->
  forall (fuel : nat) (acc : smap),
    (List.length rest < fuel)%nat ->
    fst (Message.decode_loop fuel rest acc) = true.
Proof.
  induction 1 as [|n Hn|k Hk|k n Hk Hn|k v rest Hk Hv Hr IH];
    intros fuel acc Hfuel; (destruct fuel as [|f]; [lia|]).
  - reflexivity.
  - cbn [Message.decode_loop]. rewrite <- (app_nil_r (put_u32 n)).
    rewrite skipn_put_u32, get_put_u32, Z.mod_small by lia.
    sizes. change (zlen (@nil byte)) with 0. do 2 decide_cmp. reflexivity.
  - pose proof (zlen_nonneg k).
    cbn [Message.decode_loop].
    rewrite skipn_put_u32, get_put_u32, Z.mod_small by lia.
    sizes. do 2 decide_cmp. rewrite skipn_whole.
    change (zlen (@nil byte)) with 0. decide_cmp. reflexivity.
  - pose proof (zlen_nonneg k).
    cbn [Message.decode_loop].
    rewrite skipn_put_u32, get_put_u32, Z.mod_small by lia.
    sizes. do 2 decide_cmp. rewrite skipn_exact.
    rewrite <- (app_nil_r (put_u32 n)).
    rewrite skipn_put_u32, get_put_u32, Z.mod_small by lia.
    sizes. change (zlen (@nil byte)) with 0. do 2 decide_cmp. reflexivity.
  - rewrite decode_loop_tuple by assumption. apply IH.
    rewrite !length_app, !length_put_u32 in Hfuel. lia.
Qed.

Lemma zlen_firstn {A} (n : Z) (l : list A) :
  0 <= n <= zlen l -> zlen (firstn (Z.to_nat n) l) = n.
Proof.
  unfold zlen. intros H. rewrite length_firstn. lia.
Qed.

Lemma split_at {A} (n : Z) (l : list A) :
  l = firstn (Z.to_nat n) l ++ skipn (Z.to_nat n) l.
Proof. symmetry. apply firstn_skipn. Qed.

Lemma four_bytes (l : list byte) :
  4 <= zlen l -> l = put_u32 (get_u32 l) ++ skipn 4 l.
Proof.
  unfold zlen. intros H.
  destruct l as [|b0 [|b1 [|b2 [|b3 r]]]]; simpl in H; try lia.
  rewrite put_get_u32. reflexivity.
Qed.

Lemma decode_loop_S (f : nat) (rest : list byte) (acc : smap) :
  Message.decode_loop (S f) rest acc =
  if 4 <=? zlen rest then
    if zlen (skipn 4 rest) <? get_u32 rest then (Message.is_nil (skipn 4 rest), acc)
    else
      let r2 := skipn (Z.to_nat (get_u32 rest)) (skipn 4 rest) in
      if zlen r2 <? 4 then (Message.is_nil r2, acc)
      else if zlen (skipn 4 r2) <? get_u32 r2 then (Message.is_nil (skipn 4 r2), acc)
      else
        Message.decode_loop f (skipn (Z.to_nat (get_u32 r2)) (skipn 4 r2))
          (map_set
             (string_of_list_byte (firstn (Z.to_nat (get_u32 rest)) (skipn 4 rest)))
             (string_of_list_byte (firstn (Z.to_nat (get_u32 r2)) (skipn 4 r2)))
             acc)
  else (Message.is_nil rest, acc).
Proof. reflexivity. Qed.

Lemma decode_loop_accepted (fuel : nat) :
  forall (rest : list byte) (acc : smap),
    fst (Message.decode_loop fuel rest acc) = true -> body_ok rest.
Proof.
  induction fuel as [|f IH]; intros rest acc; [discriminate|].
  rewrite decode_loop_S.
  pose proof (get_u32_range rest) as Hkl.
  remember (get_u32 rest) as key_len eqn:Ekl.
  remember (skipn 4 rest) as r1 eqn:Er1.
  destruct (Z.leb_spec 4 (zlen rest)) as [H4|H4].
  2:{ simpl. intros E. apply is_nil_true in E. subst. constructor. }
  assert (Hrest : rest = put_u32 key_len ++ r1)
    by (subst; now apply four_bytes).
  destruct (Z.ltb_spec (zlen r1) key_len) as [H1|H1].
  { simpl. intros E. apply is_nil_true in E. rewrite E in *.
    rewrite Hrest, app_nil_r. change (zlen (@nil byte)) with 0 in H1.
    constructor. lia. }
  pose proof (zlen_nonneg r1).
  cbv zeta.
  remember (firstn (Z.to_nat key_len) r1) as k eqn:Ek.
  remember (skipn (Z.to_nat key_len) r1) as r2 eqn:Er2.
  assert (Hk : zlen k = key_len) by (subst k; apply zlen_firstn; lia).
  assert (Hr1 : r1 = k ++ r2) by (subst k r2; apply split_at).
  destruct (Z.ltb_spec (zlen r2) 4) as [H2|H2].
  { simpl. intros E. apply is_nil_true in E.
    rewrite Hrest, Hr1, E, app_nil_r, <- Hk. constructor. lia. }
  pose proof (get_u32_range r2) as Hvl.
  remember (get_u32 r2) as val_len eqn:Evl.
  remember (skipn 4 r2) as r3 eqn:Er3.
  assert (Hr2 : r2 = put_u32 val_len ++ r3)
    by (subst val_len r3; now apply four_bytes).
  destruct (Z.ltb_spec (zlen r3) val_len) as [H3|H3].
  { simpl. intros E. apply is_nil_true in E. rewrite E in *.
    rewrite Hrest, Hr1, Hr2, app_nil_r, <- Hk.
    change (zlen (@nil byte)) with 0 in H3. constructor; lia. }
  pose proof (zlen_nonneg r3).
  remember (firstn (Z.to_nat val_len) r3) as v eqn:Ev.
  remember (skipn (Z.to_nat val_len) r3) as r4 eqn:Er4.
  assert (Hv : zlen v = val_len) by (subst v; apply zlen_firstn; lia).
  assert (Hr3 : r3 = v ++ r4) by (subst v r4; apply split_at).
  intros E. apply IH in E.
  rewrite Hrest, Hr1, Hr2, Hr3, <- Hk, <- Hv.
  constructor; (lia || assumption).
Qed.

(** The fuel [decodeData] gives its loop never runs out: any two amounts
    of fuel above the number of bytes left give the same result. *)
Lemma decode_loop_fuel (f1 : nat) :
  forall (f2 : nat) (rest : list byte) (acc : smap),
    (List.length rest < f1)%nat -> (List.length rest < f2)%nat ->
    Message.decode_loop f1 rest acc = Message.decode_loop f2 rest acc.
Proof.
  induction f1 as [|f1 IH]; intros [|f2] rest acc H1 H2; try lia.
  rewrite !decode_loop_S.
  destruct (Z.leb_spec 4 (zlen rest)) as [H4|]; [|reflexivity].
  destruct (zlen (skipn 4 rest) <? get_u32 rest); [reflexivity|].
  cbv zeta.
  destruct (zlen (skipn _ (skipn 4 rest)) <? 4); [reflexivity|].
  destruct (zlen (skipn 4 (skipn _ (skipn 4 rest))) <? _); [reflexivity|].
  assert (Hlen : (List.length
                    (skipn (Z.to_nat (get_u32 (skipn (Z.to_nat (get_u32 rest)) (skipn 4 rest))))
                       (skipn 4 (skipn (Z.to_nat (get_u32 rest)) (skipn 4 rest))))
                  < List.length rest)%nat).
  { unfold zlen in H4. rewrite !length_skipn. lia. }
  apply IH; lia.
Qed.

Lemma decodeData_accepts_iff (body : list byte) :
  fst (Message.decodeData body) = true <-> body_ok body.
Proof.
  unfold Message.decodeData. split.
  - apply decode_loop_accepted.
  - intros H. apply decode_loop_accepts; [assumption | lia].
Qed.

(** ** C4 *)

(** C4, as amended.  [deserialize(b)] succeeds if and only if [b] holds at
    least the 24 header bytes, the magic field is 0x54504D50, the advertised
    body length does not exceed the bytes after the header, and the bytes of
    the body are accepted by [decodeData] ([body_ok]).  The version field is
    not examined and bytes beyond header + body length are ignored. *)
Theorem deserialize_succeeds_iff (m : Message.t) (b : list byte) :
  fst (Message.deserialize m b) = true
  <-> Message.HEADER_SIZE <= zlen b
      /\ get_u32 b = Message.MAGIC
      /\ Message.HEADER_SIZE + get_u32 (skipn 8 b) <= zlen b
      /\ body_ok (firstn (Z.to_nat (get_u32 (skipn 8 b))) (skipn 24 b)).
Proof.
  unfold Message.deserialize, Message.read_header, Message.HEADER_SIZE.
  cbn [Message.magic Message.length].
  destruct (Z.ltb_spec (zlen b) 24) as [Hs|Hs].
  { cbn [fst]. split; [discriminate | intros [? _]; exfalso; lia]. }
  destruct (Z.eqb_spec (get_u32 b) Message.MAGIC) as [Hm|Hm]; simpl negb; cbv iota.
  2:{ cbn [fst]. split; [discriminate | intros (_ & ? & _); contradiction]. }
  destruct (Z.leb_spec (24 + get_u32 (skipn 8 b)) (zlen b)) as [Hl|Hl].
  2:{ cbn [fst]. split; [discriminate | intros (_ & _ & ? & _); exfalso; lia]. }
  rewrite <- decodeData_accepts_iff.
  destruct (Message.decodeData _) as [ok d]. cbn [fst]. tauto.
Qed.

(** The statement of C4 fails on the code in both directions: a frame whose
    version field is 2 is accepted, a frame followed by a trailing byte is
    accepted, and a frame that meets every stated condition but whose body
    is not a sequence of tuples is rejected. *)
Lemma deserialize_not_as_specified :
  (fst (Message.deserialize Message.clear (frame_header 2 0)) = true
   /\ spec_decode_ok (frame_header 2 0) = false)
  /\ (fst (Message.deserialize Message.clear (frame_header 1 0 ++ [x00])) = true
      /\ zlen (frame_header 1 0 ++ [x00]) > Message.HEADER_SIZE + 0)
  /\ (fst (Message.deserialize Message.clear (frame_header 1 1 ++ [x00])) = false
      /\ spec_decode_ok (frame_header 1 1 ++ [x00]) = true).
Proof. vm_compute. repeat split; reflexivity. Qed.

(** ** C10 *)

(** C10.  On a missing key [getInt], [getDouble] and [getBinary] return the
    zero value; on a present key they need not return: the well-formed frame
    that carries [vehicle_type = "abc"] decodes, and on the decoded message
    each of the three accessors throws. *)
Theorem typed_getters_partial :
  (forall (m : Message.t) (k : string),
      Message.hasKey m k = false ->
      Message.getInt m k = Returned 0
      /\ Message.getDouble m k = Returned Message.DoubleZero
      /\ Message.getBinary m k = Returned [])
  /\ (exists (src m : Message.t) (k : string),
         Message.wf src
         /\ Message.deserialize Message.clear (Message.serialize src) = (true, m)
         /\ Message.hasKey m k = true
         /\ Message.getInt m k = Thrown "std::invalid_argument"
         /\ Message.getDouble m k = Thrown "std::invalid_argument"
         /\ Message.getBinary m k = Thrown "std::invalid_argument").
Proof.
  split.
  - intros m k. unfold Message.hasKey, Message.getInt, Message.getDouble,
      Message.getBinary.
    destruct (map_find k (Message.data_ m)); [discriminate | auto].
  - exists (Message.addString (Message.create 7) "vehicle_type" "abc").
    exists (Message.addString (Message.create 7) "vehicle_type" "abc").
    exists "vehicle_type".
    split; [|repeat split; reflexivity].
    constructor; vm_compute; try reflexivity; split; congruence.
Qed.

Lemma typed_getters_partial_witness :
  Message.getInt Message.clear "passengers" = Returned 0
  /\ Message.getDouble Message.clear "passengers" = Returned Message.DoubleZero
  /\ Message.getBinary Message.clear "passengers" = Returned [].
Proof.
  apply (proj1 typed_getters_partial Message.clear "passengers"). reflexivity.
Defined.

(** ** Statements run by the database operations *)

Lemma ran_refl (d : Database.t) : ran_outside_transaction d d.
Proof. exists []. now rewrite app_nil_r. Qed.

Lemma ran_trans (a b c : Database.t) :
  ran_outside_transaction a b -> ran_outside_transaction b c ->
  ran_outside_transaction a c.
Proof.
  intros [l1 [E1 H1]] [l2 [E2 H2]]. exists (l1 ++ l2). split.
  - now rewrite E2, E1, app_assoc.
  - rewrite forallb_app. now rewrite H1, H2.
Qed.

Lemma run_executed (q : Database.Sql) (d : Database.t) :
  Database.executed (snd (Database.run q d)) = Database.executed d ++ [q]
  /\ Database.tables (snd (Database.run q d)) = Database.tables d
  /\ Database.snapshot (snd (Database.run q d)) = Database.snapshot d.
Proof. unfold Database.run. destruct (Database.busy d); simpl; auto. Qed.

Lemma ran_run (q : Database.Sql) (d : Database.t) :
  is_transaction_statement q = false ->
  ran_outside_transaction d (snd (Database.run q d)).
Proof.
  intros H. exists [q]. split; [apply run_executed|]. simpl. now rewrite H.
Qed.

Lemma ran_setLastError (d d' : Database.t) (e : string) (c : Z) :
  ran_outside_transaction d d' ->
  ran_outside_transaction d (Database.setLastError d' e c).
Proof. intros [l H]. now exists l. Qed.

Lemma ran_with_tables (d d' : Database.t) (tb : Database.Tables) :
  ran_outside_transaction d d' ->
  ran_outside_transaction d (Database.with_tables d' tb).
Proof. intros [l H]. now exists l. Qed.

Lemma ran_getVehicle (uri : string) (d : Database.t) :
  ran_outside_transaction d (snd (Database.getVehicle uri d)).
Proof.
  unfold Database.getVehicle.
  pose proof (ran_run (Database.SELECT_vehicle (c_str uri)) d eq_refl) as H.
  destruct (Database.run _ d) as [[|] d']; exact H.
Qed.

Lemma ran_getVehicleByRouteAndType (route : string) (ty : Z) (d : Database.t) :
  ran_outside_transaction d (snd (Database.getVehicleByRouteAndType route ty d)).
Proof.
  unfold Database.getVehicleByRouteAndType.
  pose proof (ran_run (Database.SELECT_vehicle_by_route_type (c_str route) ty) d eq_refl) as H.
  destruct (Database.run _ d) as [[|] d']; exact H.
Qed.

Lemma ran_updateSeatAvailability (uri : string) (n : Z) (d : Database.t) :
  ran_outside_transaction d (snd (Database.updateSeatAvailability uri n d)).
Proof.
  unfold Database.updateSeatAvailability.
  pose proof (ran_run (Database.UPDATE_available_seats (c_str uri) n) d eq_refl) as H.
  destruct (Database.run _ d) as [[|] d']; simpl in *.
  - now apply ran_setLastError.
  - now apply ran_with_tables.
Qed.

Lemma ran_scan_kinds (kinds : list Z) (route : string) (vt : Z) (d : Database.t) :
  ran_outside_transaction d (snd (CentralServer.scan_kinds kinds route vt d)).
Proof.
  revert d. induction kinds as [|k r IH]; intros d; simpl; [apply ran_refl|].
  destruct (k =? vt); [apply IH|].
  pose proof (ran_getVehicleByRouteAndType route k d) as H.
  destruct (Database.getVehicleByRouteAndType route k d) as [[v|] d']; simpl in *.
  - exact H.
  - eapply ran_trans; [exact H | apply IH].
Qed.

Lemma ran_route_fallback (route : string) (vt : Z) (d : Database.t) :
  ran_outside_transaction d
    (snd (match Database.getVehicleByRouteAndType route vt d with
          | (Some v, d) => (Some v, vt, route, d)
          | (None, d) =>
              let '(v, vt', d) :=
                CentralServer.scan_kinds [BUS; TRAM; TROLLEYBUS] route vt d in
              (v, vt', route, d)
          end)).
Proof.
  pose proof (ran_getVehicleByRouteAndType route vt d) as H2.
  destruct (Database.getVehicleByRouteAndType route vt d) as [[v|] d2];
    cbn [snd] in *; [exact H2|].
  pose proof (ran_scan_kinds [BUS; TRAM; TROLLEYBUS] route vt d2) as H3.
  destruct (CentralServer.scan_kinds _ route vt d2) as [[v' vt'] d3].
  cbn [snd] in *. eapply ran_trans; eassumption.
Qed.

Lemma ran_resolve_for_reservation (uri route : string) (vt : Z) (d : Database.t) :
  ran_outside_transaction d
    (snd (CentralServer.resolve_for_reservation uri route vt d)).
Proof.
  unfold CentralServer.resolve_for_reservation.
  destruct (negb (CentralServer.is_empty uri)).
  - pose proof (ran_getVehicle uri d) as H.
    destruct (Database.getVehicle uri d) as [[v|] d']; cbn [snd] in *; [exact H|].
    destruct (negb (CentralServer.is_empty route)); [|exact H].
    eapply ran_trans; [exact H | apply ran_route_fallback].
  - destruct (negb (CentralServer.is_empty route)); [|apply ran_refl].
    apply ran_route_fallback.
Qed.

(** Whatever the request and the state, [handleSeatReservation] never runs
    [BEGIN TRANSACTION], [COMMIT] or [ROLLBACK]. *)
Lemma handleSeatReservation_statements (message : Message.t) (s s' : CentralServer.t) :
  CentralServer.handleSeatReservation message s = Returned s' ->
  ran_outside_transaction (CentralServer.db s) (CentralServer.db s').
Proof.
  unfold CentralServer.handleSeatReservation.
  destruct (Message.getInt message "vehicle_type") as [vt|w]; [|discriminate].
  cbn [obind].
  destruct (CentralServer.is_empty _).
  { intros E. injection E as <-. apply ran_refl. }
  pose proof (ran_resolve_for_reservation
                (if Message.hasKey message "uri" then Message.getString message "uri" else "")
                (if Message.hasKey message "route" then Message.getString message "route" else "")
                (to_enum8 vt) (CentralServer.db s)) as H.
  destruct (CentralServer.resolve_for_reservation _ _ _ _) as [[[v vt'] route'] d].
  simpl in H.
  destruct v as [v|].
  2:{ intros E. injection E as <-. exact H. }
  destruct (v_available_seats v <=? 0).
  { intros E. injection E as <-. exact H. }
  cbn [CentralServer.db CentralServer.with_db].
  pose proof (ran_updateSeatAvailability (v_uri v) (v_available_seats v - 1) d) as H2.
  destruct (Database.updateSeatAvailability _ _ d) as [[|] d2]; simpl in H2;
    intros E; injection E as <-; simpl; eapply ran_trans; eassumption.
Qed.

(** ** C1 *)

(** C1, on the code.  A ReserveSeat request for [bus://42] (three seats
    free) makes [handleSeatReservation] run the read and the write and
    nothing else: no [BEGIN TRANSACTION] before them, no [COMMIT] after;
    when the write fails, no [ROLLBACK] follows.  [try_reserve_one] of the
    repository's concurrency test runs the same read and write between
    [BEGIN TRANSACTION] and [COMMIT]. *)
Theorem reserve_seat_runs_no_transaction :
  statements_of
    (CentralServer.handleSeatReservation
       (reserve_request BUS "" "bus://42" leader_urn)
       (server (connection city_tables []) leader_urn))
  = Some [Database.SELECT_vehicle "bus://42";
          Database.UPDATE_available_seats "bus://42" 2]
  /\ statements_of
       (CentralServer.handleSeatReservation
          (reserve_request BUS "" "bus://42" leader_urn)
          (server (connection city_tables [false; true]) leader_urn))
     = Some [Database.SELECT_vehicle "bus://42";
             Database.UPDATE_available_seats "bus://42" 2]
  /\ Database.executed (snd (try_reserve_one "bus://42" (connection city_tables [])))
     = [Database.BEGIN_TRANSACTION;
        Database.SELECT_vehicle "bus://42";
        Database.UPDATE_available_seats "bus://42" 2;
        Database.COMMIT].
Proof. vm_compute. repeat split; reflexivity. Qed.

(** ** C9 *)

Lemma error_code_of_error_response (text : string) (code : Z) :
  Message.getInt (MessageFactory.createErrorResponse text code) "error_code"
  = stoi (to_string code).
Proof. reflexivity. Qed.

(** C9, on the code.  [handleSeatReservation] answers a request without
    URN, a request for an unknown vehicle and a request for a vehicle
    without free seats with error code -1 (the default of
    [sendErrorResponse]), where [handleTicketPurchase] answers the same
    three situations with 400, 404 and 409. *)
Theorem reserve_seat_error_codes :
  (error_code_of
     (CentralServer.handleSeatReservation
        (reserve_request BUS "" "bus://42" "")
        (server (connection city_tables []) leader_urn)) = Some (Returned (-1))
   /\ error_code_of
        (CentralServer.handleSeatReservation
           (reserve_request BUS "R_7" "bus://7" leader_urn)
           (server (connection city_tables []) leader_urn)) = Some (Returned (-1))
   /\ error_code_of
        (CentralServer.handleSeatReservation
           (reserve_request BUS "" "bus://42" leader_urn)
           (server (connection full_bus_tables []) leader_urn)) = Some (Returned (-1)))
  /\ (error_code_of
        (CentralServer.handleTicketPurchase
           (purchase_request INDIVIDUAL BUS "" "bus://42" "" 1)
           (server (connection city_tables []) leader_urn)) = Some (Returned 400)
      /\ error_code_of
           (CentralServer.handleTicketPurchase
              (purchase_request INDIVIDUAL BUS "R_7" "bus://7" leader_urn 1)
              (server (connection city_tables []) leader_urn)) = Some (Returned 404)
      /\ error_code_of
           (CentralServer.handleTicketPurchase
              (purchase_request INDIVIDUAL BUS "" "bus://42" leader_urn 1)
              (server (connection full_bus_tables []) leader_urn)) = Some (Returned 409)).
Proof. vm_compute. repeat split; reflexivity. Qed.

(** ** C8 *)

(** C8, on the code.  With only a bus on route [R_42] and a tram asked
    for, [handleSeatReservation] falls back to the bus and reserves on it,
    while [handleTicketPurchase] looks for a tram only and answers 404. *)
Theorem purchase_has_no_kind_fallback :
  (let '(v, kind, _, _) :=
     CentralServer.resolve_for_reservation "" "R_42" TRAM (connection city_tables []) in
   (option_map v_uri v, kind)) = (Some "bus://42", BUS)
  /\ statements_of
       (CentralServer.handleSeatReservation
          (reserve_request TRAM "R_42" "" leader_urn)
          (server (connection city_tables []) leader_urn))
     = Some [Database.SELECT_vehicle_by_route_type "R_42" TRAM;
             Database.SELECT_vehicle_by_route_type "R_42" BUS;
             Database.UPDATE_available_seats "bus://42" 2]
  /\ (let '(v, kind, _, _) :=
        CentralServer.resolve_for_purchase "" "R_42" TRAM (connection city_tables []) in
      (option_map v_uri v, kind)) = (None, TRAM)
  /\ statements_of
       (CentralServer.handleTicketPurchase
          (purchase_request INDIVIDUAL TRAM "R_42" "" leader_urn 1)
          (server (connection city_tables []) leader_urn))
     = Some [Database.SELECT_vehicle_by_route_type "R_42" TRAM]
  /\ error_code_of
       (CentralServer.handleTicketPurchase
          (purchase_request INDIVIDUAL TRAM "R_42" "" leader_urn 1)
          (server (connection city_tables []) leader_urn)) = Some (Returned 404).
Proof. vm_compute. repeat split; reflexivity. Qed.

(** ** C5 *)

(** C5, on the code.  Three Individual tickets are charged 3.0 and two
    Family tickets 2.0: [handleTicketPurchase] multiplies the unit price by
    the passenger count and applies no discount, where base * N * (1 -
    discount) with the discount of [calculateDiscount] is 2.7 and 1.8. *)
Theorem purchase_applies_no_discount :
  charged
    (CentralServer.handleTicketPurchase
       (purchase_request INDIVIDUAL BUS "" "bus://42" leader_urn 3)
       (server (connection city_tables []) leader_urn)) = Some [3%Q]
  /\ answered_total
       (CentralServer.handleTicketPurchase
          (purchase_request INDIVIDUAL BUS "" "bus://42" leader_urn 3)
          (server (connection city_tables []) leader_urn)) = Some "3.000000"
  /\ (1 * 3 * (1 - Database.calculateDiscount leader_urn INDIVIDUAL 3) == 27 # 10)%Q
  /\ charged
       (CentralServer.handleTicketPurchase
          (purchase_request GROUP_FAMILY BUS "" "bus://42" leader_urn 2)
          (server (connection city_tables []) leader_urn)) = Some [2%Q]
  /\ (1 * 2 * (1 - Database.calculateDiscount leader_urn GROUP_FAMILY 2) == 18 # 10)%Q.
Proof. vm_compute. repeat split; reflexivity. Qed.

(** ** C2 *)

(** C2, on the code.  A purchase of two tickets whose payment row cannot
    be inserted (the statement meets [SQLITE_BUSY], or the transaction id is
    taken) is answered with error 500, and the two ticket rows created
    before stay in the database: no [ROLLBACK] is run. *)
Theorem purchase_failure_keeps_tickets :
  let busy_run :=
    CentralServer.handleTicketPurchase
      (purchase_request INDIVIDUAL BUS "" "bus://42" leader_urn 2)
      (server (connection city_tables [false; false; false; true]) leader_urn) in
  let taken_run :=
    CentralServer.handleTicketPurchase
      (purchase_request INDIVIDUAL BUS "" "bus://42" leader_urn 2)
      (server (connection taken_id_tables []) leader_urn) in
  (error_code_of busy_run = Some (Returned 500)
   /\ option_map (fun tb => map t_seat_number (Database.tickets tb)) (tables_of busy_run)
      = Some ["1"; "2"]
   /\ statements_of busy_run
      = Some [Database.SELECT_vehicle "bus://42";
              Database.INSERT_ticket "TKT_1_1700000000";
              Database.INSERT_ticket "TKT_2_1700000000";
              Database.INSERT_payment "TX_1_1700000000"])
  /\ (error_code_of taken_run = Some (Returned 500)
      /\ option_map (fun tb => map t_ticket_id (Database.tickets tb)) (tables_of taken_run)
         = Some ["TKT_1_1700000000"; "TKT_2_1700000000"]
      /\ map t_ticket_id (Database.tickets taken_id_tables) = []
      /\ statements_of taken_run
         = Some [Database.SELECT_vehicle "bus://42";
                 Database.INSERT_ticket "TKT_1_1700000000";
                 Database.INSERT_ticket "TKT_2_1700000000";
                 Database.INSERT_payment "TX_1_1700000000"]).
Proof. vm_compute. repeat split; reflexivity. Qed.

(** ** C7 *)

Lemma last_response_send (s : CentralServer.t) (r : Message.t) :
  last_response (CentralServer.sendResponse s r) = Some r.
Proof.
  unfold last_response, CentralServer.sendResponse. cbn [CentralServer.sent].
  rewrite map_app. cbn [map]. apply last_last.
Qed.

Lemma getGroupLeader_tables (name : string) (d : Database.t) :
  Database.tables (snd (Database.getGroupLeader name d)) = Database.tables d.
Proof.
  unfold Database.getGroupLeader.
  pose proof (run_executed (Database.SELECT_group_leader (c_str name)) d) as (_ & H & _).
  destruct (Database.run _ d) as [[|] d']; simpl in *; [assumption|].
  destruct (find _ _); assumption.
Qed.

Lemma is_empty_true (x : string) : CentralServer.is_empty x = true <-> x = "".
Proof. destruct x; simpl; split; congruence. Qed.

(** C7, as amended.  [handleRemoveMemberFromGroup] answers 400 when
    [session_id], [group_name] or [urn] is empty, else 401 when the session
    is unknown, else 404 when no active group of that name has a leader,
    else 403 when the leader differs from the session's URN; in these cases
    the tables are left as they are.  Otherwise the caller is the leader
    and [removeUserFromGroup] is run.  So the membership rows change only
    when the session's URN is the group's leader. *)
Theorem remove_member_authorization (message : Message.t) (s : CentralServer.t) :
  let sid := Message.getString message "session_id" in
  let urn := Message.getString message "urn" in
  let group := Message.getString message "group_name" in
  let s' := CentralServer.handleRemoveMemberFromGroup message s in
  let looked_up := Database.getGroupLeader group (CentralServer.db s) in
  match (CentralServer.is_empty sid || CentralServer.is_empty group
         || CentralServer.is_empty urn)%bool,
        CentralServer.find_session sid (CentralServer.client_sessions_ s) with
  | true, _ =>
      s' = CentralServer.sendErrorResponse s
             "Missing required fields (session_id, group_name, urn)" 400
  | false, None =>
      s' = CentralServer.sendErrorResponse s "Invalid or expired session" 401
  | false, Some c =>
      if CentralServer.is_empty (fst looked_up)
      then rejected s s' "Group not found or no leader set" 404
      else if String.eqb (fst looked_up) (CentralServer.user_urn c)
           then Database.tables (CentralServer.db s')
                = Database.tables
                    (snd (Database.removeUserFromGroup urn group (snd looked_up)))
           else rejected s s' "Admin (group leader) privileges required" 403
  end
  /\ (Database.tables (CentralServer.db s') <> Database.tables (CentralServer.db s) ->
      exists c, CentralServer.find_session sid (CentralServer.client_sessions_ s) = Some c
                /\ fst looked_up = CentralServer.user_urn c
                /\ fst looked_up <> "").
Proof.
  cbv zeta. unfold CentralServer.handleRemoveMemberFromGroup.
  set (sid := Message.getString message "session_id").
  set (urn := Message.getString message "urn").
  set (group := Message.getString message "group_name").
  destruct (CentralServer.is_empty sid || CentralServer.is_empty group
            || CentralServer.is_empty urn)%bool.
  { split; [reflexivity|]. intros H. now contradiction H. }
  unfold CentralServer.requireGroupLeader.
  destruct (CentralServer.find_session sid (CentralServer.client_sessions_ s)) as [c|].
  2:{ split; [reflexivity|]. intros H. now contradiction H. }
  cbn [CentralServer.db CentralServer.with_sessions].
  pose proof (getGroupLeader_tables group (CentralServer.db s)) as Ht.
  destruct (Database.getGroupLeader group (CentralServer.db s)) as [leader d].
  cbn [fst snd] in *.
  destruct (CentralServer.is_empty leader) eqn:El.
  { split.
    - split; [apply last_response_send | exact Ht].
    - intros H. now contradiction H. }
  destruct (String.eqb_spec leader (CentralServer.user_urn c)) as [Eq|Ne]; simpl negb; cbv iota.
  - cbn [CentralServer.db CentralServer.with_db].
    destruct (Database.removeUserFromGroup urn group d) as [[|] d2]; cbn [snd].
    + split; [reflexivity|]. intros _. exists c. repeat split; [assumption|].
      intros E. apply is_empty_true in E. congruence.
    + split; [reflexivity|]. intros _. exists c. repeat split; [assumption|].
      intros E. apply is_empty_true in E. congruence.
  - split.
    + split; [apply last_response_send | exact Ht].
    + intros H. now contradiction H.
Qed.

(** The statement of C7 fails on the code where the group is absent: a
    valid session asking to remove a member of a group that does not exist
    is answered 404, not 403. *)
Lemma absent_group_is_404 :
  let answer :=
    error_code_of
      (Returned
         (CentralServer.handleRemoveMemberFromGroup
            (remove_member_request "NO_SUCH_GROUP" member3_urn "session_1")
            (server (connection city_tables []) leader_urn))) in
  answer = Some (Returned 404) /\ answer <> Some (Returned 403).
Proof. vm_compute. split; [reflexivity | discriminate]. Qed.

Lemma remove_member_authorization_witness :
  exists c,
    CentralServer.find_session "session_1"
      (CentralServer.client_sessions_ (server team_db leader_urn)) = Some c
    /\ fst (Database.getGroupLeader "TEAM1" (CentralServer.db (server team_db leader_urn)))
       = CentralServer.user_urn c
    /\ fst (Database.getGroupLeader "TEAM1" (CentralServer.db (server team_db leader_urn)))
       <> "".
Proof.
  apply (proj2 (remove_member_authorization
                  (remove_member_request "TEAM1" leader_urn "session_1")
                  (server team_db leader_urn))).
  vm_compute. discriminate.
Defined.

(** ** C6 *)

Lemma run_tables (q : Database.Sql) (d : Database.t) :
  Database.tables (snd (Database.run q d)) = Database.tables d.
Proof. apply run_executed. Qed.

Lemma run_clock (q : Database.Sql) (d : Database.t) :
  Database.clock (snd (Database.run q d)) = Database.clock d.
Proof. unfold Database.run. destruct (Database.busy d); reflexivity. Qed.

Lemma find_app_new {A} (f : A -> bool) (l : list A) (x : A) :
  existsb f l = false -> f x = true -> find f (l ++ [x]) = Some x.
Proof.
  induction l as [|a l IH]; simpl; intros H Hx.
  - now rewrite Hx.
  - apply orb_false_iff in H as [Ha Hl]. rewrite Ha. now apply IH.
Qed.

(** What a successful [createGroup] has done to the tables. *)
Lemma createGroup_success (group : Group) (d d' : Database.t) :
  Database.createGroup group d = (true, d') ->
  let id := Database.group_seq (Database.tables d) + 1 in
  let leader := c_str (g_leader_urn group) in
  exists creation,
    Database.groups (Database.tables d')
    = Database.groups (Database.tables d)
      ++ [mkGroup id (c_str (g_group_name group)) leader creation (g_active group)]
    /\ Database.group_members (Database.tables d')
       = filter (fun r => negb (Database.member_row id leader r))
           (Database.group_members (Database.tables d))
         ++ [mkGroupMember id leader (c_str (Database.clock d)) true]
    /\ Database.group_seq (Database.tables d') = id.
Proof.
  unfold Database.createGroup. cbv zeta.
  pose proof (run_tables (Database.INSERT_group (c_str (g_group_name group))) d) as T1.
  pose proof (run_clock (Database.INSERT_group (c_str (g_group_name group))) d) as C1.
  destruct (Database.run (Database.INSERT_group (c_str (g_group_name group))) d) as [b1 d1].
  cbn [snd] in T1, C1.
  destruct b1; [discriminate|].
  rewrite T1.
  destruct (existsb (Database.group_named (c_str (g_group_name group)))
              (Database.groups (Database.tables d))) eqn:Ex; [discriminate|].
  destruct (Database.has_user (Database.tables d) (c_str (g_leader_urn group))) eqn:Hu;
    [|discriminate].
  cbn [orb negb Z.eqb Database.SQLITE_DONE Pos.eqb].
  set (id := Database.group_seq (Database.tables d) + 1).
  set (creation := c_str match g_creation_date group with
                         | EmptyString => Database.clock d1
                         | String a s0 => String a s0
                         end).
  set (row := mkGroup id (c_str (g_group_name group)) (c_str (g_leader_urn group)) creation
                (g_active group)).
  set (dA := Database.with_tables d1 _).
  pose proof (run_tables (Database.SELECT_group_id (c_str (g_group_name group))) dA) as T2.
  pose proof (run_clock (Database.SELECT_group_id (c_str (g_group_name group))) dA) as C2.
  destruct (Database.run (Database.SELECT_group_id (c_str (g_group_name group))) dA) as [b2 d2].
  cbn [snd] in T2, C2.
  destruct b2; [discriminate|].
  rewrite T2. subst dA. cbn [Database.tables Database.with_tables Database.groups
                              Database.set_groups].
  rewrite (find_app_new _ _ row Ex)
    by (unfold Database.group_named; apply String.eqb_refl).
  cbn [g_group_id row].
  destruct (id <? 0); [discriminate|].
  pose proof (run_tables (Database.REPLACE_group_member id (c_str (g_leader_urn group))) d2) as T3.
  pose proof (run_clock (Database.REPLACE_group_member id (c_str (g_leader_urn group))) d2) as C3.
  destruct (Database.run (Database.REPLACE_group_member id (c_str (g_leader_urn group))) d2)
    as [b3 d3].
  cbn [snd] in T3, C3.
  destruct b3; [discriminate|].
  destruct (negb (Database.has_group_id (Database.tables d3) id)
            || negb (Database.has_user (Database.tables d3) (c_str (g_leader_urn group))))%bool;
    [discriminate|].
  cbn [negb Z.eqb Database.SQLITE_DONE Pos.eqb].
  intros E. injection E as <-. exists creation.
  cbn [Database.tables Database.with_tables Database.groups Database.group_members
       Database.set_group_members Database.group_seq].
  rewrite T3, T2, C3, C2. cbn [Database.tables Database.with_tables Database.groups
    Database.group_members Database.set_groups Database.group_seq Database.clock].
  rewrite C1. auto.
Qed.

Lemma createGroup_inv (group : Group) (d d' : Database.t) :
  Database.createGroup group d = (true, d') ->
  group_inv (Database.tables d) -> group_inv (Database.tables d').
Proof.
  intros H [Hl Hn Hb Hs]. apply createGroup_success in H.
  destruct H as (creation & Eg & Em & Es).
  set (id := Database.group_seq (Database.tables d) + 1) in *.
  constructor.
  - intros g Hg. rewrite Eg in Hg. apply in_app_or in Hg as [Hg|[<-|[]]].
    + destruct (Hl g Hg) as (r & Hr & Hid & Hurn & Hact).
      exists r. repeat split; try assumption.
      rewrite Em. apply in_or_app. left. apply filter_In. split; [assumption|].
      unfold Database.member_row.
      replace (gm_group_id r =? id) with false; [reflexivity|].
      symmetry. apply Z.eqb_neq. specialize (Hb g Hg). lia.
    + exists (mkGroupMember id (c_str (g_leader_urn group)) (c_str (Database.clock d)) true).
      repeat split. rewrite Em. apply in_or_app. right. now left.
  - rewrite Eg, map_app. apply NoDup_app; [assumption | |].
    + simpl. constructor; [intros [] | constructor].
    + intros a Ha [<-|[]]. apply in_map_iff in Ha as (g & Hga & Hg).
      specialize (Hb g Hg). simpl in Hga. lia.
  - intros g Hg. rewrite Es. rewrite Eg in Hg.
    apply in_app_or in Hg as [Hg|[<-|[]]].
    + specialize (Hb g Hg). lia.
    + simpl. lia.
  - rewrite Es. lia.
Qed.

Lemma userExists_tables (urn : string) (d : Database.t) :
  Database.tables (snd (Database.userExists urn d)) = Database.tables d
  /\ Database.clock (snd (Database.userExists urn d)) = Database.clock d.
Proof.
  unfold Database.userExists.
  pose proof (run_tables (Database.SELECT_user (c_str urn)) d).
  pose proof (run_clock (Database.SELECT_user (c_str urn)) d).
  destruct (Database.run _ d) as [[|] d']; auto.
Qed.

(** [getGroupIdByName] leaves the tables alone and answers -1 or the id of
    a group of that name, as SQLite sees the name. *)
Lemma getGroupIdByName_spec (name : string) (d : Database.t) :
  Database.tables (snd (Database.getGroupIdByName name d)) = Database.tables d
  /\ Database.clock (snd (Database.getGroupIdByName name d)) = Database.clock d
  /\ (fst (Database.getGroupIdByName name d) = -1
      \/ exists g, In g (Database.groups (Database.tables d))
                   /\ g_group_name g = c_str name
                   /\ g_group_id g = fst (Database.getGroupIdByName name d)).
Proof.
  unfold Database.getGroupIdByName.
  pose proof (run_tables (Database.SELECT_group_id_active (c_str name)) d) as T.
  pose proof (run_clock (Database.SELECT_group_id_active (c_str name)) d) as C.
  destruct (Database.run _ d) as [[|] d']; cbn [snd] in *; [auto|].
  rewrite T.
  destruct (find _ (Database.groups (Database.tables d))) as [g|] eqn:F;
    cbn [fst snd]; [|auto].
  repeat split; try assumption. right. exists g.
  apply find_some in F as [Hin Hf]. apply andb_true_iff in Hf as [Hn _].
  unfold Database.group_named in Hn. apply String.eqb_eq in Hn. auto.
Qed.

(** Invariance under a change of the membership rows that keeps them. *)
Lemma group_inv_members_kept (tb : Database.Tables) (new : list GroupMember) :
  group_inv tb -> members_kept (Database.group_members tb) new ->
  group_inv (Database.set_group_members tb new).
Proof.
  intros [Hl Hn Hb Hs] Hk. constructor; try assumption.
  intros g Hg. destruct (Hl g Hg) as (r & Hr & Hid & Hurn & Hact).
  destruct (Hk r Hr) as (r' & Hr' & Hid' & Hurn' & Hact').
  exists r'. repeat split; [assumption | congruence | congruence | auto].
Qed.

Lemma members_kept_refl (l : list GroupMember) : members_kept l l.
Proof. intros r Hr. exists r. auto. Qed.

Lemma members_kept_app (l : list GroupMember) (x : GroupMember) :
  members_kept l (l ++ [x]).
Proof. intros r Hr. exists r. repeat split; auto. apply in_or_app. now left. Qed.

Lemma members_kept_reactivate (gid : Z) (urn stamp : string) (l : list GroupMember) :
  members_kept l
    (map (fun r => if Database.member_row gid urn r
                   then mkGroupMember (gm_group_id r) (gm_member_urn r) stamp true
                   else r) l).
Proof.
  intros r Hr.
  set (upd := fun r => if Database.member_row gid urn r
                       then mkGroupMember (gm_group_id r) (gm_member_urn r) stamp true
                       else r).
  exists (upd r). split; [apply (in_map upd); assumption|].
  unfold upd. destruct (Database.member_row gid urn r); simpl; auto.
Qed.

Lemma addUserToGroup_tables (urn name : string) (d : Database.t) :
  let tb := Database.tables d in
  let tb' := Database.tables (snd (Database.addUserToGroup urn name d)) in
  exists new, tb' = Database.set_group_members tb new
              /\ members_kept (Database.group_members tb) new.
Proof.
  cbv zeta. unfold Database.addUserToGroup.
  set (d0 := Database.setLastError d "" 0).
  assert (T0 : Database.tables d0 = Database.tables d) by reflexivity.
  assert (Same : forall x : Database.t, Database.tables x = Database.tables d ->
            exists new, Database.tables x
                        = Database.set_group_members (Database.tables d) new
                        /\ members_kept (Database.group_members (Database.tables d)) new).
  { intros x Hx. exists (Database.group_members (Database.tables d)).
    split; [|apply members_kept_refl]. rewrite Hx. now destruct (Database.tables d). }
  destruct (userExists_tables urn d0) as [T1 _].
  destruct (Database.userExists urn d0) as [ex d1]. cbn [snd] in T1.
  destruct ex; cbn [negb]; [|apply Same; cbn; congruence].
  destruct (getGroupIdByName_spec name d1) as (T2 & _ & _).
  destruct (Database.getGroupIdByName name d1) as [gid d2]. cbn [snd] in T2.
  destruct (gid <=? 0); [apply Same; cbn; congruence|].
  pose proof (run_tables (Database.SELECT_group_member gid (c_str urn)) d2) as T3.
  destruct (Database.run (Database.SELECT_group_member gid (c_str urn)) d2) as [b3 d3].
  cbn [snd] in T3.
  assert (E3 : Database.tables d3 = Database.tables d) by congruence.
  destruct (if b3 then None else find _ _) as [r|].
  - destruct (gm_active r); [apply Same; cbn; congruence|].
    pose proof (run_tables (Database.UPDATE_group_member gid (c_str urn)) d3) as T4.
    destruct (Database.run (Database.UPDATE_group_member gid (c_str urn)) d3) as [b4 d4].
    cbn [snd] in T4.
    destruct b4; [apply Same; cbn; congruence|].
    match goal with
    | |- context [Database.set_group_members (Database.tables d4) ?n] =>
        exists n
    end.
    split.
    + destruct (negb _); cbn; rewrite T4, E3; reflexivity.
    + rewrite T4, E3. apply members_kept_reactivate.
  - pose proof (run_tables (Database.INSERT_group_member gid (c_str urn)) d3) as T4.
    destruct (Database.run (Database.INSERT_group_member gid (c_str urn)) d3) as [b4 d4].
    cbn [snd] in T4.
    destruct (negb _); [apply Same; cbn; congruence|].
    match goal with
    | |- context [Database.set_group_members (Database.tables d4) ?n] =>
        exists n
    end.
    split; [cbn; rewrite T4, E3; reflexivity|].
    rewrite T4, E3. apply members_kept_app.
Qed.


Lemma removeUserFromGroup_tables (urn name : string) (d : Database.t) :
  let tb := Database.tables d in
  let tb' := Database.tables (snd (Database.removeUserFromGroup urn name d)) in
  tb' = tb
  \/ exists g, In g (Database.groups tb) /\ g_group_name g = c_str name
               /\ tb' = Database.set_group_members tb
                          (filter (fun r => negb (Database.member_row (g_group_id g)
                                                    (c_str urn) r))
                             (Database.group_members tb)).
Proof.
  cbv zeta. unfold Database.removeUserFromGroup.
  set (d0 := Database.setLastError d "" 0).
  destruct (getGroupIdByName_spec name d0) as (T1 & _ & Hg).
  destruct (Database.getGroupIdByName name d0) as [gid d1]. cbn [fst snd] in *.
  change (Database.tables d0) with (Database.tables d) in *.
  destruct (Z.leb_spec gid 0) as [Hle|Hgt]; [left; cbn; congruence|].
  destruct Hg as [Hg|(g & Hin & Hname & Hid)]; [lia|].
  pose proof (run_tables (Database.DELETE_group_member gid (c_str urn)) d1) as T2.
  destruct (Database.run (Database.DELETE_group_member gid (c_str urn)) d1) as [b2 d2].
  cbn [snd] in T2.
  destruct b2; [left; cbn; congruence|].
  right. exists g. repeat split; try assumption.
  rewrite T2, T1, Hid. destruct (_ =? 0); reflexivity.
Qed.

Lemma distinct_ids_same_group (l : list Group) (g g0 : Group) :
  NoDup (map g_group_id l) -> In g l -> In g0 l ->
  g_group_id g = g_group_id g0 -> g = g0.
Proof.
  induction l as [|a l IH]; simpl; intros Hn Hg Hin0 Eq; [contradiction|].
  inversion Hn as [|? ? Hnot Hn']; subst.
  destruct Hg as [<-|Hg], Hin0 as [<-|Hin0]; auto.
  - exfalso. apply Hnot. rewrite Eq. now apply in_map.
  - exfalso. apply Hnot. rewrite <- Eq. now apply in_map.
Qed.

(** C6, as amended.  The group tables start out with every leader an
    active member of their group, and an operation that leaves the group
    tables alone keeps it so; a [createGroup] that succeeds keeps it so
    and makes the new leader a member; [addUserToGroup] keeps it so,
    whatever its result; [removeUserFromGroup] keeps it so when the URN
    removed is not the leader of a group of that name, both taken as SQLite
    takes them: up to their first NUL. *)
Theorem leader_membership_preserved :
  group_inv empty_tables
  /\ (forall tb tb' : Database.Tables,
         Database.groups tb' = Database.groups tb ->
         Database.group_members tb' = Database.group_members tb ->
         Database.group_seq tb' = Database.group_seq tb ->
         group_inv tb -> group_inv tb')
  /\ (forall (group : Group) (d d' : Database.t),
         Database.createGroup group d = (true, d') ->
         group_inv (Database.tables d) -> group_inv (Database.tables d'))
  /\ (forall (urn name : string) (d : Database.t),
         group_inv (Database.tables d) ->
         group_inv (Database.tables (snd (Database.addUserToGroup urn name d))))
  /\ (forall (urn name : string) (d : Database.t),
         group_inv (Database.tables d) ->
         (forall g, In g (Database.groups (Database.tables d)) ->
                    g_group_name g = c_str name -> g_leader_urn g <> c_str urn) ->
         group_inv (Database.tables (snd (Database.removeUserFromGroup urn name d)))).
Proof.
  split; [|split; [|split; [|split]]].
  - constructor; simpl; [intros g [] | constructor | intros g [] | lia].
  - intros tb tb' Eg Em Es [Hl Hn Hb Hs].
    constructor; rewrite ?Eg, ?Es; try assumption.
    intros g Hg. rewrite Eg in Hg. destruct (Hl g Hg) as (r & Hr & H).
    exists r. now rewrite Em.
  - intros group d d' H Hinv. eapply createGroup_inv; eassumption.
  - intros urn name d Hinv.
    destruct (addUserToGroup_tables urn name d) as (new & E & Hk).
    rewrite E. now apply group_inv_members_kept.
  - intros urn name d Hinv Hlead.
    destruct (removeUserFromGroup_tables urn name d)
      as [E|(g0 & Hin0 & Hname0 & E)]; rewrite E; [assumption|].
    pose proof Hinv as [Hl Hn Hb Hs].
    constructor; try assumption.
    intros g Hg. destruct (Hl g Hg) as (r & Hr & Hid & Hurn & Hact).
    exists r. repeat split; try assumption.
    cbn. apply filter_In. split; [assumption|].
    unfold Database.member_row.
    destruct (Z.eqb_spec (gm_group_id r) (g_group_id g0)) as [Eid|]; [|reflexivity].
    assert (g = g0)
      by (apply (distinct_ids_same_group _ _ _ Hn Hg Hin0); congruence).
    subst g0. simpl.
    destruct (String.eqb_spec (gm_member_urn r) (c_str urn)) as [Eu|]; [|reflexivity].
    exfalso. apply (Hlead g Hg Hname0). congruence.
Qed.

(** The statement of C6 fails on the code: after [createGroup] of [TEAM1]
    the leader is a member; [removeUserFromGroup] of the leader's own URN
    succeeds and leaves the group without its leader as a member, and the
    DeleteGroupMember handler lets the leader do so (the caller is the
    leader).  It fails as well when [createGroup] gives up after its first
    statement (here the second one meets a lock): the group row stays, with
    no membership row for its leader. *)
Lemma leader_can_be_removed :
  leaders_are_members (Database.tables team_db)
  /\ fst (Database.removeUserFromGroup leader_urn "TEAM1" team_db) = true
  /\ ~ leaders_are_members
         (Database.tables (snd (Database.removeUserFromGroup leader_urn "TEAM1" team_db)))
  /\ option_map Message.getType
       (last_response
          (CentralServer.handleRemoveMemberFromGroup
             (remove_member_request "TEAM1" leader_urn "session_1")
             (server team_db leader_urn)))
     = Some MessageFactory.RESPONSE_SUCCESS
  /\ ~ leaders_are_members
         (Database.tables
            (CentralServer.db
               (CentralServer.handleRemoveMemberFromGroup
                  (remove_member_request "TEAM1" leader_urn "session_1")
                  (server team_db leader_urn))))
  /\ fst (Database.createGroup team1 (connection city_tables [false; true])) = false
  /\ ~ leaders_are_members
         (Database.tables
            (snd (Database.createGroup team1 (connection city_tables [false; true])))).
Proof.
  split; [|split; [|split; [|split; [|split; [|split]]]]].
  - intros g Hg. vm_compute in Hg. destruct Hg as [<-|[]].
    eexists. split; [left; reflexivity|]. vm_compute. auto.
  - vm_compute. reflexivity.
  - intros H.
    destruct (H (mkGroup 1 "TEAM1" leader_urn "2025-01-01 11:00:00" true))
      as (r & Hr & _); [vm_compute; auto|].
    vm_compute in Hr. exact Hr.
  - vm_compute. reflexivity.
  - intros H.
    destruct (H (mkGroup 1 "TEAM1" leader_urn "2025-01-01 11:00:00" true))
      as (r & Hr & _); [vm_compute; auto|].
    vm_compute in Hr. exact Hr.
  - vm_compute. reflexivity.
  - intros H.
    destruct (H (mkGroup 1 "TEAM1" leader_urn "2025-01-01 11:00:00" true))
      as (r & Hr & _); [vm_compute; auto|].
    vm_compute in Hr. exact Hr.
Qed.

Lemma leader_membership_preserved_witness :
  group_inv
    (Database.tables
       (snd (Database.removeUserFromGroup member2_urn "TEAM1"
               (snd (Database.addUserToGroup member2_urn "TEAM1" team_db))))).
Proof.
  destruct leader_membership_preserved as (_ & _ & Hcreate & Hadd & Hremove).
  apply Hremove.
  - apply Hadd.
    apply (Hcreate team1 (connection city_tables []) team_db).
    + vm_compute. reflexivity.
    + constructor; simpl; [intros g [] | constructor | intros g [] | lia].
  - intros g Hg. vm_compute in Hg. destruct Hg as [<-|[]].
    intros _. vm_compute. discriminate.
Defined.

(** ** The fallback of [handleSeatReservation] in general *)

Lemma run_idle (q : Database.Sql) (d : Database.t) :
  Database.busy d = [] ->
  fst (Database.run q d) = false
  /\ Database.busy (snd (Database.run q d)) = []
  /\ Database.tables (snd (Database.run q d)) = Database.tables d.
Proof. unfold Database.run. intros ->. auto. Qed.

Lemma getVehicleByRouteAndType_idle (route : string) (kind : Z) (d : Database.t) :
  Database.busy d = [] ->
  fst (Database.getVehicleByRouteAndType route kind d)
  = on_route (Database.tables d) route kind
  /\ Database.busy (snd (Database.getVehicleByRouteAndType route kind d)) = []
  /\ Database.tables (snd (Database.getVehicleByRouteAndType route kind d))
     = Database.tables d.
Proof.
  intros Hb. unfold Database.getVehicleByRouteAndType, on_route.
  destruct (run_idle (Database.SELECT_vehicle_by_route_type (c_str route) kind) d Hb)
    as (H1 & H2 & H3).
  destruct (Database.run _ d) as [b d']. cbn [fst snd] in *. subst b.
  cbn [fst snd]. now rewrite H3.
Qed.

Lemma scan_kinds_order (kinds : list Z) (route : string) (vt : Z) :
  forall d : Database.t,
    Database.busy d = [] ->
    fst (CentralServer.scan_kinds kinds route vt d)
    = match find (fun k => negb (k =? vt)
                           && is_some (on_route (Database.tables d) route k))%bool
                 kinds with
      | Some k => (on_route (Database.tables d) route k, k)
      | None => (None, vt)
      end.
Proof.
  induction kinds as [|k r IH]; intros d Hb; simpl; [reflexivity|].
  destruct (k =? vt); simpl; [now apply IH|].
  destruct (getVehicleByRouteAndType_idle route k d Hb) as (H1 & H2 & H3).
  destruct (Database.getVehicleByRouteAndType route k d) as [v d'].
  cbn [fst snd] in *. subst v.
  destruct (on_route (Database.tables d) route k) as [v|] eqn:E; simpl;
    [now rewrite E|].
  rewrite <- H3. now apply IH.
Qed.

(** When only a route is given, the connection meets no lock and no
    vehicle of the requested kind serves the route, [handleSeatReservation]
    settles on the first of Bus, Tram, Trolleybus, other than the requested
    kind, that has a vehicle on the route, and adopts that kind. *)
Lemma reservation_fallback_order (route : string) (vt : Z) (d : Database.t) :
  Database.busy d = [] ->
  CentralServer.is_empty route = false ->
  on_route (Database.tables d) route vt = None ->
  (let '(v, kind, _, _) := CentralServer.resolve_for_reservation "" route vt d in
   (v, kind))
  = match find (fun k => negb (k =? vt)
                         && is_some (on_route (Database.tables d) route k))%bool
               [BUS; TRAM; TROLLEYBUS] with
    | Some k => (on_route (Database.tables d) route k, k)
    | None => (None, vt)
    end.
Proof.
  intros Hb Hr Hn. unfold CentralServer.resolve_for_reservation.
  cbn [CentralServer.is_empty negb]. rewrite Hr. cbn [negb].
  destruct (getVehicleByRouteAndType_idle route vt d Hb) as (H1 & H2 & H3).
  destruct (Database.getVehicleByRouteAndType route vt d) as [v d'].
  cbn [fst snd] in *. rewrite Hn in H1. subst v.
  pose proof (scan_kinds_order [BUS; TRAM; TROLLEYBUS] route vt d' H2) as Hs.
  destruct (CentralServer.scan_kinds _ route vt d') as [[v k] d2].
  cbn [fst] in Hs. rewrite Hs, H3. reflexivity.
Qed.

(** ** The ticket loop of [handleTicketPurchase] in general *)

Lemma createTicket_tables (tk : Ticket) (d : Database.t) :
  Database.tables (snd (Database.createTicket tk d))
  = if fst (Database.createTicket tk d)
    then Database.set_tickets (Database.tables d)
           (Database.tickets (Database.tables d) ++ [c_ticket tk])
    else Database.tables d.
Proof.
  unfold Database.createTicket.
  pose proof (run_tables (Database.INSERT_ticket (c_str (t_ticket_id tk))) d) as T.
  destruct (Database.run _ d) as [b d']. cbn [snd] in T.
  destruct (negb _); cbn [fst snd Database.tables Database.with_tables
                          Database.setLastError]; now rewrite T.
Qed.

(** When the loop completes, it has handed one ticket per passenger to
    [createTicket], with the seat numbers [first_seat + i + 1] in turn,
    each has been appended as a row, and the ids of these tickets have been
    collected. *)
Lemma create_tickets_rows (n : nat) :
  forall (i : Z) (o : CentralServer.TicketOrder) (ids ids' : list string)
         (s s' : CentralServer.t),
    CentralServer.create_tickets n i o ids s = (inr ids', s') ->
    let tb := Database.tables (CentralServer.db s) in
    let tb' := Database.tables (CentralServer.db s') in
    exists rows,
      tb' = Database.set_tickets tb (Database.tickets tb ++ map c_ticket rows)
      /\ map t_seat_number rows
         = map (fun j => to_string (CentralServer.o_first_seat o + j + 1)) (indices i n)
      /\ ids' = ids ++ map t_ticket_id rows
      /\ Forall (fun tk => t_user_urn tk = CentralServer.o_urn o
                           /\ t_price tk = CentralServer.o_price_each o
                           /\ t_discount tk = CentralServer.o_discount o) rows.
Proof.
  induction n as [|n IH]; intros i o ids ids' s s' H; cbv zeta.
  - simpl in H. injection H as <- <-. exists []. rewrite !app_nil_r.
    repeat split; try constructor.
    now destruct (Database.tables (CentralServer.db s)).
  - cbn [CentralServer.create_tickets] in H.
    destruct (CentralServer.generateTicketId s) as [id s1] eqn:G.
    assert (Hdb : CentralServer.db s1 = CentralServer.db s)
      by (unfold CentralServer.generateTicketId in G; injection G as _ <-; reflexivity).
    set (tk := mkTicket id _ _ _ _ _ _ _ _ _) in H.
    pose proof (createTicket_tables tk (CentralServer.db s1)) as T.
    destruct (Database.createTicket tk (CentralServer.db s1)) as [[|] d1];
      [|discriminate].
    cbn [fst snd] in T.
    apply IH in H. cbv zeta in H.
    destruct H as (rows & E & Hseat & Hid & Hall).
    cbn [CentralServer.db CentralServer.with_db] in E.
    exists (tk :: rows). rewrite E, T, Hdb.
    repeat split.
    + cbn. now rewrite <- app_assoc.
    + cbn [map indices]. now rewrite Hseat.
    + rewrite Hid, <- app_assoc. reflexivity.
    + constructor; [|assumption]. subst tk. simpl. auto.
Qed.

(** ** A successful purchase in general *)

Lemma type_of_error_response (text : string) (code : Z) :
  Message.getType (MessageFactory.createErrorResponse text code)
  = MessageFactory.RESPONSE_ERROR.
Proof. reflexivity. Qed.

Lemma recordPayment_tables (p : Payment) (d : Database.t) :
  Database.tables (snd (Database.recordPayment p d))
  = if fst (Database.recordPayment p d)
    then Database.set_payments (Database.tables d)
           (Database.payments (Database.tables d) ++ [c_payment p])
    else Database.tables d.
Proof.
  unfold Database.recordPayment.
  pose proof (run_tables (Database.INSERT_payment (c_str (p_transaction_id p))) d) as T.
  destruct (Database.run _ d) as [b d']. cbn [snd] in T.
  destruct (negb _); cbn [fst snd Database.tables Database.with_tables
                          Database.setLastError]; now rewrite T.
Qed.

Lemma updateSeatAvailability_tables (uri : string) (n : Z) (d : Database.t) :
  Database.tables (snd (Database.updateSeatAvailability uri n d))
  = if fst (Database.updateSeatAvailability uri n d)
    then Database.set_vehicles (Database.tables d)
           (map (Database.with_seats (c_str uri) n) (Database.vehicles (Database.tables d)))
    else Database.tables d.
Proof.
  unfold Database.updateSeatAvailability.
  pose proof (run_tables (Database.UPDATE_available_seats (c_str uri) n) d) as T.
  destruct (Database.run _ d) as [b d']. cbn [snd] in T.
  destruct b; cbn [fst snd Database.tables Database.with_tables
                   Database.setLastError]; now rewrite T.
Qed.

Lemma getVehicle_tables (uri : string) (d : Database.t) :
  Database.tables (snd (Database.getVehicle uri d)) = Database.tables d.
Proof.
  unfold Database.getVehicle.
  pose proof (run_tables (Database.SELECT_vehicle (c_str uri)) d) as T.
  destruct (Database.run _ d) as [[|] d']; exact T.
Qed.

Lemma getVehicleByRouteAndType_tables (route : string) (k : Z) (d : Database.t) :
  Database.tables (snd (Database.getVehicleByRouteAndType route k d))
  = Database.tables d.
Proof.
  unfold Database.getVehicleByRouteAndType.
  pose proof (run_tables (Database.SELECT_vehicle_by_route_type (c_str route) k) d) as T.
  destruct (Database.run _ d) as [[|] d']; exact T.
Qed.

Lemma resolve_for_purchase_tables (uri route : string) (k : Z) (d : Database.t) :
  Database.tables (snd (CentralServer.resolve_for_purchase uri route k d))
  = Database.tables d.
Proof.
  unfold CentralServer.resolve_for_purchase.
  assert (R : forall d0 k0 route0,
             Database.tables d0 = Database.tables d ->
             Database.tables
               (snd (if negb (CentralServer.is_empty route0)
                     then let '(v, d1) :=
                            Database.getVehicleByRouteAndType route0 k0 d0 in
                          (v, k0, route0, d1)
                     else (None, k0, route0, d0))) = Database.tables d).
  { intros d0 k0 route0 H0. destruct (negb _); [|exact H0].
    pose proof (getVehicleByRouteAndType_tables route0 k0 d0) as T.
    destruct (Database.getVehicleByRouteAndType route0 k0 d0) as [v d1].
    cbn [snd] in *. congruence. }
  destruct (negb (CentralServer.is_empty uri)).
  - pose proof (getVehicle_tables uri d) as T.
    destruct (Database.getVehicle uri d) as [[v|] d1]; cbn [snd] in T.
    + exact T.
    + now apply R.
  - now apply R.
Qed.

Lemma type_of_success_response (text : string) (data : smap) :
  Message.getType (MessageFactory.createSuccessResponse text data)
  = MessageFactory.RESPONSE_SUCCESS.
Proof.
  unfold MessageFactory.createSuccessResponse, MessageFactory.add_pairs.
  assert (H : forall l m, Message.getType
                            (fold_left (fun m p => Message.addString m (fst p) (snd p)) l m)
                          = Message.getType m).
  { induction l as [|p l IH]; intros m; simpl; [reflexivity|]. now rewrite IH. }
  cbn [Message.getType Message.calculateChecksum Message.header_ Message.set_checksum
       Message.type].
  change (Message.type (Message.header_ ?m)) with (Message.getType m).
  rewrite H. now destruct text.
Qed.

Lemma last_response_error (s : CentralServer.t) (text : string) (code : Z) :
  last_response (CentralServer.sendErrorResponse s text code)
  = Some (MessageFactory.createErrorResponse text code).
Proof. apply last_response_send. Qed.

(** When [handleTicketPurchase] has an identity and answers with success,
    it has found a vehicle with at least N >= 1 free seats, stored N
    tickets with the seat numbers capacity - available_seats + i + 1
    for i = 0 .. N-1, stored one payment that names the first of these
    tickets and charges N times the unit price 1.0, and set the vehicle's
    available seats to available_seats - N.  (A ticket or payment is stored
    with its texts as C strings.) *)
Lemma purchase_success_effects (message : Message.t) (urn : string)
                               (s s' : CentralServer.t) :
  CentralServer.purchase_for message urn s = Returned s' ->
  option_map Message.getType (last_response s') = Some MessageFactory.RESPONSE_SUCCESS ->
  let tb := Database.tables (CentralServer.db s) in
  exists (vehicle : Vehicle) (passengers : Z) (rows : list Ticket) (p : Payment),
    1 <= passengers <= v_available_seats vehicle
    /\ List.length rows = Z.to_nat passengers
    /\ map t_seat_number rows
       = map (fun i => to_string (v_capacity vehicle - v_available_seats vehicle + i + 1))
           (indices 0 (Z.to_nat passengers))
    /\ p_ticket_id p = hd "" (map t_ticket_id rows)
    /\ p_amount p = (1 * inject_Z passengers)%Q
    /\ Database.tables (CentralServer.db s')
       = Database.set_vehicles
           (Database.set_payments
              (Database.set_tickets tb (Database.tickets tb ++ map c_ticket rows))
              (Database.payments tb ++ [c_payment p]))
           (map (Database.with_seats (c_str (v_uri vehicle))
                   (v_available_seats vehicle - passengers))
              (Database.vehicles tb)).
Proof.
  unfold CentralServer.purchase_for.
  destruct (Message.getInt message "ticket_type") as [tt|]; [|discriminate].
  destruct (Message.getInt message "vehicle_type") as [vt|]; [|discriminate].
  cbn [obind].
  destruct (if Message.hasKey message "passengers"
            then Message.getInt message "passengers" else Returned 1) as [p0|];
    [|discriminate].
  cbn [obind].
  set (passengers := if p0 <? 1 then 1 else p0).
  assert (Hp : 1 <= passengers)
    by (subst passengers; destruct (Z.ltb_spec p0 1); lia).
  pose proof (resolve_for_purchase_tables
                (if Message.hasKey message "uri" then Message.getString message "uri" else "")
                (if Message.hasKey message "route" then Message.getString message "route" else "")
                (to_enum8 vt) (CentralServer.db s)) as T0.
  destruct (CentralServer.resolve_for_purchase _ _ _ _) as [[[v kind] route] d0].
  cbn [snd] in T0.
  destruct v as [vehicle|].
  2:{ intros E. injection E as <-. rewrite last_response_error. discriminate. }
  destruct (Z.ltb_spec (v_available_seats vehicle) passengers) as [Hlt|Hge].
  { intros E. injection E as <-. rewrite last_response_error. discriminate. }
  set (order := CentralServer.mkOrder _ _ _ _ _ _ _ _).
  destruct (CentralServer.create_tickets (Z.to_nat passengers) 0 order []
              (CentralServer.with_db s d0)) as [[err|ids] s1] eqn:Ct.
  { intros E. injection E as <-. rewrite last_response_error. discriminate. }
  apply create_tickets_rows in Ct. cbv zeta in Ct.
  destruct Ct as (rows & E1 & Hseat & Hids & Hall).
  cbn [CentralServer.db CentralServer.with_db] in E1.
  destruct (CentralServer.generateTransactionId s1) as [tx s2] eqn:G.
  assert (Hdb2 : CentralServer.db s2 = CentralServer.db s1)
    by (unfold CentralServer.generateTransactionId in G; injection G as _ <-;
        reflexivity).
  set (pay := mkPayment tx _ _ _ _ _).
  pose proof (recordPayment_tables pay (CentralServer.db s2)) as T2.
  destruct (Database.recordPayment pay (CentralServer.db s2)) as [[|] d2];
    cbn [fst snd] in T2.
  2:{ intros E. injection E as <-. rewrite last_response_error. discriminate. }
  cbn [CentralServer.db CentralServer.with_db].
  pose proof (updateSeatAvailability_tables (v_uri vehicle)
                (v_available_seats vehicle - passengers) d2) as T3.
  destruct (Database.updateSeatAvailability _ _ d2) as [[|] d3]; cbn [fst snd] in T3.
  2:{ intros E. injection E as <-. rewrite last_response_error. discriminate. }
  intros E _. injection E as <-.
  exists vehicle, passengers, rows, pay.
  split; [lia|]. split.
  { apply (f_equal (@List.length string)) in Hseat.
    rewrite !length_map in Hseat. rewrite Hseat.
    clear. generalize 0. induction (Z.to_nat passengers); intros; simpl; auto. }
  split; [exact Hseat|]. split; [subst pay; simpl; now rewrite Hids|].
  split; [reflexivity|].
  cbn [CentralServer.db CentralServer.sendMulticastUpdate CentralServer.sendResponse
       CentralServer.with_db].
  rewrite T3, T2, Hdb2, E1, T0. reflexivity.
Qed.

(** ** The answers of [handleSeatReservation] in general *)

Lemma last_response_update (s : CentralServer.t) (t0 : string) (data : smap) :
  last_response (CentralServer.sendMulticastUpdate s t0 data) = last_response s.
Proof. reflexivity. Qed.

(** Whatever the request and the state, the answer of
    [handleSeatReservation] is a success or an error of code -1: none of
    its error paths passes a code. *)
Lemma reserve_seat_answers (message : Message.t) (s s' : CentralServer.t) :
  CentralServer.handleSeatReservation message s = Returned s' ->
  exists r, last_response s' = Some r
            /\ (Message.getType r = MessageFactory.RESPONSE_SUCCESS
                \/ exists text, r = MessageFactory.createErrorResponse text (-1)).
Proof.
  unfold CentralServer.handleSeatReservation.
  destruct (Message.getInt message "vehicle_type") as [vt|w]; [|discriminate].
  cbn [obind].
  destruct (CentralServer.is_empty _).
  { intros E. injection E as <-. eexists. split; [apply last_response_error|].
    right. eexists. reflexivity. }
  destruct (CentralServer.resolve_for_reservation _ _ _ _) as [[[v vt'] route'] d].
  destruct v as [v|].
  2:{ intros E. injection E as <-. eexists. split; [apply last_response_error|].
      right. eexists. reflexivity. }
  destruct (v_available_seats v <=? 0).
  { intros E. injection E as <-. eexists. split; [apply last_response_error|].
    right. eexists. reflexivity. }
  destruct (Database.updateSeatAvailability _ _ _) as [[|] d2];
    intros E; injection E as <-.
  - eexists. split.
    + rewrite last_response_update. apply last_response_send.
    + left. apply type_of_success_response.
  - eexists. split; [apply last_response_error|]. right. eexists. reflexivity.
Qed.

(** ** [handleTicketPurchase] in general: no fallback, no transaction *)

(** When only a route is given, the connection meets no lock and no
    vehicle of the requested kind serves the route, [handleTicketPurchase]
    finds no vehicle, whatever other kinds serve the route. *)
Lemma purchase_never_falls_back (route : string) (vt : Z) (d : Database.t) :
  Database.busy d = [] ->
  on_route (Database.tables d) route vt = None ->
  fst (CentralServer.resolve_for_purchase "" route vt d) = (None, vt, route).
Proof.
  intros Hb Hn. unfold CentralServer.resolve_for_purchase.
  cbn [CentralServer.is_empty negb].
  destruct (negb (CentralServer.is_empty route)); [|reflexivity].
  destruct (getVehicleByRouteAndType_idle route vt d Hb) as (H1 & _).
  destruct (Database.getVehicleByRouteAndType route vt d) as [v d'].
  cbn [fst] in *. congruence.
Qed.

Lemma ran_createTicket (tk : Ticket) (d : Database.t) :
  ran_outside_transaction d (snd (Database.createTicket tk d)).
Proof.
  unfold Database.createTicket.
  pose proof (ran_run (Database.INSERT_ticket (c_str (t_ticket_id tk))) d eq_refl) as H.
  destruct (Database.run _ d) as [b d']. cbn [snd] in H.
  destruct (negb _); cbn [snd].
  - now apply ran_setLastError.
  - now apply ran_with_tables.
Qed.

Lemma ran_recordPayment (p : Payment) (d : Database.t) :
  ran_outside_transaction d (snd (Database.recordPayment p d)).
Proof.
  unfold Database.recordPayment.
  pose proof (ran_run (Database.INSERT_payment (c_str (p_transaction_id p))) d eq_refl) as H.
  destruct (Database.run _ d) as [b d']. cbn [snd] in H.
  destruct (negb _); cbn [snd].
  - now apply ran_setLastError.
  - now apply ran_with_tables.
Qed.

Lemma ran_create_tickets (n : nat) :
  forall (i : Z) (o : CentralServer.TicketOrder) (ids : list string)
         (s : CentralServer.t),
    ran_outside_transaction (CentralServer.db s)
      (CentralServer.db (snd (CentralServer.create_tickets n i o ids s))).
Proof.
  induction n as [|n IH]; intros i o ids s; [apply ran_refl|].
  cbn [CentralServer.create_tickets].
  destruct (CentralServer.generateTicketId s) as [id s1] eqn:G.
  assert (Hdb : CentralServer.db s1 = CentralServer.db s)
    by (unfold CentralServer.generateTicketId in G; injection G as _ <-; reflexivity).
  set (tk := mkTicket id _ _ _ _ _ _ _ _ _).
  pose proof (ran_createTicket tk (CentralServer.db s1)) as H.
  destruct (Database.createTicket tk (CentralServer.db s1)) as [[|] d1];
    cbn [snd] in H; rewrite Hdb in H.
  - eapply ran_trans; [exact H|].
    apply (IH (i + 1) o (ids ++ [id]) (CentralServer.with_db s1 d1)).
  - exact H.
Qed.

Lemma ran_resolve_for_purchase (uri route : string) (vt : Z) (d : Database.t) :
  ran_outside_transaction d (snd (CentralServer.resolve_for_purchase uri route vt d)).
Proof.
  unfold CentralServer.resolve_for_purchase.
  assert (R : forall d0 k0 route0,
             ran_outside_transaction d d0 ->
             ran_outside_transaction d
               (snd (if negb (CentralServer.is_empty route0)
                     then let '(v, d1) :=
                            Database.getVehicleByRouteAndType route0 k0 d0 in
                          (v, k0, route0, d1)
                     else (None, k0, route0, d0)))).
  { intros d0 k0 route0 H0. destruct (negb _); [|exact H0].
    pose proof (ran_getVehicleByRouteAndType route0 k0 d0) as T.
    destruct (Database.getVehicleByRouteAndType route0 k0 d0) as [v d1].
    cbn [snd] in *. eapply ran_trans; eassumption. }
  destruct (negb (CentralServer.is_empty uri)).
  - pose proof (ran_getVehicle uri d) as T.
    destruct (Database.getVehicle uri d) as [[v|] d1]; cbn [snd] in T.
    + exact T.
    + now apply R.
  - apply R, ran_refl.
Qed.

(** Whatever the request and the state, [handleTicketPurchase] never runs
    [BEGIN TRANSACTION], [COMMIT] or [ROLLBACK]. *)
Lemma handleTicketPurchase_statements (message : Message.t) (s s' : CentralServer.t) :
  CentralServer.handleTicketPurchase message s = Returned s' ->
  ran_outside_transaction (CentralServer.db s) (CentralServer.db s').
Proof.
  assert (P : forall urn s0,
             CentralServer.db s0 = CentralServer.db s ->
             CentralServer.purchase_for message urn s0 = Returned s' ->
             ran_outside_transaction (CentralServer.db s) (CentralServer.db s')).
  { intros urn s0 E0. rewrite <- E0. clear E0.
    unfold CentralServer.purchase_for.
    destruct (Message.getInt message "ticket_type") as [tt|]; [|discriminate].
    destruct (Message.getInt message "vehicle_type") as [vt|]; [|discriminate].
    cbn [obind].
    destruct (if Message.hasKey message "passengers"
              then Message.getInt message "passengers" else Returned 1) as [p0|];
      [|discriminate].
    cbn [obind].
    pose proof (ran_resolve_for_purchase
                  (if Message.hasKey message "uri" then Message.getString message "uri" else "")
                  (if Message.hasKey message "route" then Message.getString message "route" else "")
                  (to_enum8 vt) (CentralServer.db s0)) as H0.
    destruct (CentralServer.resolve_for_purchase _ _ _ _) as [[[v kind] route] d0].
    cbn [snd] in H0.
    destruct v as [vehicle|].
    2:{ intros E. injection E as <-. exact H0. }
    destruct (v_available_seats vehicle <? _).
    { intros E. injection E as <-. exact H0. }
    match goal with
    | |- context [CentralServer.create_tickets ?n ?i ?o ?ids ?st] =>
        pose proof (ran_create_tickets n i o ids st) as H1;
        destruct (CentralServer.create_tickets n i o ids st) as [[err|ids'] s1]
    end; cbn [snd CentralServer.db CentralServer.with_db] in H1.
    { intros E. injection E as <-. cbn. eapply ran_trans; eassumption. }
    destruct (CentralServer.generateTransactionId s1) as [tx s2] eqn:G.
    assert (Hdb2 : CentralServer.db s2 = CentralServer.db s1)
      by (unfold CentralServer.generateTransactionId in G; injection G as _ <-;
          reflexivity).
    match goal with
    | |- context [Database.recordPayment ?p ?dd] =>
        pose proof (ran_recordPayment p dd) as H2;
        destruct (Database.recordPayment p dd) as [[|] d2]
    end; cbn [snd] in H2; rewrite Hdb2 in H2.
    2:{ intros E. injection E as <-. cbn.
        eapply ran_trans; [exact H0|]. eapply ran_trans; eassumption. }
    cbn [CentralServer.db CentralServer.with_db].
    match goal with
    | |- context [Database.updateSeatAvailability ?u ?n ?dd] =>
        pose proof (ran_updateSeatAvailability u n dd) as H3;
        destruct (Database.updateSeatAvailability u n dd) as [[|] d3]
    end; cbn [snd] in H3; intros E; injection E as <-; cbn;
      (eapply ran_trans; [exact H0|]); (eapply ran_trans; [exact H1|]);
      eapply ran_trans; eassumption. }
  unfold CentralServer.handleTicketPurchase.
  destruct (Message.hasKey message "session_id").
  - destruct (CentralServer.find_session _ _) as [c|].
    + destruct (CentralServer.is_empty _).
      * intros E. injection E as <-. apply ran_refl.
      * apply P. reflexivity.
    + intros E. injection E as <-. apply ran_refl.
  - destruct (CentralServer.is_empty _).
    + intros E. injection E as <-. apply ran_refl.
    + apply P. reflexivity.
Qed.

(** ** Decimal text of an [int] read back by [std::stoi] *)

Lemma digits_from_digit (c : ascii) (r : string) (v d : Z) :
  digit_of c = Some d ->
  digits_from (String c r) (Some v) = digits_from r (Some (10 * v + d)).
Proof. intros H. cbn [digits_from]. now rewrite H. Qed.

Lemma digits_from_uint_acc (d : Decimal.uint) :
  forall (acc : positive) (rest : string),
    digits_from (NilEmpty.string_of_uint d ++ rest) (Some (Zpos acc))
    = digits_from rest (Some (Zpos (Pos.of_uint_acc d acc))).
Proof.
  induction d; intros acc rest; cbn [NilEmpty.string_of_uint append Pos.of_uint_acc];
    try reflexivity;
    (erewrite digits_from_digit by (vm_compute; reflexivity));
    rewrite <- IHd; do 2 f_equal; lia.
Qed.

Lemma digits_from_uint (d : Decimal.uint) (rest : string) :
  digits_from (NilEmpty.string_of_uint d ++ rest) (Some 0)
  = digits_from rest (Some (Z.of_N (Pos.of_uint d))).
Proof.
  induction d; cbn [NilEmpty.string_of_uint append Pos.of_uint];
    try reflexivity;
    (erewrite digits_from_digit by (vm_compute; reflexivity));
    [ exact IHd | .. ];
    apply (digits_from_uint_acc d).
Qed.

Lemma append_empty_r (s : string) : (s ++ "")%string = s.
Proof. induction s; simpl; congruence. Qed.

(** The digits of a number give the number back. *)
Lemma digits_from_text (d : Decimal.uint) (rest : string) :
  d <> Decimal.Nil ->
  digits_from (NilEmpty.string_of_uint d ++ rest) None
  = digits_from rest (Some (Z.of_N (Pos.of_uint d))).
Proof.
  intros Hd. destruct d; try congruence;
    cbn [NilEmpty.string_of_uint append Pos.of_uint];
    [ apply (digits_from_uint d) | .. ]; apply (digits_from_uint_acc d).
Qed.

(** The text of a number starts with a digit: nothing is skipped as white
    space or read as a sign. *)
Lemma text_starts_with_digit (d : Decimal.uint) :
  d <> Decimal.Nil ->
  exists c r, NilEmpty.string_of_uint d = String c r
              /\ is_space c = false /\ c <> "-"%char /\ c <> "+"%char.
Proof.
  intros Hd. destruct d; try congruence; cbn [NilEmpty.string_of_uint];
    eexists; eexists; (split; [reflexivity | split; [reflexivity | split; discriminate]]).
Qed.

Lemma stoi_unsigned_text (d : Decimal.uint) :
  d <> Decimal.Nil ->
  let v := Z.of_N (Pos.of_uint d) in
  stoi (NilEmpty.string_of_uint d)
  = if (INT_MIN <=? v) && (v <=? INT_MAX) then Returned v
    else Thrown "std::out_of_range".
Proof.
  intros Hd v. pose proof (digits_from_text d "" Hd) as Hv.
  rewrite append_empty_r in Hv. cbn [digits_from] in Hv.
  destruct (text_starts_with_digit d Hd) as (c & r & E & Hs & Hm & Hp).
  unfold stoi. rewrite E in *. cbn [skip_space]. rewrite Hs.
  destruct c as [[] [] [] [] [] [] [] []]; try congruence; now rewrite Hv.
Qed.

Lemma to_string_pos (p : positive) :
  to_string (Zpos p) = NilEmpty.string_of_uint (Pos.to_uint p).
Proof.
  unfold to_string. cbn [Z.to_int NilZero.string_of_int].
  pose proof (DecimalPos.Unsigned.to_uint_nonnil p).
  unfold NilZero.string_of_uint. now destruct (Pos.to_uint p).
Qed.

Lemma to_string_neg (p : positive) :
  to_string (Zneg p) = String "-" (to_string (Zpos p)).
Proof.
  rewrite to_string_pos. unfold to_string. cbn [Z.to_int NilZero.string_of_int].
  pose proof (DecimalPos.Unsigned.to_uint_nonnil p).
  unfold NilZero.string_of_uint. now destruct (Pos.to_uint p).
Qed.

(** [std::stoi(std::to_string(z))] is [z] for every [int]. *)
Lemma stoi_to_string (z : Z) :
  INT_MIN <= z <= INT_MAX -> stoi (to_string z) = Returned z.
Proof.
  intros Hz. destruct z as [|p|p].
  - reflexivity.
  - rewrite to_string_pos, stoi_unsigned_text by apply DecimalPos.Unsigned.to_uint_nonnil.
    rewrite DecimalPos.Unsigned.of_to. cbn [Z.of_N].
    replace (INT_MIN <=? Zpos p) with true by (symmetry; apply Z.leb_le; lia).
    replace (Zpos p <=? INT_MAX) with true by (symmetry; apply Z.leb_le; lia).
    reflexivity.
  - rewrite to_string_neg, to_string_pos.
    pose proof (digits_from_text (Pos.to_uint p) ""
                  (DecimalPos.Unsigned.to_uint_nonnil p)) as Hv.
    rewrite append_empty_r, DecimalPos.Unsigned.of_to in Hv. cbn [digits_from Z.of_N] in Hv.
    unfold stoi. cbn [skip_space]. change (is_space "-") with false. cbn iota.
    rewrite Hv.
    replace (INT_MIN <=? - Zpos p) with true by (symmetry; apply Z.leb_le; lia).
    replace (- Zpos p <=? INT_MAX) with true by (symmetry; apply Z.leb_le; lia).
    reflexivity.
Qed.

(** ** Lookup after [data_[key] = value] *)

Lemma string_compare_refl (a : string) : String.compare a a = Eq.
Proof. induction a; simpl; [reflexivity|]. now rewrite ascii_compare_refl. Qed.

Lemma compare_not_eq (a b : string) : String.compare a b <> Eq -> String.eqb b a = false.
Proof.
  intros H. apply String.eqb_neq. intros ->. apply H. apply string_compare_refl.
Qed.

Lemma map_find_set_same (k v : string) (m : smap) :
  map_find k (map_set k v m) = Some v.
Proof.
  induction m as [|[k' v'] t IH]; cbn [map_set map_find].
  - now rewrite String.eqb_refl.
  - destruct (String.compare k k') eqn:E; cbn [map_find].
    + now rewrite String.eqb_refl.
    + now rewrite String.eqb_refl.
    + rewrite String.eqb_sym, compare_not_eq by congruence. exact IH.
Qed.

Lemma map_find_set_other (k k' v : string) (m : smap) :
  k' <> k -> map_find k' (map_set k v m) = map_find k' m.
Proof.
  intros Hk. assert (Hb : String.eqb k' k = false) by now apply String.eqb_neq.
  induction m as [|[k0 v0] t IH]; cbn [map_set map_find].
  - now rewrite Hb.
  - destruct (String.compare k k0) eqn:E; cbn [map_find].
    + apply String.compare_eq_iff in E. subst k0. now rewrite Hb.
    + now rewrite Hb.
    + now rewrite IH.
Qed.

(** X1.  After [addString(k, v)], [getString] and [hasKey] answer for [k]
    with the new value, whether or not [k] was there before, and for every
    other key as they did before. *)
Theorem lookup_after_addString (m : Message.t) (k k' v : string) :
  Message.getString (Message.addString m k v) k'
  = (if String.eqb k' k then v else Message.getString m k')
  /\ Message.hasKey (Message.addString m k v) k'
     = (String.eqb k' k || Message.hasKey m k')%bool.
Proof.
  unfold Message.getString, Message.hasKey, Message.addString. cbn [Message.data_].
  destruct (String.eqb k' k) eqn:E.
  - apply String.eqb_eq in E. subst k'. now rewrite map_find_set_same.
  - apply String.eqb_neq in E. now rewrite map_find_set_other.
Qed.

(** X2.  An [int32_t] stored with [addInt] is read back by [getInt]
    without an exception, and a [bool] stored with [addBool] is read back
    by [getBool]. *)
Theorem getInt_addInt (m : Message.t) (k : string) (v : Z) (b : bool) :
  INT_MIN <= v <= INT_MAX ->
  Message.getInt (Message.addInt m k v) k = Returned v
  /\ Message.getBool (Message.addBool m k b) k = b.
Proof.
  intros Hv. unfold Message.getInt, Message.addInt, Message.getBool, Message.addBool,
    Message.addString.
  cbn [Message.data_]. rewrite !map_find_set_same. split.
  - now apply stoi_to_string.
  - now destruct b.
Qed.

Lemma getInt_addInt_witness :
  Message.getInt (Message.addInt Message.clear "num" (-42)) "num" = Returned (-42)
  /\ Message.getBool (Message.addBool Message.clear "num" true) "num" = true.
Proof.
  apply (getInt_addInt Message.clear "num" (-42) true).
  unfold INT_MIN, INT_MAX. lia.
Defined.

(** ** Octets through [addBinary] and [getBinary] *)

Lemma append_assoc_char (s : string) (a : ascii) (t : string) :
  ((s ++ String a "") ++ t)%string = (s ++ String a t)%string.
Proof. induction s; simpl; congruence. Qed.

Lemma getline_no_comma (t : string) :
  (forall c, In c (list_ascii_of_string t) -> Ascii.eqb c ","%char = false) ->
  forall r cur, Message.getline_tokens (t ++ r) cur
                = Message.getline_tokens r (cur ++ t).
Proof.
  induction t as [|a t IH]; intros H r cur.
  - now rewrite append_empty_r.
  - cbn [append Message.getline_tokens]. rewrite (H a) by now left.
    rewrite IH by (intros c Hc; apply H; now right).
    now rewrite append_assoc_char.
Qed.

Lemma uint_text_no_comma (d : Decimal.uint) :
  forall c, In c (list_ascii_of_string (NilEmpty.string_of_uint d)) ->
            Ascii.eqb c ","%char = false.
Proof.
  induction d; cbn [NilEmpty.string_of_uint list_ascii_of_string];
    intros c Hc; try contradiction;
    (destruct Hc as [<- | Hc]; [reflexivity | now apply IHd]).
Qed.

(** The decimal text of an octet: no comma in it, not empty, and
    [std::stoi] reads the octet back. *)
Lemma octet_text (b : byte) :
  let t := to_string (byte_to_Z b) in
  (forall c, In c (list_ascii_of_string t) -> Ascii.eqb c ","%char = false)
  /\ t <> ""
  /\ stoi t = Returned (byte_to_Z b).
Proof.
  intros t. pose proof (byte_to_Z_range b) as Hb.
  assert (Hs : stoi t = Returned (byte_to_Z b))
    by (apply stoi_to_string; unfold INT_MIN, INT_MAX; lia).
  split; [| split; [| exact Hs]].
  - subst t. destruct (byte_to_Z b) as [|p|p]; try lia.
    + intros c [<- | []]. reflexivity.
    + rewrite to_string_pos. apply uint_text_no_comma.
  - intros E. rewrite E in Hs. discriminate.
Qed.

Lemma pop_back_app (t s : string) :
  s <> "" -> Message.pop_back (t ++ s) = (t ++ Message.pop_back s)%string.
Proof.
  intros Hs. induction t as [|a t IH]; [reflexivity|].
  cbn [append Message.pop_back]. rewrite IH.
  destruct (t ++ s)%string eqn:E; [|reflexivity].
  destruct t; simpl in E; congruence.
Qed.

Lemma tokens_of_octets (l : list byte) :
  Message.getline_tokens (Message.pop_back (Message.join_octets l)) ""
  = map (fun b => to_string (byte_to_Z b)) l.
Proof.
  induction l as [|b r IH]; [reflexivity|].
  destruct (octet_text b) as (Hc & Hne & _).
  cbn [Message.join_octets map].
  rewrite pop_back_app by discriminate.
  rewrite getline_no_comma by exact Hc. cbn [append].
  destruct r as [|b' r].
  - cbn. destruct (to_string (byte_to_Z b)); congruence.
  - cbn [Message.join_octets] in *.
    destruct (octet_text b') as (_ & Hne' & _).
    assert (Hj : (to_string (byte_to_Z b') ++ "," ++ Message.join_octets r)%string <> "").
    { destruct (to_string (byte_to_Z b')); simpl; congruence. }
    change ("," ++ to_string (byte_to_Z b') ++ "," ++ Message.join_octets r)%string
      with (String "," (to_string (byte_to_Z b') ++ "," ++ Message.join_octets r)).
    cbn [Message.pop_back].
    destruct (to_string (byte_to_Z b') ++ "," ++ Message.join_octets r)%string eqn:E;
      [congruence|].
    cbn [Message.getline_tokens]. cbn [Ascii.eqb Bool.eqb]. cbn iota.
    f_equal. exact IH.
Qed.

Lemma octets_of_texts (l : list byte) :
  Message.octets_of_tokens (map (fun b => to_string (byte_to_Z b)) l) = Returned l.
Proof.
  induction l as [|b r IH]; [reflexivity|].
  destruct (octet_text b) as (_ & Hne & Hs).
  cbn [map Message.octets_of_tokens].
  destruct (to_string (byte_to_Z b)) eqn:E; [congruence|].
  rewrite Hs, IH. cbn [obind]. now rewrite byte_of_to_Z.
Qed.

(** X3.  Whatever octets [addBinary] stores under a key, the empty
    sequence included, [getBinary] of that key returns them, without an
    exception. *)
Theorem getBinary_addBinary (m : Message.t) (k : string) (l : list byte) :
  Message.getBinary (Message.addBinary m k l) k = Returned l.
Proof.
  unfold Message.getBinary, Message.addBinary, Message.addString. cbn [Message.data_].
  rewrite map_find_set_same, tokens_of_octets. apply octets_of_texts.
Qed.

(** ** Stream framing *)

Lemma zlen_serialize (m : Message.t) :
  zlen (Message.serialize m) = Message.HEADER_SIZE + zlen (Message.encodeData m).
Proof. unfold Message.serialize. rewrite zlen_app. reflexivity. Qed.

Lemma get_u32_firstn (n : nat) (l : list byte) :
  (4 <= n)%nat -> get_u32 (firstn n l) = get_u32 l.
Proof.
  intros H. do 4 (destruct n as [|n]; [lia|]).
  destruct l as [|a [|b [|c [|d l]]]]; reflexivity.
Qed.

Lemma zlen_firstn_min {A} (n : nat) (l : list A) :
  zlen (firstn n l) = Z.min (Z.of_nat n) (zlen l).
Proof. unfold zlen. rewrite length_firstn. lia. Qed.

(** The length prefix of a stream frame is the size of the frame. *)
Lemma stream_prefix (m : Message.t) (rest : list byte) :
  Message.wf m ->
  zlen (Message.serializeStream m) = 4 + zlen (Message.serialize m)
  /\ get_u32 (Message.serializeStream m ++ rest) = zlen (Message.serialize m)
  /\ 0 <= zlen (Message.serialize m) < two32.
Proof.
  intros Hwf. pose proof (zlen_nonneg (Message.serialize m)) as Hs0.
  assert (Hsz : zlen (Message.serialize m) < two32).
  { rewrite zlen_serialize. apply (Message.wf_size m Hwf). }
  split; [|split; [|lia]].
  - unfold Message.serializeStream. cbv zeta. now rewrite zlen_put_u32.
  - unfold Message.serializeStream. cbv zeta. rewrite <- app_assoc, get_put_u32.
    rewrite (Z.mod_small (zlen (Message.serialize m))) by lia.
    apply Z.mod_small. lia.
Qed.

(** X4.  A stream frame cut short, by one byte or by more, is not
    accepted by [deserializeStream], and the message is left as it was. *)
Theorem truncated_frame_is_rejected (m m0 : Message.t) (n : nat) :
  Message.wf m ->
  (n < List.length (Message.serializeStream m))%nat ->
  Message.deserializeStream m0 (firstn n (Message.serializeStream m)) = (false, m0).
Proof.
  intros Hwf Hn. unfold Message.deserializeStream.
  destruct (stream_prefix m [] Hwf) as (Hlen & Hg & Hsz). rewrite app_nil_r in Hg.
  assert (Hn' : Z.of_nat n < 4 + zlen (Message.serialize m)) by (unfold zlen in *; lia).
  rewrite zlen_firstn_min.
  destruct (Z.ltb_spec (Z.min (Z.of_nat n) (zlen (Message.serializeStream m))) 4) as [|H4];
    [reflexivity|].
  rewrite get_u32_firstn by lia. rewrite Hg.
  now replace (_ <? _) with true by (symmetry; apply Z.ltb_lt; lia).
Qed.

Lemma truncated_frame_is_rejected_witness :
  Message.deserializeStream Message.clear
    (firstn 49 (Message.serializeStream (MessageFactory.createConnectRequest "A")))
  = (false, Message.clear).
Proof.
  apply (truncated_frame_is_rejected (MessageFactory.createConnectRequest "A")
           Message.clear 49).
  - constructor; vm_compute; try reflexivity; split; congruence.
  - vm_compute. lia.
Defined.

Lemma try_extract_frame (m : Message.t) (rest one_frame : list byte) :
  Message.wf m ->
  try_extract_one_framed_message (Message.serializeStream m ++ rest) one_frame
  = (true, rest, Message.serializeStream m).
Proof.
  intros Hwf. unfold try_extract_one_framed_message.
  destruct (stream_prefix m rest Hwf) as (Hlen & Hg & Hsz).
  pose proof (zlen_nonneg rest) as Hr0.
  rewrite zlen_app, Hg.
  replace (_ <? 4) with false by (symmetry; apply Z.ltb_ge; lia).
  replace (_ <? _) with false by (symmetry; apply Z.ltb_ge; lia).
  rewrite <- Hlen. now rewrite skipn_exact, firstn_exact.
Qed.

(** X5.  From a buffer that holds the stream frames of [a] and [b] back
    to back, [try_extract_one_framed_message] takes the frame of [a], then
    the frame of [b], leaves the buffer empty and then finds no frame;
    [deserializeStream] of the two frames gives [a] and [b]. *)
Theorem back_to_back_frames (a b m0 : Message.t) (one_frame : list byte) :
  Message.wf a -> Message.wf b ->
  let fA := Message.serializeStream a in
  let fB := Message.serializeStream b in
  try_extract_one_framed_message (fA ++ fB) one_frame = (true, fB, fA)
  /\ try_extract_one_framed_message fB fA = (true, [], fB)
  /\ try_extract_one_framed_message [] fB = (false, [], fB)
  /\ Message.deserializeStream m0 fA = (true, a)
  /\ Message.deserializeStream m0 fB = (true, b).
Proof.
  intros Ha Hb fA fB. subst fA fB.
  rewrite try_extract_frame by assumption.
  pose proof (try_extract_frame b [] (Message.serializeStream a) Hb) as E.
  rewrite app_nil_r in E. rewrite E.
  rewrite !deserializeStream_serializeStream by assumption.
  repeat split; reflexivity.
Qed.

Lemma back_to_back_frames_witness :
  let fA := Message.serializeStream (MessageFactory.createConnectRequest "A") in
  let fB := Message.serializeStream (MessageFactory.createConnectRequest "B") in
  try_extract_one_framed_message (fA ++ fB) [] = (true, fB, fA)
  /\ try_extract_one_framed_message fB fA = (true, [], fB)
  /\ try_extract_one_framed_message [] fB = (false, [], fB)
  /\ Message.deserializeStream Message.clear fA
     = (true, MessageFactory.createConnectRequest "A")
  /\ Message.deserializeStream Message.clear fB
     = (true, MessageFactory.createConnectRequest "B").
Proof.
  apply (back_to_back_frames (MessageFactory.createConnectRequest "A")
           (MessageFactory.createConnectRequest "B") Message.clear []);
    constructor; vm_compute; try reflexivity; split; congruence.
Defined.

(** ** CRC-32 tells apart inputs that differ in one byte *)

















(** ** Messages over a socket *)

Lemma receiveMessage_serialize (m : Message.t) (rest out : list byte) :
  Message.wf m ->
  TLSSocket.receiveMessage (TLSSocket.mk true (Message.serialize m ++ rest) out)
  = (Some m, TLSSocket.mk true rest out).
Proof.
  intros Hwf. pose proof (zlen_nonneg (Message.encodeData m)) as Hb.
  pose proof (zlen_nonneg rest) as Hr.
  unfold TLSSocket.receiveMessage, TLSSocket.receive.
  cbn [TLSSocket.tls_established_ TLSSocket.inbound TLSSocket.outbound negb].
  rewrite zlen_app, zlen_serialize. unfold Message.HEADER_SIZE.
  replace (_ <? 24) with false by (symmetry; apply Z.ltb_ge; lia).
  unfold Message.serialize. rewrite <- app_assoc.
  change (Z.to_nat 24) with (Z.to_nat (zlen (Message.header_bytes (Message.header_ m)))).
  rewrite firstn_exact, skipn_exact.
  pose proof (read_header_wf m [] Hwf) as Hh. rewrite app_nil_r in Hh. rewrite Hh.
  rewrite (Message.wf_magic m Hwf), Z.eqb_refl. cbn [negb].
  rewrite (Message.wf_length m Hwf).
  destruct (Z.ltb_spec 0 (zlen (Message.encodeData m))) as [Hpos|Hz].
  - cbn [TLSSocket.tls_established_ TLSSocket.inbound TLSSocket.outbound negb].
    rewrite zlen_app.
    replace (_ <? _) with false by (symmetry; apply Z.ltb_ge; lia).
    rewrite firstn_exact, skipn_exact.
    change (Message.header_bytes (Message.header_ m) ++ Message.encodeData m)
      with (Message.serialize m).
    now rewrite deserialize_serialize.
  - assert (E : Message.encodeData m = []).
    { destruct (Message.encodeData m); [reflexivity|]. unfold zlen in Hz. simpl in Hz. lia. }
    pose proof (deserialize_serialize m Message.clear Hwf) as Hd.
    unfold Message.serialize in Hd. rewrite E in *. cbn [app]. now rewrite Hd.
Qed.

Lemma receive_loop_serialized (ms : list Message.t) (out : list byte) :
  Forall Message.wf ms ->
  forall fuel, (List.length ms < fuel)%nat ->
    TLSSocket.receive_loop fuel
      (TLSSocket.mk true (List.concat (map Message.serialize ms)) out)
    = (ms, TLSSocket.mk true [] out).
Proof.
  induction 1 as [|m ms Hm _ IH]; intros fuel Hf;
    (destruct fuel as [|f]; [simpl in Hf; lia|]); cbn [TLSSocket.receive_loop].
  - reflexivity.
  - cbn [map List.concat]. rewrite receiveMessage_serialize by exact Hm.
    rewrite IH by (simpl in Hf; lia). reflexivity.
Qed.

Lemma outbound_after_sending (ms : list Message.t) :
  forall s, TLSSocket.tls_established_ s = true ->
    TLSSocket.outbound (fold_left (fun s m => snd (TLSSocket.sendMessage m s)) ms s)
    = TLSSocket.outbound s ++ List.concat (map Message.serialize ms).
Proof.
  induction ms as [|m ms IH]; intros s Hs; cbn [fold_left map List.concat].
  - now rewrite app_nil_r.
  - unfold TLSSocket.sendMessage at 2. rewrite Hs. cbn [negb snd].
    rewrite IH by reflexivity. cbn [TLSSocket.outbound]. now rewrite app_assoc.
Qed.

Lemma serialized_count (ms : list Message.t) :
  (List.length ms <= List.length (List.concat (map Message.serialize ms)))%nat.
Proof.
  induction ms as [|m ms IH]; [reflexivity|].
  cbn [map List.concat List.length]. rewrite length_app.
  unfold Message.serialize at 1. rewrite length_app.
  change (List.length (Message.header_bytes (Message.header_ m))) with 24%nat. lia.
Qed.

(** X7.  What one end writes with [sendMessage], message after message,
    the receive loop of the other end reads with [receiveMessage] as the
    same messages in the same order, and then finds the stream at its end. *)
Theorem sent_messages_are_received (ms : list Message.t) :
  Forall Message.wf ms ->
  let sender := fold_left (fun s m => snd (TLSSocket.sendMessage m s)) ms
                  (TLSSocket.mk true [] []) in
  TLSSocket.receive_all (socket_reading (TLSSocket.outbound sender))
  = (ms, socket_reading []).
Proof.
  intros Hwf sender. subst sender. rewrite outbound_after_sending by reflexivity.
  cbn [TLSSocket.outbound app]. unfold TLSSocket.receive_all, socket_reading.
  cbn [TLSSocket.inbound]. apply receive_loop_serialized; [exact Hwf|].
  pose proof (serialized_count ms). lia.
Qed.

Lemma sent_messages_are_received_witness :
  let ms := [MessageFactory.createConnectRequest "A"; MessageFactory.createDisconnect] in
  let sender := fold_left (fun s m => snd (TLSSocket.sendMessage m s)) ms
                  (TLSSocket.mk true [] []) in
  TLSSocket.receive_all (socket_reading (TLSSocket.outbound sender))
  = (ms, socket_reading []).
Proof.
  apply (sent_messages_are_received
           [MessageFactory.createConnectRequest "A"; MessageFactory.createDisconnect]).
  constructor; [|constructor; [|constructor]];
    (constructor; vm_compute; try reflexivity; split; congruence).
Defined.

(** ** What the factory builds *)

Lemma create_built (ty : Z) : 0 <= ty < 65536 -> Message.built (Message.create ty).
Proof.
  intros H. constructor; cbn [Message.create Message.clear Message.header_ Message.data_
    Message.set_type Message.magic Message.version Message.type Message.length
    Message.sequence_id Message.session_id Message.checksum Message.encodeData
    Message.encode_pairs Message.sortedb]; try reflexivity; unfold two32; lia.
Qed.

Lemma addString_built (m : Message.t) (k v : string) :
  Message.built m -> Message.built (Message.addString m k v).
Proof.
  intros [Hm Hv Ht Hq Hs Hc Hsrt Hl]. unfold Message.addString.
  constructor; cbn [Message.header_ Message.data_ Message.set_length Message.magic
    Message.version Message.type Message.length Message.sequence_id Message.session_id
    Message.checksum Message.encodeData]; try assumption.
  - now apply map_set_sorted.
  - reflexivity.
Qed.

Lemma add_unless_empty_built (m : Message.t) (k v : string) :
  Message.built m -> Message.built (MessageFactory.add_unless_empty m k v).
Proof. intros H. destruct v; [exact H | now apply addString_built]. Qed.

Lemma add_int_if_built (m : Message.t) (k : string) (v : option Z) :
  Message.built m -> Message.built (MessageFactory.add_int_if m k v).
Proof. intros H. destruct v; [now apply addString_built | exact H]. Qed.

Lemma add_pairs_built (data : smap) :
  forall m, Message.built m -> Message.built (MessageFactory.add_pairs m data).
Proof.
  induction data as [|p r IH]; intros m H; [exact H|].
  apply IH. now apply addString_built.
Qed.

Lemma calculateChecksum_built (m : Message.t) :
  Message.built m ->
  Message.built (Message.calculateChecksum m)
  /\ Message.isValid (Message.calculateChecksum m) = true.
Proof.
  intros H. split.
  - destruct H as [Hm Hv Ht Hq Hs Hc Hsrt Hl]. unfold Message.calculateChecksum.
    constructor; cbn [Message.header_ Message.data_ Message.set_checksum Message.magic
      Message.version Message.type Message.length Message.sequence_id
      Message.session_id Message.checksum Message.encodeData]; try assumption.
    apply calculateCRC32_range.
  - unfold Message.isValid. rewrite verify_after_calculate.
    unfold Message.calculateChecksum.
    cbn [Message.header_ Message.set_checksum Message.magic Message.version].
    rewrite (Message.built_magic m H), (Message.built_version m H). reflexivity.
Qed.

Lemma built_wf (m : Message.t) :
  Message.built m -> Message.HEADER_SIZE + zlen (Message.encodeData m) < two32 ->
  Message.wf m.
Proof.
  intros [Hm Hv Ht Hq Hs Hc Hsrt Hl] Hz. constructor; try assumption.
  - rewrite Hv. lia.
  - rewrite Hl. apply Z.mod_small. pose proof (zlen_nonneg (Message.encodeData m)).
    unfold Message.HEADER_SIZE in Hz. lia.
Qed.

Ltac prove_built :=
  repeat first
    [ apply add_pairs_built
    | apply add_unless_empty_built
    | apply add_int_if_built
    | apply addString_built
    | apply create_built; vm_compute; split; congruence ].


(** X9.  An error response written to a socket with [sendMessage] is
    read at the other end by [receiveMessage] as the same message: it
    passes [isValid], has the type [RESPONSE_ERROR], and [getString] of
    [error] and [getInt] of [error_code] give the text and the code the
    server passed, provided the frame is shorter than 2^32 bytes. *)
Theorem error_response_read_back (text : string) (code : Z) :
  INT_MIN <= code <= INT_MAX ->
  let r := MessageFactory.createErrorResponse text code in
  Message.HEADER_SIZE + zlen (Message.encodeData r) < two32 ->
  TLSSocket.receiveMessage
    (socket_reading
       (TLSSocket.outbound (snd (TLSSocket.sendMessage r (TLSSocket.mk true [] [])))))
  = (Some r, socket_reading [])
  /\ Message.isValid r = true
  /\ Message.getType r = MessageFactory.RESPONSE_ERROR
  /\ Message.getString r "error" = text
  /\ Message.getInt r "error_code" = Returned code.
Proof.
  intros Hc r Hsz.
  assert (Hb : Message.built r /\ Message.isValid r = true).
  { apply calculateChecksum_built. unfold Message.addInt. prove_built. }
  destruct Hb as [Hb Hv].
  split; [|split; [exact Hv|split; [reflexivity|split]]].
  - cbn [TLSSocket.sendMessage TLSSocket.tls_established_ negb snd TLSSocket.outbound
         TLSSocket.inbound app].
    unfold socket_reading.
    rewrite <- (app_nil_r (Message.serialize r)).
    apply receiveMessage_serialize. now apply built_wf.
  - unfold Message.getString, r, MessageFactory.createErrorResponse, Message.calculateChecksum,
      Message.addInt, Message.addString.
    cbn [Message.data_]. rewrite map_find_set_other by discriminate.
    now rewrite map_find_set_same.
  - unfold Message.getInt, r, MessageFactory.createErrorResponse, Message.calculateChecksum,
      Message.addInt, Message.addString.
    cbn [Message.data_]. rewrite map_find_set_same. now apply stoi_to_string.
Qed.

Lemma error_response_read_back_witness :
  let r := MessageFactory.createErrorResponse "Vehicle/route not found" 404 in
  TLSSocket.receiveMessage
    (socket_reading
       (TLSSocket.outbound (snd (TLSSocket.sendMessage r (TLSSocket.mk true [] [])))))
  = (Some r, socket_reading [])
  /\ Message.isValid r = true
  /\ Message.getType r = MessageFactory.RESPONSE_ERROR
  /\ Message.getString r "error" = "Vehicle/route not found"
  /\ Message.getInt r "error_code" = Returned 404.
Proof.
  apply (error_response_read_back "Vehicle/route not found" 404).
  - unfold INT_MIN, INT_MAX. lia.
  - vm_compute. reflexivity.
Defined.

(** ** Texts as SQLite takes them *)

Lemma c_str_idem (s : string) : c_str (c_str s) = c_str s.
Proof.
  induction s as [|a s IH]; [reflexivity|]. cbn [c_str].
  destruct (Ascii.eqb a Ascii.zero) eqn:E; [reflexivity|].
  cbn [c_str]. now rewrite E, IH.
Qed.

Lemma c_user_idem (u : User) : c_user (c_user u) = c_user u.
Proof. unfold c_user. cbn. now rewrite !c_str_idem. Qed.

Lemma extractVehicle_c_vehicle (v : Vehicle) :
  Database.extractVehicle (c_vehicle v) = Database.extractVehicle v.
Proof. unfold Database.extractVehicle, c_vehicle. cbn. now rewrite !c_str_idem. Qed.

(** ** A registered user is found, and not registered twice *)

Lemma find_existsb_false {A} (f : A -> bool) (l : list A) :
  existsb f l = false -> find f l = None.
Proof.
  induction l as [|a l IH]; simpl; [reflexivity|].
  intros H. apply orb_false_iff in H as [Ha Hl]. rewrite Ha. auto.
Qed.

Lemma existsb_app_new {A} (f : A -> bool) (l : list A) (x : A) :
  f x = true -> existsb f (l ++ [x]) = true.
Proof. intros H. rewrite existsb_app. simpl. rewrite H. now rewrite orb_true_r. Qed.

(** X10.  After [registerUser] has succeeded on an idle connection,
    [getUser] of the same URN finds the user as it was stored (every text
    up to its first NUL), and registering the same user again fails with
    [User already registered], code [SQLITE_CONSTRAINT], and leaves the
    tables as they are. *)
Theorem registered_user_is_found (user : User) (d d' : Database.t) :
  Database.busy d = [] ->
  Database.registerUser user d = (true, d') ->
  fst (Database.getUser (u_urn user) d') = Some (c_user user)
  /\ fst (Database.registerUser user d') = false
  /\ Database.getLastError (snd (Database.registerUser user d')) = "User already registered"
  /\ Database.getLastErrorCode (snd (Database.registerUser user d'))
     = Database.SQLITE_CONSTRAINT
  /\ Database.tables (snd (Database.registerUser user d')) = Database.tables d'.
Proof.
  intros Hb. unfold Database.registerUser at 1.
  destruct (run_idle (Database.INSERT_user (c_str (u_urn user))) d Hb) as (R1 & R2 & R3).
  destruct (Database.run _ d) as [b d1]. cbn [fst snd] in R1, R2, R3. subst b.
  rewrite R3.
  destruct (Database.has_user (Database.tables d) (c_str (u_urn user))) eqn:Hu;
    [discriminate|].
  cbn [Z.eqb Database.SQLITE_DONE Pos.eqb]. intros E. injection E as <-.
  assert (Hb' : Database.busy (Database.with_tables d1
                  (Database.set_users (Database.tables d)
                     (Database.users (Database.tables d) ++ [c_user user]))) = [])
    by exact R2.
  set (d' := Database.with_tables d1 _) in *.
  assert (Hu' : Database.has_user (Database.tables d') (c_str (u_urn user)) = true).
  { unfold Database.has_user. subst d'. cbn. apply existsb_app_new.
    cbn. apply String.eqb_refl. }
  split.
  - unfold Database.getUser.
    destruct (run_idle (Database.SELECT_user (c_str (u_urn user))) d' Hb') as (S1 & S2 & S3).
    destruct (Database.run _ d') as [b d2]. cbn [fst snd] in S1, S2, S3. subst b.
    rewrite S3. cbn [fst]. subst d'. cbn [Database.tables Database.with_tables
      Database.users Database.set_users].
    rewrite (find_app_new _ _ (c_user user)); [| exact Hu | cbn; apply String.eqb_refl].
    cbn [option_map]. unfold Database.extractUser. now rewrite c_user_idem.
  - unfold Database.registerUser.
    destruct (run_idle (Database.INSERT_user (c_str (u_urn user))) d' Hb') as (S1 & S2 & S3).
    destruct (Database.run _ d') as [b d2]. cbn [fst snd] in S1, S2, S3. subst b.
    rewrite S3, Hu'. cbn. repeat split; assumption.
Qed.

Lemma registered_user_is_found_witness :
  fst (Database.getUser "1000000000009"
         (snd (Database.registerUser (user "1000000000009" "Ninth")
                 (connection city_tables []))))
  = Some (user "1000000000009" "Ninth")
  /\ fst (Database.registerUser (user "1000000000009" "Ninth")
            (snd (Database.registerUser (user "1000000000009" "Ninth")
                    (connection city_tables [])))) = false.
Proof.
  destruct (registered_user_is_found (user "1000000000009" "Ninth")
              (connection city_tables [])
              (snd (Database.registerUser (user "1000000000009" "Ninth")
                      (connection city_tables []))))
    as (H1 & H2 & _).
  - reflexivity.
  - vm_compute. reflexivity.
  - split; [exact H1 | exact H2].
Defined.












Lemma city_tables_vehicle_inv : vehicle_inv city_tables.
Proof.
  constructor.
  - unfold uris_distinct, city_tables. cbn [Database.vehicles map].
    apply NoDup_cons; [intros [] | apply NoDup_nil].
  - unfold city_tables. cbn [Database.vehicles].
    apply Forall_cons; [reflexivity | apply Forall_nil].
  - unfold seats_in_range, city_tables. cbn [Database.vehicles].
    apply Forall_cons; [cbn; lia | apply Forall_nil].
Qed.







(** Deleting rows keeps the URIs distinct. *)
Lemma uris_distinct_filter (keep : Vehicle -> bool) (rows : list Vehicle) :
  NoDup (map v_uri rows) -> NoDup (map v_uri (filter keep rows)).
Proof.
  induction rows as [|row rows IH]; cbn [map filter]; intros H; [apply NoDup_nil|].
  apply NoDup_cons_iff in H as [Hn Hd].
  destruct (keep row); cbn [map]; [|now apply IH].
  apply NoDup_cons; [|now apply IH].
  intros Hin. apply Hn. apply in_map_iff in Hin as (x & Hx & Hf).
  apply in_map_iff. exists x. split; [assumption|]. now apply filter_In in Hf.
Qed.

Lemma registerVehicle_inv (v : Vehicle) (d : Database.t) :
  0 <= v_available_seats v <= v_capacity v ->
  vehicle_inv (Database.tables d) ->
  vehicle_inv (Database.tables (snd (Database.registerVehicle v d))).
Proof.
  intros Hv [Hd Hb Hs]. unfold Database.registerVehicle.
  pose proof (run_tables (Database.REPLACE_vehicle (c_str (v_uri v))) d) as T.
  destruct (Database.run _ d) as [[|] d1]; cbn [snd] in *.
  { cbn. rewrite T. now constructor. }
  cbn [Database.tables Database.with_tables]. rewrite T.
  unfold uris_distinct, seats_in_range in *.
  constructor; unfold uris_distinct, seats_in_range; cbn [Database.vehicles Database.set_vehicles].
  - rewrite map_app. apply NoDup_app.
    + now apply uris_distinct_filter.
    + cbn. constructor; [intros [] | constructor].
    + intros a Ha [<-|[]]. apply in_map_iff in Ha as (x & Hx & Hf).
      apply filter_In in Hf as [_ Hf]. cbn in Hx. rewrite Hx, String.eqb_refl in Hf.
      discriminate.
  - apply Forall_app. split.
    + rewrite Forall_forall in *. intros x Hx. apply filter_In in Hx as [Hx _]. auto.
    + constructor; [|constructor]. cbn. apply c_str_idem.
  - apply Forall_app. split.
    + rewrite Forall_forall in *. intros x Hx. apply filter_In in Hx as [Hx _]. auto.
    + constructor; [|constructor]. exact Hv.
Qed.

Lemma map_with_capacity_uris (uri ts : string) (c n : Z) (l : list Vehicle) :
  map v_uri (map (Database.with_capacity uri c n ts) l) = map v_uri l.
Proof.
  rewrite map_map. apply map_ext. intros v. unfold Database.with_capacity.
  now destruct (Database.has_uri uri v).
Qed.

Lemma updateVehicleCapacity_inv (uri : string) (capacity seats : Z) (d : Database.t) :
  vehicle_inv (Database.tables d) ->
  vehicle_inv (Database.tables (snd (Database.updateVehicleCapacity uri capacity seats d))).
Proof.
  intros Hinv. unfold Database.updateVehicleCapacity.
  destruct uri as [|a u]; [exact Hinv|].
  destruct (Z.ltb_spec capacity 0) as [|Hc]; [exact Hinv|].
  destruct (Z.ltb_spec seats 0) as [|Hn]; [exact Hinv|].
  destruct (Z.ltb_spec capacity seats) as [|Hcn]; [exact Hinv|].
  cbn [orb].
  set (d0 := Database.setLastError d "" 0).
  pose proof (run_tables (Database.UPDATE_vehicle_capacity (c_str (String a u)) capacity seats)
                d0) as T.
  destruct (Database.run _ d0) as [[|] d1]; cbn [snd] in T;
    change (Database.tables d0) with (Database.tables d) in T.
  { cbn. now rewrite T. }
  assert (Hnew : vehicle_inv
            (Database.set_vehicles (Database.tables d)
               (map (Database.with_capacity (c_str (String a u)) capacity seats
                       (c_str (Database.clock d1)))
                  (Database.vehicles (Database.tables d))))).
  { destruct Hinv as [Hd Hb Hs]. unfold uris_distinct, seats_in_range in *.
    constructor; unfold uris_distinct, seats_in_range;
      cbn [Database.vehicles Database.set_vehicles].
    - now rewrite map_with_capacity_uris.
    - apply Forall_forall. intros v Hv. apply in_map_iff in Hv as (r & <- & Hr).
      rewrite Forall_forall in Hb. specialize (Hb r Hr).
      unfold Database.with_capacity. destruct (Database.has_uri _ r); exact Hb.
    - apply Forall_forall. intros v Hv. apply in_map_iff in Hv as (r & <- & Hr).
      rewrite Forall_forall in Hs. specialize (Hs r Hr).
      unfold Database.with_capacity. destruct (Database.has_uri _ r); [cbn; lia|exact Hs]. }
  destruct (_ =? 0); cbn [snd Database.tables Database.with_tables Database.setLastError];
    rewrite T; exact Hnew.
Qed.

Lemma updateVehicle_inv (uri : string) (active : option bool) (route : option string)
                        (type : option Z) (d : Database.t) :
  vehicle_inv (Database.tables d) ->
  vehicle_inv (Database.tables (snd (Database.updateVehicle uri active route type d))).
Proof.
  intros Hinv. unfold Database.updateVehicle.
  destruct uri as [|a u]; [exact Hinv|].
  set (d0 := Database.setLastError d "" 0).
  assert (R : vehicle_inv
                (Database.tables
                   (snd (let '(b, db) := Database.run (Database.UPDATE_vehicle (c_str (String a u))) d0 in
                         if b then (false, Database.setLastError db "Failed to update vehicle"
                                             Database.SQLITE_BUSY)
                         else
                           let upd v :=
                             if Database.has_uri (c_str (String a u)) v
                             then mkVehicle (v_uri v) (Database.value_or type (v_type v))
                                    (v_capacity v) (v_available_seats v)
                                    (Database.value_or (option_map c_str route) (v_route v))
                                    (Database.value_or active (v_active v))
                                    (c_str (Database.clock db))
                             else v in
                           let changes :=
                             zlen (filter (Database.has_uri (c_str (String a u)))
                                     (Database.vehicles (Database.tables db))) in
                           let db := Database.with_tables db
                                       (Database.set_vehicles (Database.tables db)
                                          (map upd (Database.vehicles (Database.tables db)))) in
                           if changes =? 0
                           then (false, Database.setLastError db "Vehicle not found"
                                          Database.SQLITE_NOTFOUND)
                           else (true, db))))).
  { pose proof (run_tables (Database.UPDATE_vehicle (c_str (String a u))) d0) as T.
    destruct (Database.run _ d0) as [[|] d1]; cbn [snd] in T;
      change (Database.tables d0) with (Database.tables d) in T.
    { cbn. now rewrite T. }
    cbv zeta.
    match goal with
    | |- context [map ?f (Database.vehicles (Database.tables d1))] => set (upd := f)
    end.
    assert (Hnew : vehicle_inv
              (Database.set_vehicles (Database.tables d)
                 (map upd (Database.vehicles (Database.tables d))))).
    { destruct Hinv as [Hd Hb Hs]. unfold uris_distinct, seats_in_range in *.
      assert (Hu : forall v, v_uri (upd v) = v_uri v
                             /\ v_capacity (upd v) = v_capacity v
                             /\ v_available_seats (upd v) = v_available_seats v).
      { intros v. unfold upd. destruct (Database.has_uri _ v); auto. }
      constructor; unfold uris_distinct, seats_in_range;
        cbn [Database.vehicles Database.set_vehicles].
      - rewrite map_map. erewrite map_ext; [exact Hd|]. intros v. apply Hu.
      - apply Forall_forall. intros v Hv. apply in_map_iff in Hv as (r & <- & Hr).
        rewrite Forall_forall in Hb. destruct (Hu r) as (-> & _). auto.
      - apply Forall_forall. intros v Hv. apply in_map_iff in Hv as (r & <- & Hr).
        rewrite Forall_forall in Hs. destruct (Hu r) as (_ & -> & ->). auto. }
    destruct (_ =? 0); cbn [snd Database.tables Database.with_tables Database.setLastError];
      rewrite T; exact Hnew. }
  destruct active, route, type; try exact R. exact Hinv.
Qed.

(** X13.  The vehicle invariant holds of the empty tables and is kept
    by [registerVehicle] of a vehicle whose seats are in range, and by the
    handlers [handleDeviceRegistration], [handleUpdateCapacity] and
    [handleUpdateVehicle] (through [updateVehicleCapacity], which clamps
    the free seats to the new capacity, and [updateVehicle]). *)
Theorem admin_updates_keep_seats_in_range :
  vehicle_inv empty_tables
  /\ (forall (v : Vehicle) (d : Database.t),
         0 <= v_available_seats v <= v_capacity v ->
         vehicle_inv (Database.tables d) ->
         vehicle_inv (Database.tables (snd (Database.registerVehicle v d))))
  /\ (forall (message : Message.t) (s s' : CentralServer.t),
         CentralServer.handleDeviceRegistration message s = Returned s' ->
         vehicle_inv (Database.tables (CentralServer.db s)) ->
         vehicle_inv (Database.tables (CentralServer.db s')))
  /\ (forall (message : Message.t) (s s' : CentralServer.t),
         CentralServer.handleUpdateCapacity message s = Returned s' ->
         vehicle_inv (Database.tables (CentralServer.db s)) ->
         vehicle_inv (Database.tables (CentralServer.db s')))
  /\ (forall (message : Message.t) (s s' : CentralServer.t),
         CentralServer.handleUpdateVehicle message s = Returned s' ->
         vehicle_inv (Database.tables (CentralServer.db s)) ->
         vehicle_inv (Database.tables (CentralServer.db s'))).
Proof.
  split; [|split; [|split; [|split]]].
  - constructor; [constructor | constructor | constructor].
  - intros v d Hv Hinv. now apply registerVehicle_inv.
  - intros message s s'. unfold CentralServer.handleDeviceRegistration.
    destruct (Message.getInt message "vehicle_type") as [vt|]; [|discriminate].
    cbn [obind]. destruct (negb _).
    { intros E. injection E as <-. trivial. }
    intros H Hinv. revert H.
    match goal with
    | |- context [Database.registerVehicle ?v ?dd] =>
        pose proof (registerVehicle_inv v dd ltac:(cbn; lia) Hinv) as R;
        destruct (Database.registerVehicle v dd) as [[|] d1]
    end; cbn [snd] in R.
    + intros E. injection E as <-. exact R.
    + destruct (_ || _)%bool; intros E; injection E as <-; exact R.
  - intros message s s'. unfold CentralServer.handleUpdateCapacity.
    destruct (_ || _)%bool.
    { intros E. injection E as <-. trivial. }
    destruct (Message.getInt message "capacity") as [c|]; [|discriminate].
    cbn [obind].
    destruct (if Message.hasKey message "available_seats"
              then Message.getInt message "available_seats" else Returned c) as [a|];
      [|discriminate].
    cbn [obind]. intros H Hinv. revert H.
    pose proof (updateVehicleCapacity_inv (Message.getString message "uri") c a
                  (CentralServer.db s) Hinv) as R.
    destruct (Database.updateVehicleCapacity _ c a _) as [[|] d1]; cbn [snd negb] in *;
      intros E; injection E as <-; exact R.
  - intros message s s'. unfold CentralServer.handleUpdateVehicle.
    destruct (negb _).
    { intros E. injection E as <-. trivial. }
    destruct (if Message.hasKey message "active" then _ else _) as [act|]; [|discriminate].
    cbn [obind].
    destruct (if Message.hasKey message "vehicle_type" then _ else _) as [ty|];
      [|discriminate].
    cbn [obind]. intros H Hinv. revert H.
    match goal with
    | |- context [Database.updateVehicle ?u ?a ?r ?t ?dd] =>
        pose proof (updateVehicle_inv u a r t dd Hinv) as R;
        destruct (Database.updateVehicle u a r t dd) as [[|] d1]
    end; cbn [snd negb] in *; intros E; injection E as <-; exact R.
Qed.

Lemma admin_updates_keep_seats_in_range_witness :
  vehicle_inv
    (Database.tables
       (snd (Database.registerVehicle
               (mkVehicle "tram://7" TRAM 40 40 "R_7" true "2025-01-01 12:00:00")
               (connection city_tables [])))).
Proof.
  destruct admin_updates_keep_seats_in_range as (_ & Hreg & _).
  apply Hreg.
  - cbn. lia.
  - exact city_tables_vehicle_inv.
Defined.

(** ** Reservations under a transaction, one after the other *)

Lemma run_quiet (q : Database.Sql) (d : Database.t) :
  Database.busy d = [] ->
  exists d', Database.run q d = (false, d')
             /\ Database.busy d' = []
             /\ Database.tables d' = Database.tables d
             /\ Database.snapshot d' = Database.snapshot d.
Proof.
  intros Hb. unfold Database.run. rewrite Hb. eexists. split; [reflexivity|]. auto.
Qed.

Lemma find_map_with_seats (uri : string) (n : Z) (l : list Vehicle) :
  find (Database.has_uri uri) (map (Database.with_seats uri n) l)
  = option_map (Database.with_seats uri n) (find (Database.has_uri uri) l).
Proof.
  induction l as [|v l IH]; [reflexivity|]. cbn [map find].
  unfold Database.with_seats at 1, Database.has_uri at 1 3.
  destruct (String.eqb (v_uri v) uri) eqn:E; cbn [v_uri]; rewrite E; [|exact IH].
  cbn [option_map]. unfold Database.with_seats. now rewrite E.
Qed.

Lemma try_reserve_one_step (uri : string) (d : Database.t) (k : Z) :
  Database.busy d = [] -> Database.snapshot d = None ->
  seats_of (Database.tables d) (c_str uri) = Some k ->
  let r := try_reserve_one uri d in
  Database.busy (snd r) = [] /\ Database.snapshot (snd r) = None
  /\ (0 < k -> fst r = true /\ seats_of (Database.tables (snd r)) (c_str uri) = Some (k - 1))
  /\ (k <= 0 -> fst r = false /\ Database.tables (snd r) = Database.tables d).
Proof.
  intros Hb Hs Hk. cbv zeta. unfold try_reserve_one, Database.beginTransaction.
  destruct (run_quiet Database.BEGIN_TRANSACTION d Hb) as (d1 & -> & B1 & T1 & S1).
  rewrite S1, Hs. cbn [negb].
  set (d2 := Database.with_snapshot d1 (Some (Database.tables d1))).
  unfold Database.getVehicle.
  destruct (run_quiet (Database.SELECT_vehicle (c_str uri)) d2 B1) as (d3 & -> & B3 & T3 & S3).
  unfold seats_of in Hk. rewrite T3. change (Database.tables d2) with (Database.tables d1).
  rewrite T1.
  change (fun v : Vehicle => String.eqb (v_uri v) (c_str uri))
    with (Database.has_uri (c_str uri)).
  destruct (find (Database.has_uri (c_str uri)) (Database.vehicles (Database.tables d)))
    as [row|] eqn:F; [|discriminate].
  cbn [option_map] in Hk. injection Hk as Hk.
  cbn [option_map Database.extractVehicle v_available_seats]. rewrite Hk.
  destruct (Z.leb_spec k 0) as [Hle|Hgt].
  - unfold Database.rollbackTransaction.
    destruct (run_quiet Database.ROLLBACK d3 B3) as (d4 & -> & B4 & T4 & S4).
    rewrite S4, S3. cbn. repeat split; try assumption; try lia.
  - unfold Database.updateSeatAvailability.
    destruct (run_quiet (Database.UPDATE_available_seats (c_str uri) (k - 1)) d3 B3)
      as (d4 & -> & B4 & T4 & S4).
    cbn [negb]. unfold Database.commitTransaction.
    set (d5 := Database.with_tables d4 _).
    destruct (run_quiet Database.COMMIT d5 B4) as (d6 & -> & B6 & T6 & S6).
    rewrite S6. subst d5. cbn [Database.snapshot Database.with_tables].
    rewrite S4, S3. cbn [Database.snapshot Database.with_snapshot d2 fst snd
                          Database.busy Database.tables].
    split; [assumption|]. split; [reflexivity|]. split; [|intros; lia].
    intros _. split; [reflexivity|]. unfold seats_of. rewrite T6. cbn [Database.tables Database.with_tables
      Database.vehicles Database.set_vehicles].
    rewrite T4, T3. change (Database.tables d2) with (Database.tables d1). rewrite T1.
    rewrite find_map_with_seats, F. cbn [option_map]. unfold Database.with_seats.
    apply find_some in F as [_ F]. unfold Database.has_uri in F. now rewrite F.
Qed.

(** X14.  [attempts] reservations one after the other, each under its
    own transaction as in the concurrent-reservation test, on an idle
    connection and a vehicle with [k] free seats: exactly
    [min attempts k] succeed, and the vehicle is left with
    [k - min attempts k] free seats; there is no overbooking. *)
Theorem reserve_many_counts (attempts : nat) (uri : string) :
  forall (d : Database.t) (k : Z),
    Database.busy d = [] -> Database.snapshot d = None ->
    seats_of (Database.tables d) (c_str uri) = Some k -> 0 <= k ->
    let successes := Z.min (Z.of_nat attempts) k in
    fst (reserve_many attempts uri d) = successes
    /\ seats_of (Database.tables (snd (reserve_many attempts uri d))) (c_str uri)
       = Some (k - successes).
Proof.
  induction attempts as [|n IH]; intros d k Hb Hs Hk H0; cbv zeta.
  - cbn [reserve_many fst snd]. rewrite Hk. split; [lia | f_equal; lia].
  - cbn [reserve_many].
    destruct (try_reserve_one_step uri d k Hb Hs Hk) as (B & S & Hpos & Hzero).
    destruct (try_reserve_one uri d) as [ok d1]. cbn [fst snd] in *.
    destruct (Z.ltb_spec 0 k) as [Hgt|Hle].
    + destruct (Hpos Hgt) as [-> K1].
      destruct (IH d1 (k - 1) B S K1 ltac:(lia)) as [E1 E2].
      destruct (reserve_many n uri d1) as [m d2]. cbn [fst snd] in *.
      split; [lia|]. rewrite E2. f_equal. lia.
    + destruct (Hzero Hle) as [-> T].
      assert (K1 : seats_of (Database.tables d1) (c_str uri) = Some k) by now rewrite T.
      destruct (IH d1 k B S K1 H0) as [E1 E2].
      destruct (reserve_many n uri d1) as [m d2]. cbn [fst snd] in *.
      split; [lia|]. rewrite E2. f_equal. lia.
Qed.

Lemma reserve_many_counts_witness :
  fst (reserve_many 5 "bus://42" (connection city_tables [])) = 3
  /\ seats_of (Database.tables (snd (reserve_many 5 "bus://42" (connection city_tables []))))
       "bus://42" = Some 0.
Proof.
  apply (reserve_many_counts 5 "bus://42" (connection city_tables []) 3).
  - reflexivity.
  - reflexivity.
  - reflexivity.
  - lia.
Defined.

(** ** A member is not added twice, nor removed twice *)

Lemma userExists_quiet (urn : string) (d : Database.t) :
  Database.busy d = [] ->
  exists d', Database.userExists urn d
             = (Database.has_user (Database.tables d) (c_str urn), d')
             /\ Database.busy d' = [] /\ Database.tables d' = Database.tables d
             /\ Database.clock d' = Database.clock d.
Proof.
  intros Hb. unfold Database.userExists.
  pose proof (run_clock (Database.SELECT_user (c_str urn)) d) as C.
  destruct (run_quiet (Database.SELECT_user (c_str urn)) d Hb) as (d' & E & B & T & _).
  rewrite E in *. cbn [snd] in C. exists d'. rewrite T. auto.
Qed.

Lemma getGroupIdByName_quiet (name : string) (d : Database.t) :
  Database.busy d = [] ->
  exists d', Database.getGroupIdByName name d
             = (match find (fun g => Database.group_named (c_str name) g && g_active g)%bool
                             (Database.groups (Database.tables d)) with
                | Some g => g_group_id g
                | None => -1
                end, d')
             /\ Database.busy d' = [] /\ Database.tables d' = Database.tables d.
Proof.
  intros Hb. unfold Database.getGroupIdByName.
  destruct (run_quiet (Database.SELECT_group_id_active (c_str name)) d Hb)
    as (d' & -> & B & T & _).
  exists d'. rewrite T. destruct (find _ _); auto.
Qed.

Lemma find_reactivated (gid : Z) (urn stamp : string) (l : list GroupMember) :
  find (Database.member_row gid urn) l <> None ->
  exists r', find (Database.member_row gid urn)
               (map (fun r => if Database.member_row gid urn r
                              then mkGroupMember (gm_group_id r) (gm_member_urn r) stamp true
                              else r) l) = Some r'
             /\ gm_active r' = true.
Proof.
  induction l as [|x l IH]; cbn [find map]; [congruence|].
  destruct (Database.member_row gid urn x) eqn:M.
  - intros _. exists (mkGroupMember (gm_group_id x) (gm_member_urn x) stamp true).
    split; [|reflexivity].
    assert (M' : Database.member_row gid urn
                   (mkGroupMember (gm_group_id x) (gm_member_urn x) stamp true) = true)
      by exact M.
    now rewrite M'.
  - rewrite M. exact IH.
Qed.

(** What a successful [addUserToGroup] leaves: the first row of that
    member in that group is active, and the users and groups are as
    before. *)
Lemma addUserToGroup_success (urn name : string) (d d1 : Database.t) :
  Database.busy d = [] ->
  Database.addUserToGroup urn name d = (true, d1) ->
  exists gid r,
    0 < gid
    /\ fst (Database.getGroupIdByName name d) = gid
    /\ Database.has_user (Database.tables d) (c_str urn) = true
    /\ Database.busy d1 = []
    /\ Database.users (Database.tables d1) = Database.users (Database.tables d)
    /\ Database.groups (Database.tables d1) = Database.groups (Database.tables d)
    /\ find (Database.member_row gid (c_str urn)) (Database.group_members (Database.tables d1))
       = Some r
    /\ gm_active r = true.
Proof.
  intros Hb. unfold Database.addUserToGroup.
  set (d0 := Database.setLastError d "" 0).
  assert (Hb0 : Database.busy d0 = []) by exact Hb.
  destruct (userExists_quiet urn d0 Hb0) as (da & -> & Ba & Ta & _).
  change (Database.tables d0) with (Database.tables d) in *.
  destruct (Database.has_user (Database.tables d) (c_str urn)) eqn:Hu; [|discriminate].
  cbn [negb].
  destruct (getGroupIdByName_quiet name d Hb) as (dx & Ex & _ & _).
  destruct (getGroupIdByName_quiet name da Ba) as (db & -> & Bb & Tb).
  rewrite Ta in *. rewrite Ex. cbn [fst].
  set (gid := match find _ _ with Some g => g_group_id g | None => -1 end) in *.
  destruct (Z.leb_spec gid 0) as [|Hg]; [discriminate|].
  cbv zeta.
  destruct (run_quiet (Database.SELECT_group_member gid (c_str urn)) db Bb)
    as (dc & -> & Bc & Tc & _).
  rewrite Tc, Tb.
  destruct (find (Database.member_row gid (c_str urn))
              (Database.group_members (Database.tables d))) as [r|] eqn:F.
  - destruct (gm_active r) eqn:Ha; [discriminate|].
    destruct (run_quiet (Database.UPDATE_group_member gid (c_str urn)) dc Bc)
      as (dd & -> & Bd & Td & _).
    rewrite Td, Tc, Tb.
    destruct (negb _); [discriminate|].
    intros E. injection E as <-.
    destruct (find_reactivated gid (c_str urn) (c_str (Database.clock dd))
                (Database.group_members (Database.tables d)) ltac:(congruence))
      as (r' & Fr & Ar).
    exists gid, r'. cbn [Database.tables Database.with_tables Database.busy
      Database.users Database.groups Database.group_members Database.set_group_members].
    repeat split; assumption.
  - destruct (run_quiet (Database.INSERT_group_member gid (c_str urn)) dc Bc)
      as (dd & -> & Bd & Td & _).
    rewrite Td, Tc, Tb.
    destruct (existsb (Database.member_row gid (c_str urn))
                (Database.group_members (Database.tables d))) eqn:Ex1; [discriminate|].
    cbn [orb].
    destruct (negb (Database.has_group_id (Database.tables d) gid)
              || negb (Database.has_user (Database.tables d) (c_str urn)))%bool;
      [discriminate|].
    cbn [negb Z.eqb Database.SQLITE_DONE Pos.eqb].
    intros E. injection E as <-.
    exists gid, (mkGroupMember gid (c_str urn) (c_str (Database.clock dd)) true).
    cbn [Database.tables Database.with_tables Database.busy
      Database.users Database.groups Database.group_members Database.set_group_members].
    repeat split; try assumption.
    apply find_app_new; [exact Ex1|].
    unfold Database.member_row. cbn. now rewrite Z.eqb_refl, String.eqb_refl.
Qed.

Lemma filter_out_shrinks {A} (f : A -> bool) (l : list A) (x : A) :
  find f l = Some x ->
  zlen l - zlen (filter (fun r => negb (f r)) l) <> 0.
Proof.
  intros F. unfold zlen.
  assert (H : (List.length (filter (fun r => negb (f r)) l) < List.length l)%nat).
  { induction l as [|a l IH]; [discriminate|]. cbn [find] in F. cbn [filter].
    pose proof (filter_length_le (fun r => negb (f r)) l).
    destruct (f a); cbn [negb List.length]; [lia|]. specialize (IH F). lia. }
  lia.
Qed.

Lemma filter_out_again {A} (f : A -> bool) (l : list A) :
  filter (fun r => negb (f r)) (filter (fun r => negb (f r)) l)
  = filter (fun r => negb (f r)) l.
Proof.
  induction l as [|a l IH]; [reflexivity|]. cbn [filter].
  destruct (f a) eqn:E; cbn [negb filter]; [exact IH|]. rewrite E. cbn. now rewrite IH.
Qed.

Lemma removeUserFromGroup_quiet (urn name : string) (d : Database.t) (gid : Z) :
  Database.busy d = [] ->
  fst (Database.getGroupIdByName name d) = gid -> 0 < gid ->
  let kept := filter (fun r => negb (Database.member_row gid (c_str urn) r))
                (Database.group_members (Database.tables d)) in
  let changes := zlen (Database.group_members (Database.tables d)) - zlen kept in
  let r := Database.removeUserFromGroup urn name d in
  Database.busy (snd r) = []
  /\ Database.tables (snd r) = Database.set_group_members (Database.tables d) kept
  /\ fst r = negb (changes =? 0)
  /\ (changes = 0 -> Database.getLastError (snd r) = "User not in group"
                     /\ Database.getLastErrorCode (snd r) = Database.SQLITE_NOTFOUND).
Proof.
  intros Hb Hg Hpos. cbv zeta. unfold Database.removeUserFromGroup.
  set (d0 := Database.setLastError d "" 0).
  assert (Hb0 : Database.busy d0 = []) by exact Hb.
  destruct (getGroupIdByName_quiet name d Hb) as (dx & Ex & _ & _).
  destruct (getGroupIdByName_quiet name d0 Hb0) as (da & -> & Ba & Ta).
  change (Database.tables d0) with (Database.tables d) in *.
  rewrite Ex in Hg. cbn [fst] in Hg. rewrite Hg.
  replace (gid <=? 0) with false by (symmetry; apply Z.leb_gt; lia).
  destruct (run_quiet (Database.DELETE_group_member gid (c_str urn)) da Ba)
    as (db & -> & Bb & Tb & _).
  rewrite Tb, Ta.
  destruct (_ =? 0) eqn:E; cbn; (repeat split; try assumption; try reflexivity).
  all: intros; match goal with Hz : _ = 0 |- _ => rewrite Hz in E; discriminate end.
Qed.

(** X15.  Once [addUserToGroup] has succeeded on an idle connection,
    adding the same user to the same group again fails with
    [User already in group], code [SQLITE_CONSTRAINT], and changes no
    table; [removeUserFromGroup] then succeeds, and a second removal
    fails with [User not in group], code [SQLITE_NOTFOUND], and changes
    no table. *)
Theorem member_not_added_nor_removed_twice (urn name : string) (d d1 : Database.t) :
  Database.busy d = [] ->
  Database.addUserToGroup urn name d = (true, d1) ->
  let again := Database.addUserToGroup urn name d1 in
  let removed := Database.removeUserFromGroup urn name (snd again) in
  let removed_again := Database.removeUserFromGroup urn name (snd removed) in
  (fst again = false
   /\ Database.getLastError (snd again) = "User already in group"
   /\ Database.getLastErrorCode (snd again) = Database.SQLITE_CONSTRAINT
   /\ Database.tables (snd again) = Database.tables d1)
  /\ fst removed = true
  /\ (fst removed_again = false
      /\ Database.getLastError (snd removed_again) = "User not in group"
      /\ Database.getLastErrorCode (snd removed_again) = Database.SQLITE_NOTFOUND
      /\ Database.tables (snd removed_again) = Database.tables (snd removed)).
Proof.
  intros Hb Hadd.
  destruct (addUserToGroup_success urn name d d1 Hb Hadd)
    as (gid & r & Hpos & Hgid & Hu & B1 & U1 & G1 & F1 & A1).
  assert (Hgid1 : forall x, Database.busy x = [] ->
                    Database.groups (Database.tables x) = Database.groups (Database.tables d) ->
                    fst (Database.getGroupIdByName name x) = gid).
  { intros x Bx Gx. destruct (getGroupIdByName_quiet name x Bx) as (x' & -> & _).
    destruct (getGroupIdByName_quiet name d Hb) as (d' & Ed & _).
    rewrite Ed in Hgid. cbn [fst] in *. now rewrite Gx. }
  (* the second add *)
  assert (Hagain : fst (Database.addUserToGroup urn name d1) = false
            /\ Database.getLastError (snd (Database.addUserToGroup urn name d1))
               = "User already in group"
            /\ Database.getLastErrorCode (snd (Database.addUserToGroup urn name d1))
               = Database.SQLITE_CONSTRAINT
            /\ Database.tables (snd (Database.addUserToGroup urn name d1))
               = Database.tables d1
            /\ Database.busy (snd (Database.addUserToGroup urn name d1)) = []).
  { unfold Database.addUserToGroup.
    set (d0 := Database.setLastError d1 "" 0).
    assert (Hb0 : Database.busy d0 = []) by exact B1.
    destruct (userExists_quiet urn d0 Hb0) as (da & -> & Ba & Ta & _).
    change (Database.tables d0) with (Database.tables d1) in *.
    assert (Hu1 : Database.has_user (Database.tables d1) (c_str urn) = true)
      by (unfold Database.has_user in *; now rewrite U1).
    rewrite Hu1. cbn [negb].
    pose proof (Hgid1 da Ba ltac:(now rewrite Ta)) as Ga.
    destruct (Database.getGroupIdByName name da) as [g db] eqn:Eg.
    destruct (getGroupIdByName_quiet name da Ba) as (db' & Eg' & Bb & Tb).
    rewrite Eg in Eg'. injection Eg' as _ <-. cbn [fst] in Ga. subst g.
    replace (gid <=? 0) with false by (symmetry; apply Z.leb_gt; lia).
    cbv zeta.
    destruct (run_quiet (Database.SELECT_group_member gid (c_str urn)) db Bb)
      as (dc & -> & Bc & Tc & _).
    rewrite Tc, Tb, Ta, F1, A1. cbn. repeat split; try assumption; congruence. }
  destruct Hagain as (Ha1 & Ha2 & Ha3 & Ha4 & Ha5).
  cbv zeta. split; [repeat split; assumption|].
  set (d2 := snd (Database.addUserToGroup urn name d1)) in *.
  assert (G2 : fst (Database.getGroupIdByName name d2) = gid)
    by (apply Hgid1; [assumption | now rewrite Ha4]).
  destruct (removeUserFromGroup_quiet urn name d2 gid Ha5 G2 Hpos) as (B3 & T3 & R3 & _).
  set (d3 := snd (Database.removeUserFromGroup urn name d2)) in *.
  split.
  - rewrite R3. rewrite Ha4.
    pose proof (filter_out_shrinks _ _ _ F1) as Hne.
    apply Z.eqb_neq in Hne. now rewrite Hne.
  - assert (G3 : fst (Database.getGroupIdByName name d3) = gid)
      by (apply Hgid1; [assumption | rewrite T3; cbn; now rewrite Ha4]).
    destruct (removeUserFromGroup_quiet urn name d3 gid B3 G3 Hpos) as (B4 & T4 & R4 & E4).
    assert (Hz : zlen (Database.group_members (Database.tables d3))
                 - zlen (filter (fun r => negb (Database.member_row gid (c_str urn) r))
                           (Database.group_members (Database.tables d3))) = 0).
    { rewrite T3. cbn [Database.group_members Database.set_group_members].
      rewrite filter_out_again. lia. }
    rewrite Hz in R4. destruct (E4 Hz) as [E41 E42].
    repeat split; try assumption.
    rewrite T4, T3. cbn. now rewrite filter_out_again.
Qed.

Lemma member_not_added_nor_removed_twice_witness :
  fst (Database.addUserToGroup member2_urn "TEAM1"
         (snd (Database.addUserToGroup member2_urn "TEAM1" team_db))) = false
  /\ fst (Database.removeUserFromGroup member2_urn "TEAM1"
            (snd (Database.addUserToGroup member2_urn "TEAM1"
                    (snd (Database.addUserToGroup member2_urn "TEAM1" team_db))))) = true.
Proof.
  destruct (member_not_added_nor_removed_twice member2_urn "TEAM1" team_db
              (snd (Database.addUserToGroup member2_urn "TEAM1" team_db)))
    as ((H1 & _) & H2 & _).
  - reflexivity.
  - vm_compute. reflexivity.
  - split; [exact H1 | exact H2].
Defined.
